(** * blog-poster: the content-packaging code of the four entry points

    The repository's own logic is the function [save_content_to_files]
    (in [main.py], [researcherkilo.py], [researcherqwen.py]) and
    [create_download_zip] (in [streamlit_app.py]): slug generation, section
    extraction by marker search, and the files written for a topic; beside
    them the Scholar search tool and the image generation of [main.py].
    The functions write files and print progress messages; both can raise,
    and the model says when.

    Python [str] values are sequences of Unicode code points; they are
    modelled as lists of code points, so that [len], slicing and [find]
    count what Python counts. *)

From Stdlib Require Import ZArith List Lia Bool Ascii String.
From stdpp Require Import base gmap list.
Import ListNotations.

Set Default Proof Using "Type".
Local Open Scope Z_scope.

(** ** Python strings *)

Definition char := N.
Definition str := list char.

Definition len (s : str) : Z := Z.of_nat (length s).

(** Text of the source's literals.  A Rocq literal is the UTF-8 byte
    sequence of what is between the quotes; [py] decodes it to code points
    and reads the escape [\n] as Python does, so that a literal here is
    written exactly as in the source. *)

Fixpoint utf8_decode (bs : list N) : str :=
  match bs with
  | [] => []
  | b :: r =>
      if (b <? 128)%N then b :: utf8_decode r
      else if (b <? 224)%N then
        match r with
        | b1 :: r1 => ((b - 192) * 64 + (b1 - 128))%N :: utf8_decode r1
        | [] => []
        end
      else if (b <? 240)%N then
        match r with
        | b1 :: b2 :: r2 =>
            ((b - 224) * 4096 + (b1 - 128) * 64 + (b2 - 128))%N :: utf8_decode r2
        | _ => []
        end
      else
        match r with
        | b1 :: b2 :: b3 :: r3 =>
            ((b - 240) * 262144 + (b1 - 128) * 4096 + (b2 - 128) * 64 + (b3 - 128))%N
              :: utf8_decode r3
        | _ => []
        end
  end.

Fixpoint unescape (s : str) : str :=
  match s with
  | 92%N :: 110%N :: r => 10%N :: unescape r
  | c :: r => c :: unescape r
  | [] => []
  end.

Definition py (s : string) : str :=
  unescape (utf8_decode (map N_of_ascii (list_ascii_of_string s))).

(** [str.isspace] for one character: CPython's [_PyUnicode_IsWhitespace]. *)
Definition isspace (c : char) : bool :=
  ((9 <=? c) && (c <=? 13) || (28 <=? c) && (c <=? 32)
   || (c =? 133) || (c =? 160) || (c =? 5760)
   || (8192 <=? c) && (c <=? 8202)
   || (c =? 8232) || (c =? 8233) || (c =? 8239) || (c =? 8287)
   || (c =? 12288))%N.

Fixpoint lstrip (s : str) : str :=
  match s with
  | c :: r => if isspace c then lstrip r else s
  | [] => []
  end.

Definition rstrip (s : str) : str := rev (lstrip (rev s)).

Definition strip (s : str) : str := rstrip (lstrip s).

(** Slice indices as Python adjusts them: a negative index counts from the
    end, and both ends are clamped to [0, len]. *)
Definition clamp (n i : Z) : Z :=
  if i <? 0 then Z.max 0 (i + n) else Z.min i n.

(** [s[a:b]] *)
Definition slice (s : str) (a b : Z) : str :=
  let lo := clamp (len s) a in
  let hi := clamp (len s) b in
  if lo <? hi then take (Z.to_nat (hi - lo)) (drop (Z.to_nat lo) s) else [].

(** [s[a:]] *)
Definition slice_from (s : str) (a : Z) : str :=
  drop (Z.to_nat (clamp (len s) a)) s.

(** [s[:b]] *)
Definition slice_to (s : str) (b : Z) : str :=
  take (Z.to_nat (clamp (len s) b)) s.

Fixpoint startswith (s sub : str) : bool :=
  match sub, s with
  | [], _ => true
  | c :: sub', d :: s' => (c =? d)%N && startswith s' sub'
  | _ :: _, [] => false
  end.

Fixpoint find_at (sub s : str) (i : Z) : Z :=
  if startswith s sub then i
  else match s with
       | [] => -1
       | _ :: s' => find_at sub s' (i + 1)
       end.

(** [s.find(sub)]: the lowest index where [sub] occurs, [-1] if none. *)
Definition find (s sub : str) : Z := find_at sub s 0.

(** [s.find(sub, start)] *)
Definition find_from (s sub : str) (start : Z) : Z :=
  if len s <? start then -1
  else let k := clamp (len s) start in
       find_at sub (drop (Z.to_nat k) s) k.

(** [sub in s] *)
Fixpoint contains (sub s : str) : bool :=
  startswith s sub ||
  match s with
  | [] => false
  | _ :: s' => contains sub s'
  end.

(** [str(n)] for a natural number. *)
Fixpoint decimal (fuel n : nat) (acc : str) : str :=
  match fuel with
  | O => acc
  | S fuel' =>
      let acc' := N.of_nat (48 + n mod 10) :: acc in
      if (n / 10 =? 0)%nat then acc' else decimal fuel' (n / 10)%nat acc'
  end.

Definition str_of_nat (n : nat) : str := decimal (S n) n [].

(** [sub] occurs in [s] at index [p]. *)
Definition occurs_at (sub s : str) (p : nat) : Prop :=
  exists pre post, s = pre ++ sub ++ post /\ length pre = p.

(** ** The clock

    [datetime.now()] reads the wall clock; the fields below are what the two
    format strings of the source print. *)

Record datetime := DateTime {
  year : nat; month : nat; day : nat;
  hour : nat; minute : nat; second : nat
}.

Definition zfill (w : nat) (s : str) : str :=
  replicate (w - length s) 48%N ++ s.

(** One [%] directive of [strftime]; the source uses [%Y %m %d %H %M %S]. *)
Definition directive (d : datetime) (c : char) : str :=
  if (c =? 89)%N then zfill 4 (str_of_nat (year d))
  else if (c =? 109)%N then zfill 2 (str_of_nat (month d))
  else if (c =? 100)%N then zfill 2 (str_of_nat (day d))
  else if (c =? 72)%N then zfill 2 (str_of_nat (hour d))
  else if (c =? 77)%N then zfill 2 (str_of_nat (minute d))
  else if (c =? 83)%N then zfill 2 (str_of_nat (second d))
  else [37%N; c].

Fixpoint strftime (d : datetime) (fmt : str) : str :=
  match fmt with
  | 37%N :: c :: r => directive d c ++ strftime d r
  | c :: r => c :: strftime d r
  | [] => []
  end.

(** ** Effects: clock reads, directory creation, file writes and the console

    The functions of the source read the clock several times, write files
    and print progress messages.  None of them catches what these steps
    raise, except where a [try] is written out below:
    - a refused [os.makedirs] or [open] raises [OSError];
    - [f.write(s)] on a file opened with [encoding="utf-8"] raises
      [UnicodeEncodeError] when [s] holds a surrogate code point, which
      UTF-8 cannot encode;
    - [print(s)] raises [UnicodeEncodeError] when the encoding of
      [sys.stdout] cannot encode a character of [s].
    The device is taken to hold what is written: once a file is open, a
    write fails only in the encoding. *)

(** The [encoding] attribute of a [UnicodeEncodeError]: UTF-8 for the files,
    the encoding of [sys.stdout] for [print]. *)
Inductive codec := utf_8 | stdout_encoding.

Inductive exn :=
| OSError (path : str)
| UnicodeEncodeError (encoding : codec) (object : str).

Inductive outcome (A : Type) :=
| Returns (a : A)
| Raises (e : exn).
Arguments Returns {A} a.
Arguments Raises {A} e.

(** The environment of a run: what the clock shows at its n-th reading,
    which paths the filesystem refuses to create or open for writing, and
    which characters the encoding of [sys.stdout] can encode. *)
Record env := Env {
  clock : nat -> datetime;
  refuses : str -> bool;
  stdout_encodes : char -> bool
}.

Record world := World {
  ticks : nat;
  dirs : list str;
  disk : gmap str str
}.

Definition M (A : Type) : Type := env -> world -> outcome A * world.

#[global] Instance M_ret : MRet M := fun A a _ w => (Returns a, w).

#[global] Instance M_bind : MBind M := fun A B k c e w =>
  match c e w with
  | (Returns a, w') => k a e w'
  | (Raises x, w') => (Raises x, w')
  end.

(** [raise x] *)
Definition raise {A : Type} (x : exn) : M A := fun _ w => (Raises x, w).

(** [try: body  except Exception as e: handler(e)] *)
Definition try_except {A : Type} (body : M A) (handler : exn -> M A) : M A :=
  fun e w =>
    match body e w with
    | (Returns a, w') => (Returns a, w')
    | (Raises x, w') => handler x e w'
    end.

(** [datetime.now()] *)
Definition now : M datetime := fun e w =>
  (Returns (clock e (ticks w)),
   {| ticks := S (ticks w); dirs := dirs w; disk := disk w |}).

(** [time.sleep(seconds)]: time passes, which the clock of the environment
    shows at its next reading; nothing else changes. *)
Definition sleep (seconds : Z) : M unit := mret tt.

(** [os.makedirs(path, exist_ok=True)] *)
Definition makedirs (path : str) : M unit := fun e w =>
  if refuses e path then (Raises (OSError path), w)
  else (Returns tt,
        {| ticks := ticks w; dirs := path :: dirs w; disk := disk w |}).

(** [open(path, "w", encoding="utf-8")] and [open(path, "wb")]: the file is
    created or truncated; the handle is the path. *)
Definition open_w (path : str) : M str := fun e w =>
  if refuses e path then (Raises (OSError path), w)
  else (Returns path,
        {| ticks := ticks w; dirs := dirs w; disk := <[path := []]> (disk w) |}).

(** The surrogate code points [U+D800 .. U+DFFF]. *)
Definition is_surrogate (c : char) : bool := ((55296 <=? c) && (c <=? 57343))%N.

(** [s.encode("utf-8")] succeeds: [s] holds no surrogate. *)
Definition encodable (s : str) : bool := forallb (fun c => negb (is_surrogate c)) s.

(** [f.write(s)] on a text file opened with [encoding="utf-8"].  The text is
    encoded before any of it reaches the file, so a failing write leaves the
    file with what was written before. *)
Definition f_write (f : str) (s : str) : M unit := fun e w =>
  if encodable s then
    (Returns tt,
     {| ticks := ticks w; dirs := dirs w;
        disk := <[f := default [] (disk w !! f) ++ s]> (disk w) |})
  else (Raises (UnicodeEncodeError utf_8 s), w).

(** [f.write(data)] on a file opened with ["wb"]: [data] is a byte string,
    nothing is encoded. *)
Definition f_write_bytes (f : str) (data : str) : M unit := fun e w =>
  (Returns tt,
   {| ticks := ticks w; dirs := dirs w;
      disk := <[f := default [] (disk w !! f) ++ data]> (disk w) |}).

(** [print(s)]: [s] and a newline are encoded for [sys.stdout].  What the
    console then shows is not part of the world. *)
Definition print (s : str) : M unit := fun e w =>
  if forallb (stdout_encodes e) (s ++ [10%N]) then (Returns tt, w)
  else (Raises (UnicodeEncodeError stdout_encoding s), w).

(** [str(b)] for a boolean. *)
Definition str_of_bool (b : bool) : str := if b then py "True" else py "False".

(** [str(n)] for an integer. *)
Definition str_of_Z (n : Z) : str :=
  if n <? 0 then py "-" ++ str_of_nat (Z.to_nat (- n)) else str_of_nat (Z.to_nat n).

(** ** Markers *)

Definition BLOG_POST : str := py "# BLOG POST".
Definition LINKEDIN_POSTS : str := py "# LINKEDIN POSTS".
Definition X_TWITTER_POSTS : str := py "# X/TWITTER POSTS".
Definition MIDJOURNEY_PROMPTS : str := py "# MIDJOURNEY PROMPTS".

(** The loop of the source over [end_markers]:
<<
    for marker in end_markers:
        marker_pos = <search for marker>
        if marker_pos > start:
            end = marker_pos
            break
>>
    [default] is the value the end has before the loop. *)
Fixpoint scan_end_markers (marker_pos : str -> Z) (start default : Z)
    (end_markers : list str) : Z :=
  match end_markers with
  | [] => default
  | marker :: rest =>
      if start <? marker_pos marker then marker_pos marker
      else scan_end_markers marker_pos start default rest
  end.

(** ** Slug generation

    [str.isalnum] follows the Unicode general categories (letters and
    numbers), a table of the Python runtime: it is a parameter here. *)

Section Slug.
Variable isalnum : char -> bool.

(** [c.isalnum() or c in (' ', '-', '_')] *)
Definition keep (c : char) : bool :=
  isalnum c || existsb (N.eqb c) [32%N; 45%N; 95%N].

(** [safe_topic = "".join(c for c in topic if ...).rstrip()[:50]] *)
Definition safe_topic (topic : str) : str :=
  slice_to (rstrip (List.filter keep topic)) 50.
End Slug.

(** [str.isalnum] on ASCII: digits and letters.  Used at concrete inputs. *)
Definition isalnum_ascii (c : char) : bool :=
  ((48 <=? c) && (c <=? 57) || (65 <=? c) && (c <=? 90)
   || (97 <=? c) && (c <=? 122))%N.

(** ** [researcherqwen.py]: [DataScienceContentCreator.save_content_to_files] *)

Module Qwen.
Section WithTable.
Variable isalnum : char -> bool.

(** *** Blog section *)

Definition blog_start (content_str : str) : Z :=
  find content_str BLOG_POST + len BLOG_POST.

Definition blog_end_markers : list str :=
  [LINKEDIN_POSTS; X_TWITTER_POSTS; MIDJOURNEY_PROMPTS].

Definition blog_end (content_str : str) : Z :=
  scan_end_markers (find content_str) (blog_start content_str)
    (len content_str) blog_end_markers.

Definition blog_content (content_str : str) : str :=
  strip (slice content_str (blog_start content_str) (blog_end content_str)).

(** *** Social section *)

Definition social_start (content_str : str) : Z :=
  find content_str LINKEDIN_POSTS.

Definition social_end_markers : list str :=
  [X_TWITTER_POSTS; MIDJOURNEY_PROMPTS].

Definition social_end (content_str : str) : Z :=
  let social_start := social_start content_str in
  let social_end :=
    scan_end_markers (fun marker => find_from content_str marker (social_start + 1))
      social_start (len content_str) social_end_markers in
  if contains X_TWITTER_POSTS content_str then
    let twitter_start := find content_str X_TWITTER_POSTS in
    if (twitter_start <? social_end) || (social_end =? len content_str) then
      let midjourney_start := find content_str MIDJOURNEY_PROMPTS in
      if twitter_start <? midjourney_start then midjourney_start
      else len content_str
    else social_end
  else social_end.

Definition social_content (content_str : str) : str :=
  strip (slice content_str (social_start content_str) (social_end content_str)).

(** *** MidJourney section *)

Definition midjourney_start (content_str : str) : Z :=
  find content_str MIDJOURNEY_PROMPTS.

Definition midjourney_content (content_str : str) : str :=
  strip (slice_from content_str (midjourney_start content_str)).

Definition iso : str := py "%Y-%m-%d %H:%M:%S".

(** [# Save complete content] *)
Definition save_complete (output_dir topic content_str : str) : M unit :=
  f ← open_w (output_dir ++ py "/complete_technical_content.md");
  f_write f (py "# Technical Content Package: " ++ topic ++ py "\n\n");;
  t ← now;
  f_write f (py "**Generated:** " ++ strftime t iso ++ py "\n");;
  f_write f (py "**Perspective:** Data Scientist Technical Blog\n");;
  f_write f (py "**Model:** DeepSeek R1 Distill Llama 70B\n\n");;
  f_write f (py "---\n\n");;
  f_write f content_str;;
  print (py "✅ Saved: complete_technical_content.md").

(** [# Extract blog post with improved logic], up to the message for a
    section that was not extracted; the result is [blog_extracted]. *)
Definition extract_blog (output_dir topic content_str : str) : M bool :=
  blog_extracted ←
    (if contains BLOG_POST content_str then
       let blog_content := blog_content content_str in
       if 100 <? len blog_content then
         f ← open_w (output_dir ++ py "/technical_blog_post.md");
         f_write f (py "# " ++ topic ++ py "\n\n");;
         f_write f (py "*Technical blog post from a data scientist's perspective*\n");;
         t ← now;
         f_write f (py "*Generated: " ++ strftime t iso ++ py "*\n\n");;
         f_write f blog_content;;
         print (py "✅ Saved: technical_blog_post.md");;
         mret true
       else
         print (py "⚠️  Blog content too short (" ++ str_of_Z (len blog_content)
                ++ py " chars), not saving separate file");;
         mret false
     else mret false);
  (if negb blog_extracted then
     print (py "❌ Could not extract blog post - check complete_technical_content.md for raw output")
   else mret tt);;
  mret blog_extracted.

(** [# Extract social media content]; the result is [social_extracted]. *)
Definition extract_social (output_dir topic content_str : str) : M bool :=
  social_extracted ←
    (if contains LINKEDIN_POSTS content_str then
       let social_content := social_content content_str in
       if 50 <? len social_content then
         f ← open_w (output_dir ++ py "/social_media_posts.md");
         f_write f (py "# Social Media Content: " ++ topic ++ py "\n\n");;
         t ← now;
         f_write f (py "*Generated: " ++ strftime t iso ++ py "*\n\n");;
         f_write f social_content;;
         print (py "✅ Saved: social_media_posts.md");;
         mret true
       else mret false
     else mret false);
  (if negb social_extracted then
     print (py "⚠️  Could not extract social media content")
   else mret tt);;
  mret social_extracted.

(** [# Extract MidJourney prompts]; the result is [midjourney_extracted]. *)
Definition extract_midjourney (output_dir topic content_str : str) : M bool :=
  midjourney_extracted ←
    (if contains MIDJOURNEY_PROMPTS content_str then
       let midjourney_content := midjourney_content content_str in
       if 30 <? len midjourney_content then
         f ← open_w (output_dir ++ py "/midjourney_prompts.md");
         f_write f (py "# MidJourney Prompts: " ++ topic ++ py "\n\n");;
         t ← now;
         f_write f (py "*Generated: " ++ strftime t iso ++ py "*\n\n");;
         f_write f midjourney_content;;
         print (py "✅ Saved: midjourney_prompts.md");;
         mret true
       else mret false
     else mret false);
  (if negb midjourney_extracted then
     print (py "⚠️  Could not extract MidJourney prompts content")
   else mret tt);;
  mret midjourney_extracted.

(** [files_created], as counted before the README is written. *)
Definition files_created (blog_extracted social_extracted midjourney_extracted : bool)
    : nat :=
  let files_created := 1%nat in
  let files_created := if blog_extracted then (files_created + 1)%nat else files_created in
  let files_created := if social_extracted then (files_created + 1)%nat else files_created in
  let files_created := if midjourney_extracted then (files_created + 1)%nat else files_created in
  files_created.

Definition success_rate (files_created : nat) : str :=
  py "**Success Rate:** " ++ str_of_nat files_created ++ py "/5 files created\n\n".

Definition blog_line (blog_extracted : bool) : str :=
  if blog_extracted
  then py "- ✅ `technical_blog_post.md` - **MAIN TECHNICAL BLOG** (1000-1500 words)\n"
  else py "- ❌ `technical_blog_post.md` - Main technical blog (not extracted)\n".

Definition social_line (social_extracted : bool) : str :=
  if social_extracted
  then py "- ✅ `social_media_posts.md` - LinkedIn & Twitter content\n"
  else py "- ❌ `social_media_posts.md` - Social media content (not extracted)\n".

Definition midjourney_line (midjourney_extracted : bool) : str :=
  if midjourney_extracted
  then py "- ✅ `midjourney_prompts.md` - MidJourney visual prompts\n"
  else py "- ❌ `midjourney_prompts.md` - MidJourney prompts (not extracted)\n".

(** [# Create README for technical content] *)
Definition write_readme (output_dir topic : str)
    (blog_extracted social_extracted midjourney_extracted : bool) : M unit :=
  let files_created :=
    files_created blog_extracted social_extracted midjourney_extracted in
  f ← open_w (output_dir ++ py "/README.md");
  f_write f (py "# Technical Content: " ++ topic ++ py "\n\n");;
  t ← now;
  f_write f (py "**Generated:** " ++ strftime t iso ++ py "\n");;
  f_write f (py "**Style:** Data Scientist Technical Perspective\n");;
  f_write f (success_rate files_created);;
  f_write f (py "## 📁 Files:\n\n");;
  f_write f (blog_line blog_extracted);;
  f_write f (social_line social_extracted);;
  f_write f (midjourney_line midjourney_extracted);;
  f_write f (py "- ✅ `complete_technical_content.md` - All content including social media\n");;
  f_write f (py "- ✅ `README.md` - This file\n\n");;
  f_write f (py "## 🔬 Content Features:\n\n");;
  f_write f (py "✅ Technical depth with practical implementation\n");;
  f_write f (py "✅ Code examples and technical details\n");;
  f_write f (py "✅ Personal insights from data science experience\n");;
  f_write f (py "✅ Real-world applications and challenges\n");;
  f_write f (py "✅ Technical social media content\n");;
  f_write f (py "✅ MidJourney prompts for professional blog visuals\n");;
  (if (files_created <? 4)%nat then
     f_write f (py "\n## ⚠️ Extraction Issues:\n\n");;
     f_write f (py "Some content sections couldn't be extracted. Check `complete_technical_content.md` for the full output.\n");;
     f_write f (py "The content might be there but not properly formatted with the expected headers.\n")
   else mret tt);;
  print (py "✅ Saved: README.md");;
  print (py "📊 Successfully created " ++ str_of_nat files_created ++ py "/5 files").

(** [# Debug: Show what we're working with] *)
Definition debug (content_str : str) : M unit :=
  print (py "🔍 DEBUG: Content length: " ++ str_of_Z (len content_str)
         ++ py " characters");;
  print (py "🔍 DEBUG: Looking for '# BLOG POST' in content...");;
  print (py "🔍 DEBUG: Contains '# BLOG POST': "
         ++ str_of_bool (contains BLOG_POST content_str));;
  print (py "🔍 DEBUG: Contains '# LINKEDIN POSTS': "
         ++ str_of_bool (contains LINKEDIN_POSTS content_str));;
  print (py "🔍 DEBUG: Contains '# MIDJOURNEY PROMPTS': "
         ++ str_of_bool (contains MIDJOURNEY_PROMPTS content_str));;
  print (py "🔍 DEBUG: First 300 characters:\n" ++ slice_to content_str 300).

Definition save_content_to_files (topic content : str) : M str :=
  t ← now;
  let timestamp := strftime t (py "%Y%m%d_%H%M%S") in
  let safe_topic := safe_topic isalnum topic in
  let output_dir := py "technical_content/" ++ safe_topic ++ py "_" ++ timestamp in
  makedirs output_dir;;
  print (py "\n💾 Saving technical content to: " ++ output_dir);;
  let content_str := content in
  debug content_str;;
  save_complete output_dir topic content_str;;
  blog_extracted ← extract_blog output_dir topic content_str;
  social_extracted ← extract_social output_dir topic content_str;
  midjourney_extracted ← extract_midjourney output_dir topic content_str;
  write_readme output_dir topic blog_extracted social_extracted midjourney_extracted;;
  mret output_dir.

End WithTable.
End Qwen.

(** ** [main.py]: [SimpleSocialCreator.save_content_to_files] *)

Module Main.
Section WithTable.
Variable isalnum : char -> bool.

Definition blog_start (content_str : str) : Z :=
  find content_str BLOG_POST + len BLOG_POST.

Definition blog_end (content_str : str) : Z :=
  let blog_end := find content_str LINKEDIN_POSTS in
  let blog_end :=
    if blog_end =? -1 then find content_str X_TWITTER_POSTS else blog_end in
  let blog_end := if blog_end =? -1 then len content_str else blog_end in
  blog_end.

Definition blog_content (content_str : str) : str :=
  strip (slice content_str (blog_start content_str) (blog_end content_str)).

Definition iso : str := py "%Y-%m-%d %H:%M:%S".

(** [# Save complete content with better blog extraction] *)
Definition save_blog (output_dir topic content : str) : M unit :=
  f ← open_w (output_dir ++ py "/01_BLOG_POST_MEDIUM.md");
  f_write f (py "# " ++ topic ++ py "\n\n");;
  t ← now;
  f_write f (py "*Ready for Medium.com - Generated on: " ++ strftime t iso ++ py "*\n\n");;
  let content_str := content in
  if contains BLOG_POST content_str then
    f_write f (blog_content content_str)
  else
    f_write f (py "⚠️ Blog content extraction failed. Check complete_content.md for full output.\n\n");;
    f_write f content.

(** [# Save complete content] *)
Definition save_complete (output_dir topic content : str) : M unit :=
  f ← open_w (output_dir ++ py "/complete_content.md");
  f_write f (py "# Complete Content Package: " ++ topic ++ py "\n\n");;
  t ← now;
  f_write f (py "**Generated on:** " ++ strftime t iso ++ py "\n\n");;
  f_write f (py "---\n\n");;
  f_write f content.

(** [for i, img_result in enumerate(images, 1): f.write(...)] *)
Fixpoint write_images (f : str) (i : nat) (images : list str) : M unit :=
  match images with
  | [] => mret tt
  | img_result :: rest =>
      f_write f (py "Image " ++ str_of_nat i ++ py ":\n" ++ img_result ++ py "\n\n");;
      write_images f (S i) rest
  end.

(** [# Save image info] *)
Definition save_images (output_dir topic : str) (images : list str) : M unit :=
  f ← open_w (output_dir ++ py "/images_generated.txt");
  f_write f (py "GENERATED IMAGES - " ++ topic ++ py "\n");;
  f_write f (replicate 50 61%N ++ py "\n\n");;
  write_images f 1 images.

(** [# Create README] *)
Definition write_readme (output_dir topic : str) : M unit :=
  f ← open_w (output_dir ++ py "/README.md");
  f_write f (py "# Content Package: " ++ topic ++ py "\n\n");;
  t ← now;
  f_write f (py "Generated on: " ++ strftime t iso ++ py "\n\n");;
  f_write f (py "## 📁 Files:\n\n");;
  f_write f (py "- `01_BLOG_POST_MEDIUM.md` - **MAIN BLOG POST** (800-1200 words for Medium.com)\n");;
  f_write f (py "- `complete_content.md` - All content in one file\n");;
  f_write f (py "- `images_generated.txt` - Image generation results\n");;
  f_write f (py "- `generated_images/` - Actual image files\n\n");;
  f_write f (py "## 🎯 Priority Content:\n\n");;
  f_write f (py "🔥 **MAIN DELIVERABLE**: `01_BLOG_POST_MEDIUM.md`\n\n");;
  f_write f (py "📱 **Social Media**: Check `complete_content.md` for LinkedIn & Twitter posts\n\n");;
  f_write f (py "## 📊 What's included:\n\n");;
  f_write f (py "✅ Comprehensive blog post (800-1200 words) - READY FOR MEDIUM\n");;
  f_write f (py "✅ LinkedIn posts (English + Turkish)\n");;
  f_write f (py "✅ X/Twitter posts (English + Turkish)\n");;
  f_write f (py "✅ AI-generated images\n");;
  f_write f (py "✅ Research-backed content with current data\n").

Definition save_content_to_files (topic content : str) (images : list str) : M str :=
  t ← now;
  let timestamp := strftime t (py "%Y%m%d_%H%M%S") in
  let safe_topic := safe_topic isalnum topic in
  let output_dir := py "outputs/" ++ safe_topic ++ py "_" ++ timestamp in
  makedirs output_dir;;
  print (py "\n💾 Saving content to: " ++ output_dir);;
  save_blog output_dir topic content;;
  save_complete output_dir topic content;;
  save_images output_dir topic images;;
  write_readme output_dir topic;;
  mret output_dir.

End WithTable.
End Main.

(** ** [researcherkilo.py]: [MultiAgentContentCreator.save_content_to_files]

    The three results are given as their [str(...)]. *)

Module Kilo.
Section WithTable.
Variable isalnum : char -> bool.

Definition iso : str := py "%Y-%m-%d %H:%M:%S".

(** [# Save research findings] *)
Definition save_research (output_dir topic research_result : str) : M unit :=
  f ← open_w (output_dir ++ py "/01_research_findings.md");
  f_write f (py "# Research Findings: " ++ topic ++ py "\n\n");;
  t ← now;
  f_write f (py "*Generated by Research Agent (Qwen 3-32B) on: " ++ strftime t iso ++ py "*\n\n");;
  f_write f research_result;;
  print (py "✅ Saved: 01_research_findings.md").

(** [# Save main blog post] *)
Definition save_blog (output_dir topic content_result : str) : M unit :=
  f ← open_w (output_dir ++ py "/02_technical_blog_post.md");
  f_write f (py "# " ++ topic ++ py "\n\n");;
  t ← now;
  f_write f (py "*Generated by Content Writer Agent (DeepSeek R1) on: " ++ strftime t iso ++ py "*\n\n");;
  f_write f content_result;;
  print (py "✅ Saved: 02_technical_blog_post.md").

(** [# Save social media content] *)
Definition save_social (output_dir topic social_result : str) : M unit :=
  f ← open_w (output_dir ++ py "/03_social_media_content.md");
  f_write f (py "# Social Media Content: " ++ topic ++ py "\n\n");;
  t ← now;
  f_write f (py "*Generated by Social Media Specialist (DeepSeek R1) on: " ++ strftime t iso ++ py "*\n\n");;
  f_write f social_result;;
  print (py "✅ Saved: 03_social_media_content.md").

(** [# Save complete package] *)
Definition save_complete (output_dir topic research_result content_result social_result : str)
    : M unit :=
  f ← open_w (output_dir ++ py "/complete_multi_agent_content.md");
  f_write f (py "# Complete Multi-Agent Content Package: " ++ topic ++ py "\n\n");;
  t ← now;
  f_write f (py "**Generated:** " ++ strftime t iso ++ py "\n");;
  f_write f (py "**Architecture:** Multi-Agent System\n");;
  f_write f (py "**Research Model:** Qwen 3-32B\n");;
  f_write f (py "**Content Model:** DeepSeek R1 Distill Llama 70B\n");;
  f_write f (py "**Social Model:** DeepSeek R1 Distill Llama 70B\n\n");;
  f_write f (py "---\n\n");;
  f_write f (py "# RESEARCH FINDINGS\n\n");;
  f_write f research_result;;
  f_write f (py "\n\n---\n\n");;
  f_write f (py "# TECHNICAL BLOG POST\n\n");;
  f_write f content_result;;
  f_write f (py "\n\n---\n\n");;
  f_write f (py "# SOCIAL MEDIA CONTENT\n\n");;
  f_write f social_result;;
  print (py "✅ Saved: complete_multi_agent_content.md").

(** [# Create comprehensive README] *)
Definition write_readme (output_dir topic : str) : M unit :=
  f ← open_w (output_dir ++ py "/README.md");
  f_write f (py "# Multi-Agent Content Package: " ++ topic ++ py "\n\n");;
  t ← now;
  f_write f (py "**Generated:** " ++ strftime t iso ++ py "\n");;
  f_write f (py "**Architecture:** Multi-Agent System with Specialized LLMs\n\n");;
  f_write f (py "## 🤖 Agent Architecture:\n\n");;
  f_write f (py "- **Research Agent**: Qwen 3-32B (Efficient research and data gathering)\n");;
  f_write f (py "- **Content Writer**: DeepSeek R1 Distill Llama 70B (Creative technical writing)\n");;
  f_write f (py "- **Social Media Specialist**: DeepSeek R1 Distill Llama 70B (Engaging social content)\n\n");;
  f_write f (py "## 📁 Files Generated:\n\n");;
  f_write f (py "- ✅ `01_research_findings.md` - Comprehensive research by Research Agent\n");;
  f_write f (py "- ✅ `02_technical_blog_post.md` - **MAIN TECHNICAL BLOG** (1000-1500 words)\n");;
  f_write f (py "- ✅ `03_social_media_content.md` - LinkedIn & Twitter content + MidJourney prompts\n");;
  f_write f (py "- ✅ `complete_multi_agent_content.md` - All content in one file\n");;
  f_write f (py "- ✅ `README.md` - This file\n\n");;
  f_write f (py "## 🔬 Multi-Agent Workflow:\n\n");;
  f_write f (py "1. **Research Phase**: Research Agent gathers academic papers, industry data, and technical examples\n");;
  f_write f (py "2. **Content Creation**: Content Writer transforms research into comprehensive blog post\n");;
  f_write f (py "3. **Social Adaptation**: Social Media Specialist creates platform-specific content\n\n");;
  f_write f (py "## ✨ Content Features:\n\n");;
  f_write f (py "✅ **Research-Backed**: Academic sources + industry data\n");;
  f_write f (py "✅ **Technical Depth**: Code examples and practical implementation\n");;
  f_write f (py "✅ **Multi-Platform**: Blog, LinkedIn, Twitter content\n");;
  f_write f (py "✅ **Bilingual**: English and Turkish social media content\n");;
  f_write f (py "✅ **Visual Ready**: MidJourney prompts for professional visuals\n");;
  f_write f (py "✅ **Specialized LLMs**: Optimized models for each task\n\n");;
  f_write f (py "## 🎯 Usage:\n\n");;
  f_write f (py "- **For Blog**: Use `02_technical_blog_post.md`\n");;
  f_write f (py "- **For Social Media**: Use `03_social_media_content.md`\n");;
  f_write f (py "- **For Research**: Reference `01_research_findings.md`\n");;
  print (py "✅ Saved: README.md");;
  print (py "📊 Successfully created 5 files with multi-agent architecture").

Definition save_content_to_files
    (topic research_result content_result social_result : str) : M str :=
  t ← now;
  let timestamp := strftime t (py "%Y%m%d_%H%M%S") in
  let safe_topic := safe_topic isalnum topic in
  let output_dir := py "multi_agent_content/" ++ safe_topic ++ py "_" ++ timestamp in
  makedirs output_dir;;
  print (py "\n💾 Saving multi-agent content to: " ++ output_dir);;
  save_research output_dir topic research_result;;
  save_blog output_dir topic content_result;;
  save_social output_dir topic social_result;;
  save_complete output_dir topic research_result content_result social_result;;
  write_readme output_dir topic;;
  mret output_dir.

End WithTable.
End Kilo.

(** ** [streamlit_app.py]: [create_download_zip]

    The archive is modelled by its entries, in the order of the
    [writestr] calls; the function's result is the serialisation of that
    archive by the [zipfile] library.  [writestr] stores a [str] as its
    UTF-8 encoding, and raises [UnicodeEncodeError] when there is none. *)

Module Streamlit.

Definition archive := list (str * str).

(** [zip_file.writestr(name, data)] *)
Definition writestr (zip_file : archive) (name data : str) : M archive := fun e w =>
  if encodable data then (Returns (zip_file ++ [(name, data)]), w)
  else (Raises (UnicodeEncodeError utf_8 data), w).

Definition iso : str := py "%Y-%m-%d %H:%M:%S".

(** [result] is the dictionary of the run; its three entries are given as
    their [str(...)]. *)
Record result := Result { research : str; content : str; social : str }.

Definition create_download_zip (topic : str) (result : result)
    (timestamp safe_topic : str) : M archive :=
  let zip_file : archive := [] in
  t ← now;
  zip_file ← writestr zip_file (py "01_research_findings.md")
    (py "# Research Findings: " ++ topic ++ py "\n\n*Generated: " ++ strftime t iso
       ++ py "*\n\n" ++ research result);
  t ← now;
  zip_file ← writestr zip_file (py "02_technical_blog_post.md")
    (py "# " ++ topic ++ py "\n\n*Generated: " ++ strftime t iso
       ++ py "*\n\n" ++ content result);
  t ← now;
  zip_file ← writestr zip_file (py "03_social_media_content.md")
    (py "# Social Media Content: " ++ topic ++ py "\n\n*Generated: " ++ strftime t iso
       ++ py "*\n\n" ++ social result);
  t ← now;
  zip_file ← writestr zip_file (py "complete_content_package.md")
    (py "# Complete Multi-Agent Content Package: " ++ topic
       ++ py "\n\n**Generated:** " ++ strftime t iso
       ++ py "\n**Architecture:** Multi-Agent System\n**Research Model:** Qwen/Qwen3-32B\n**Content Model:** DeepSeek R1 Distill Llama 70B\n**Social Model:** DeepSeek R1 Distill Llama 70B\n\n---\n\n# RESEARCH FINDINGS\n\n"
       ++ research result
       ++ py "\n\n---\n\n# TECHNICAL BLOG POST\n\n"
       ++ content result
       ++ py "\n\n---\n\n# SOCIAL MEDIA CONTENT\n\n"
       ++ social result ++ py "\n");
  t ← now;
  zip_file ← writestr zip_file (py "README.md")
    (py "# Content Package: " ++ topic ++ py "\n\nGenerated: " ++ strftime t iso
       ++ py "\n\n## Files:\n- `01_research_findings.md` - Research findings\n- `02_technical_blog_post.md` - Main blog post\n- `03_social_media_content.md` - Social media content\n- `complete_content_package.md` - Everything combined\n\n## Generated by:\nAI-Powered Multi-Agent Content Creator\nhttps://github.com/elandil2/blog-poster\n");
  mret zip_file.

(** The archive as a mapping from member name to content (a later
    [writestr] of the same name shadows an earlier one on extraction). *)
Definition mapping (zip_file : archive) : gmap str str :=
  fold_left (fun m entry => <[fst entry := snd entry]> m) zip_file ∅.

End Streamlit.

(** ** What a run leaves behind

    The definitions below name the worlds and texts that the blocks of the
    functions above produce when no step raises; the lemmas further down
    prove that the functions produce them. *)

(** The filesystem accepts every path. *)
Definition accepts (e : env) : Prop := forall p, refuses e p = false.

(** The console encodes every character that is not a surrogate, as a
    console with a UTF-8, UTF-16 or GB18030 encoding does. *)
Definition unicode_console (e : env) : Prop :=
  forall c, is_surrogate c = false -> stdout_encodes e c = true.

(** [s.encode(sys.stdout.encoding)] succeeds. *)
Definition console_encodes (e : env) (s : str) : bool := forallb (stdout_encodes e) s.

(** The extraction flags of [researcherqwen.py]. *)
Definition blog_extracted (content_str : str) : bool :=
  contains BLOG_POST content_str && (100 <? len (Qwen.blog_content content_str)).

Definition social_extracted (content_str : str) : bool :=
  contains LINKEDIN_POSTS content_str && (50 <? len (Qwen.social_content content_str)).

Definition midjourney_extracted (content_str : str) : bool :=
  contains MIDJOURNEY_PROMPTS content_str
  && (30 <? len (Qwen.midjourney_content content_str)).

Definition qwen_complete_header (topic : str) (t : datetime) : str :=
  py "# Technical Content Package: " ++ topic ++ py "\n\n"
  ++ py "**Generated:** " ++ strftime t Qwen.iso ++ py "\n"
  ++ py "**Perspective:** Data Scientist Technical Blog\n"
  ++ py "**Model:** DeepSeek R1 Distill Llama 70B\n\n"
  ++ py "---\n\n".

Definition qwen_blog_header (topic : str) (t : datetime) : str :=
  py "# " ++ topic ++ py "\n\n"
  ++ py "*Technical blog post from a data scientist's perspective*\n"
  ++ py "*Generated: " ++ strftime t Qwen.iso ++ py "*\n\n".

Definition qwen_social_header (topic : str) (t : datetime) : str :=
  py "# Social Media Content: " ++ topic ++ py "\n\n"
  ++ py "*Generated: " ++ strftime t Qwen.iso ++ py "*\n\n".

Definition qwen_midjourney_header (topic : str) (t : datetime) : str :=
  py "# MidJourney Prompts: " ++ topic ++ py "\n\n"
  ++ py "*Generated: " ++ strftime t Qwen.iso ++ py "*\n\n".

Definition qwen_readme_head (topic : str) (t : datetime) : str :=
  py "# Technical Content: " ++ topic ++ py "\n\n"
  ++ py "**Generated:** " ++ strftime t Qwen.iso ++ py "\n"
  ++ py "**Style:** Data Scientist Technical Perspective\n".

Definition qwen_readme_features : str :=
  py "- ✅ `complete_technical_content.md` - All content including social media\n"
  ++ py "- ✅ `README.md` - This file\n\n"
  ++ py "## 🔬 Content Features:\n\n"
  ++ py "✅ Technical depth with practical implementation\n"
  ++ py "✅ Code examples and technical details\n"
  ++ py "✅ Personal insights from data science experience\n"
  ++ py "✅ Real-world applications and challenges\n"
  ++ py "✅ Technical social media content\n"
  ++ py "✅ MidJourney prompts for professional blog visuals\n".

Definition qwen_readme_issues (files_created : nat) : str :=
  if (files_created <? 4)%nat then
    py "\n## ⚠️ Extraction Issues:\n\n"
    ++ py "Some content sections couldn't be extracted. Check `complete_technical_content.md` for the full output.\n"
    ++ py "The content might be there but not properly formatted with the expected headers.\n"
  else [].

Definition qwen_readme_text (topic : str) (t : datetime) (b s m : bool) : str :=
  qwen_readme_head topic t
  ++ Qwen.success_rate (Qwen.files_created b s m)
  ++ py "## 📁 Files:\n\n"
  ++ Qwen.blog_line b ++ Qwen.social_line s ++ Qwen.midjourney_line m
  ++ qwen_readme_features
  ++ qwen_readme_issues (Qwen.files_created b s m).

(** A file written in one [with open] block that reads the clock once. *)
Definition stamped (path text : str) (w : world) : world :=
  {| ticks := S (ticks w); dirs := dirs w; disk := <[path := text]> (disk w) |}.

Section QwenWorlds.
Variables (e : env) (output_dir topic content_str : str).

Definition qwen_after_complete (w : world) : world :=
  stamped (output_dir ++ py "/complete_technical_content.md")
    (qwen_complete_header topic (clock e (ticks w)) ++ content_str) w.

Definition qwen_after_blog (w : world) : world :=
  if blog_extracted content_str then
    stamped (output_dir ++ py "/technical_blog_post.md")
      (qwen_blog_header topic (clock e (ticks w)) ++ Qwen.blog_content content_str) w
  else w.

Definition qwen_after_social (w : world) : world :=
  if social_extracted content_str then
    stamped (output_dir ++ py "/social_media_posts.md")
      (qwen_social_header topic (clock e (ticks w)) ++ Qwen.social_content content_str) w
  else w.

Definition qwen_after_midjourney (w : world) : world :=
  if midjourney_extracted content_str then
    stamped (output_dir ++ py "/midjourney_prompts.md")
      (qwen_midjourney_header topic (clock e (ticks w))
         ++ Qwen.midjourney_content content_str) w
  else w.

Definition qwen_after_readme (w : world) : world :=
  stamped (output_dir ++ py "/README.md")
    (qwen_readme_text topic (clock e (ticks w)) (blog_extracted content_str)
       (social_extracted content_str) (midjourney_extracted content_str)) w.
End QwenWorlds.

(** The directory name a run at clock reading [t] computes. *)
Definition output_dir_of (root slug : str) (t : datetime) : str :=
  root ++ slug ++ py "_" ++ strftime t (py "%Y%m%d_%H%M%S").

Definition qwen_final (isalnum : char -> bool) (e : env) (topic content : str)
    (w : world) : world :=
  let output_dir :=
    output_dir_of (py "technical_content/") (safe_topic isalnum topic)
      (clock e (ticks w)) in
  qwen_after_readme e output_dir topic content
    (qwen_after_midjourney e output_dir topic content
       (qwen_after_social e output_dir topic content
          (qwen_after_blog e output_dir topic content
             (qwen_after_complete e output_dir topic content
                {| ticks := S (ticks w); dirs := output_dir :: dirs w;
                   disk := disk w |})))).

(** ** Concrete inputs *)

Definition clock0 (n : nat) : datetime := DateTime 2025 1 7 9 5 (n mod 60).
(** An accepting filesystem and a UTF-8 console. *)
Definition env0 : env := Env clock0 (fun _ => false) (fun c => negb (is_surrogate c)).
Definition world0 : world := World 0 [] ∅.

(** The X/Twitter header comes before the LinkedIn header. *)
Definition raw_twitter_first : str :=
  py "# BLOG POST\nbody\n# X/TWITTER POSTS\nthread\n# LINKEDIN POSTS\npost\n".

(** The out-of-order input of the specification. *)
Definition raw_out_of_order : str :=
  py "# LINKEDIN POSTS\nX\n# BLOG POST\nY (long enough)...\n".

(** A blog section whose body has exactly 100 characters. *)
Definition raw_body100 : str :=
  py "# BLOG POST\n" ++ replicate 100 97%N ++ py "\n".

(** A blog section whose body has exactly 101 characters. *)
Definition raw_body101 : str :=
  py "# BLOG POST\n" ++ replicate 101 97%N ++ py "\n".

(** All three sections, each long enough to be extracted. *)
Definition raw_full : str :=
  py "# BLOG POST\n" ++ replicate 120 97%N
  ++ py "\n# LINKEDIN POSTS\n## English\n" ++ replicate 60 98%N
  ++ py "\n# X/TWITTER POSTS\n## English\n" ++ replicate 60 99%N
  ++ py "\n# MIDJOURNEY PROMPTS\n" ++ replicate 40 100%N ++ py " --ar 16:9 --v 6\n".

Definition topic0 : str := py "Agentic AI: Workflows!".

(** No marker at all. *)
Definition raw_no_markers : str := py "plain text without any header\n".



(** Texts of [main.py]. *)
Definition main_blog_header (topic : str) (t : datetime) : str :=
  py "# " ++ topic ++ py "\n\n"
  ++ py "*Ready for Medium.com - Generated on: " ++ strftime t Main.iso ++ py "*\n\n".

Definition main_blog_body (content : str) : str :=
  if contains BLOG_POST content then Main.blog_content content
  else py "⚠️ Blog content extraction failed. Check complete_content.md for full output.\n\n"
       ++ content.

Definition main_complete_header (topic : str) (t : datetime) : str :=
  py "# Complete Content Package: " ++ topic ++ py "\n\n"
  ++ py "**Generated on:** " ++ strftime t Main.iso ++ py "\n\n"
  ++ py "---\n\n".

(** Texts shared by [researcherkilo.py] and [create_download_zip]: the
    title of a per-agent file, and its line with the generation time. *)
Definition research_title (topic : str) : str :=
  py "# Research Findings: " ++ topic ++ py "\n\n".

Definition blog_title (topic : str) : str := py "# " ++ topic ++ py "\n\n".

Definition social_title (topic : str) : str :=
  py "# Social Media Content: " ++ topic ++ py "\n\n".

Definition generated_line (label : str) (t : datetime) : str :=
  label ++ strftime t Kilo.iso ++ py "*\n\n".

(** The files of directory [dir] on a disk, by their name in it. *)
Definition files_in (dir : str) (d : gmap str str) : gmap str str :=
  list_to_map
    (omap (fun entry : str * str =>
             if startswith (fst entry) (dir ++ py "/")
             then Some (drop (length dir + 1) (fst entry), snd entry)
             else None)
          (map_to_list d)).

Definition archive_of (r : outcome Streamlit.archive * world) : Streamlit.archive :=
  match fst r with
  | Returns zip_file => zip_file
  | Raises _ => []
  end.

Definition result0 : Streamlit.result :=
  Streamlit.Result (py "findings") (py "article") (py "posts").




(** Every image result can be encoded. *)
Definition all_encodable (images : list str) : Prop :=
  Forall (fun img_result => encodable img_result = true) images.


(** The names of the files a [researcherqwen.py] run can write. *)
Definition qwen_file_names : list str :=
  [py "/complete_technical_content.md"; py "/technical_blog_post.md";
   py "/social_media_posts.md"; py "/midjourney_prompts.md"; py "/README.md"].

(** ** Inputs and descriptions for further properties *)

Definition raw_social_lost : str :=
  py "# X/TWITTER POSTS\nthread\n# MIDJOURNEY PROMPTS\nprompts\n# LINKEDIN POSTS\n"
  ++ replicate 80 98%N.

Definition raw_adjacent : str :=
  py "# BLOG POST# LINKEDIN POSTS\n" ++ replicate 120 98%N.

(** [s] has no leading and no trailing whitespace. *)
Definition trimmed (s : str) : Prop :=
  (forall c r, s = c :: r -> isspace c = false)
  /\ (forall r c, s = r ++ [c] -> isspace c = false).

(** The warning that closes the README of [researcherqwen.py]. *)
Definition qwen_issues_text : str :=
  py "\n## ⚠️ Extraction Issues:\n\n"
  ++ py "Some content sections couldn't be extracted. Check `complete_technical_content.md` for the full output.\n"
  ++ py "The content might be there but not properly formatted with the expected headers.\n".

(** ** [GoogleScholarTool._run]

    The same method stands in [researcherqwen.py], [researcherkilo.py] and
    [streamlit_app.py] (where the key is a field of the tool and the message
    for a missing key differs).  The JSON reply is given by the fields the
    method reads, each with the type the method uses it at: strings for
    [title], [link], [snippet] and [authors], an integer or a string for
    [year], an integer for [total].  The HTTP request is an effect: the
    method's result is paired with the requests it sent. *)

(** [sep.join(parts)] *)
Fixpoint join (sep : str) (parts : list str) : str :=
  match parts with
  | [] => []
  | [p] => p
  | p :: rest => p ++ sep ++ join sep rest
  end.

Module Scholar.

(** What the [try] block can raise, as its [except] clauses tell them
    apart; [text] is [str(e)]. *)
Inductive error :=
| Timeout
| RequestException (text : str)
| Exception (text : str).

Inductive year_value :=
| YearInt (n : Z)
| YearStr (s : str).

Record publication_info := PublicationInfo {
  info_authors : option str;
  info_year : option year_value
}.

Record cited_by := CitedBy { total : option Z }.

Record result := Result {
  title : option str;
  link : option str;
  snippet : option str;
  publicationInfo : option publication_info;
  citedBy : option cited_by
}.

Record data := Data { organic : option (list result) }.

(** The outcome of [requests.post]; [json] is the outcome of
    [response.json()]. *)
Inductive reply :=
| PostRaises (e : error)
| Response (status_code : Z) (text : str) (json : error + data).

Record request := Request {
  url : str;
  x_api_key : str;
  q : str;
  num : Z;
  hl : str;
  timeout : Z
}.

Section WithTables.
(** Tables of the Python runtime: [str.isalnum] (the word characters of
    [\b] are these and the underscore), the decimal digits with their
    values ([\d], [int]), [str.isdigit] for one character, the limit
    [sys.get_int_max_str_digits()] if any, and the text of the
    [ValueError] that [int] raises for a string. *)
Variable isalnum : char -> bool.
Variable decimal_value : char -> option nat.
Variable isdigit_char : char -> bool.
Variable int_max_str_digits : option nat.
Variable value_error : str -> str.

Definition isword (c : char) : bool := isalnum c || (c =? 95)%N.

Definition wordness (c : option char) : bool :=
  match c with
  | Some c => isword c
  | None => false
  end.

Definition isdecimal (c : char) : bool :=
  match decimal_value c with
  | Some _ => true
  | None => false
  end.

(** The pattern [\b(20\d{2})\b] at the head of [s]; [prev] is the
    character before it, if any. *)
Definition match_year_here (prev : option char) (s : str) : bool :=
  match s with
  | c0 :: c1 :: c2 :: c3 :: rest =>
      xorb (wordness prev) (isword c0)
      && (c0 =? 50)%N && (c1 =? 48)%N && isdecimal c2 && isdecimal c3
      && xorb (isword c3) (wordness (head rest))
  | _ => false
  end.

(** [re.search(r'\b(20\d{2})\b', s)], giving [group(1)] of the match. *)
Fixpoint search_year (prev : option char) (s : str) : option str :=
  if match_year_here prev s then Some (take 4 s)
  else match s with
       | [] => None
       | c :: r => search_year (Some c) r
       end.

(** [s.isdigit()] *)
Definition isdigit (s : str) : bool :=
  match s with
  | [] => false
  | _ => forallb isdigit_char s
  end.

Fixpoint digits_value (s : str) (acc : Z) : option Z :=
  match s with
  | [] => Some acc
  | c :: r =>
      match decimal_value c with
      | Some d => digits_value r (10 * acc + Z.of_nat d)
      | None => None
      end
  end.

Definition exceeds_limit (s : str) : bool :=
  match int_max_str_digits with
  | Some limit => (limit <? length s)%nat
  | None => false
  end.

(** [int(s)] for a string on which [isdigit()] holds (the only use in the
    source): every character must be a decimal digit and the length within
    the limit. *)
Definition py_int (s : str) : error + Z :=
  if exceeds_limit s then inl (Exception (value_error s))
  else match digits_value s 0 with
       | Some n => inr n
       | None => inl (Exception (value_error s))
       end.

Definition str_of_year (v : year_value) : str :=
  match v with
  | YearInt n => str_of_Z n
  | YearStr s => s
  end.

Definition nonempty (s : str) : bool :=
  match s with
  | [] => false
  | _ => true
  end.

(** [year], as the loop body computes it for one result. *)
Definition result_year (result : result) : str :=
  let snippet := default [] (snippet result) in
  let publication_info :=
    default (PublicationInfo None None) (publicationInfo result) in
  match info_year publication_info with
  | Some v => str_of_year v
  | None =>
      if nonempty snippet then
        match search_year None snippet with
        | Some year => year
        | None => []
        end
      else []
  end.

Definition result_citations (result : result) : Z :=
  match citedBy result with
  | Some cited => default 0 (total cited)
  | None => 0
  end.

(** [result_text], as the loop body builds it for one result. *)
Definition result_text (result : result) : str :=
  let title := default [] (title result) in
  let link := default [] (link result) in
  let snippet := default [] (snippet result) in
  let publication_info :=
    default (PublicationInfo None None) (publicationInfo result) in
  let authors := default [] (info_authors publication_info) in
  let year := result_year result in
  let citations := result_citations result in
  let result_text := py "📄 **" ++ title ++ py "**\n" in
  let result_text :=
    if nonempty link then result_text ++ py "   Link: " ++ link ++ py "\n"
    else result_text in
  let result_text :=
    if nonempty authors then result_text ++ py "   Authors: " ++ authors ++ py "\n"
    else result_text in
  let result_text :=
    if nonempty year then result_text ++ py "   Year: " ++ year ++ py "\n"
    else result_text in
  let result_text :=
    if 0 <? citations
    then result_text ++ py "   Citations: " ++ str_of_Z citations ++ py "\n"
    else result_text in
  let result_text :=
    if nonempty snippet then result_text ++ py "   Abstract: " ++ snippet ++ py "\n"
    else result_text in
  result_text ++ py "\n".

(** The loop [for result in data["organic"][:6]], started with the list
    [formatted_results]. *)
Fixpoint format_results (start_year : Z) (results : list result)
    (formatted_results : list str) : error + list str :=
  match results with
  | [] => inr formatted_results
  | result :: rest =>
      let year := result_year result in
      let result_text := result_text result in
      if nonempty year && isdigit year then
        match py_int year with
        | inl e => inl e
        | inr n =>
            if start_year <=? n
            then format_results start_year rest (formatted_results ++ [result_text])
            else format_results start_year rest formatted_results
        end
      else if negb (nonempty year)
      then format_results start_year rest (formatted_results ++ [result_text])
      else format_results start_year rest formatted_results
  end.

(** [if not api_key] *)
Definition missing (api_key : option str) : bool :=
  match api_key with
  | Some (_ :: _) => false
  | _ => true
  end.

(** The [try] block: the requests sent and what it returns or raises.
    [now] is the reading of [datetime.now()]. *)
Definition try_block (no_key_message : str) (api_key : option str) (now : datetime)
    (reply : reply) (query : str) (years_back : Z) : list request * (error + str) :=
  if missing api_key then ([], inr no_key_message)
  else
    let current_year := Z.of_nat (year now) in
    let start_year := current_year - years_back in
    let sent :=
      [ {| url := py "https://google.serper.dev/scholar";
           x_api_key := default [] api_key;
           q := query; num := 6; hl := py "en"; timeout := 10 |} ] in
    match reply with
    | PostRaises e => (sent, inl e)
    | Response status_code text json =>
        if negb (status_code =? 200) then
          (sent, inr (py "❌ API request failed with status " ++ str_of_Z status_code
                      ++ py ": " ++ text))
        else
          match json with
          | inl e => (sent, inl e)
          | inr data =>
              match organic data with
              | None | Some [] =>
                  (sent, inr (py "🔬 No Google Scholar results found for '" ++ query
                              ++ py "'. Try a different search term."))
              | Some results =>
                  match format_results start_year (take 6 results) [] with
                  | inl e => (sent, inl e)
                  | inr [] =>
                      (sent, inr (py "🔬 No recent Google Scholar results found for '"
                                  ++ query ++ py "' from the last "
                                  ++ str_of_Z years_back ++ py " years."))
                  | inr formatted_results =>
                      (sent, inr (py "🔬 **Google Scholar Results for '" ++ query
                                  ++ py "' (via Serper.dev):**\n\n"
                                  ++ join (py "\n") formatted_results))
                  end
              end
          end
    end.

(** The [except] clauses. *)
Definition handle (r : error + str) : str :=
  match r with
  | inr s => s
  | inl Timeout => py "❌ Google Scholar search timed out. Try again."
  | inl (RequestException text) =>
      py "❌ Network error during Google Scholar search: " ++ text
  | inl (Exception text) => py "❌ Google Scholar search failed: " ++ text
  end.

(** [_run] of [researcherqwen.py] and [researcherkilo.py]; [api_key] is
    [os.getenv("SERPER_API_KEY")]. *)
Definition _run (api_key : option str) (now : datetime) (reply : reply)
    (query : str) (years_back : Z) : list request * str :=
  let r := try_block (py "❌ SERPER_API_KEY not found in environment variables")
             api_key now reply query years_back in
  (fst r, handle (snd r)).

(** [_run] of [streamlit_app.py]; [api_key] is [self.serper_api_key]. *)
Definition _run_streamlit (api_key : option str) (now : datetime) (reply : reply)
    (query : str) (years_back : Z) : list request * str :=
  let r := try_block (py "❌ SERPER_API_KEY not provided")
             api_key now reply query years_back in
  (fst r, handle (snd r)).

End WithTables.
End Scholar.

(** *** Reading the loop of [_run]: descriptions used by the theorems *)

Section ScholarReading.
Variable isalnum : char -> bool.
Variable decimal_value : char -> option nat.
Variable isdigit_char : char -> bool.
Variable int_max_str_digits : option nat.
Variable value_error : str -> str.

(** The character before index [length pre] of [pre ++ _], [prev] being
    the character before the whole string. *)
Definition char_before (prev : option char) (pre : str) : option char :=
  match last pre with
  | Some c => Some c
  | None => prev
  end.

(** The pattern [\b(20\d{2})\b] matches [s] at index [p]. *)
Definition year_match (prev : option char) (s : str) (p : nat) : Prop :=
  exists pre d1 d2 post,
    s = pre ++ [50%N; 48%N; d1; d2] ++ post
    /\ length pre = p
    /\ Scholar.isdecimal decimal_value d1 = true
    /\ Scholar.isdecimal decimal_value d2 = true
    /\ xorb (Scholar.wordness isalnum (char_before prev pre))
            (Scholar.isword isalnum 50%N) = true
    /\ xorb (Scholar.isword isalnum d2) (Scholar.wordness isalnum (head post)) = true.

(** Evaluating the filter condition of the loop for [result] raises
    nothing. *)
Definition year_parses (result : Scholar.result) : Prop :=
  let year := Scholar.result_year isalnum decimal_value result in
  Scholar.nonempty year && Scholar.isdigit isdigit_char year = true ->
  exists n, Scholar.py_int decimal_value int_max_str_digits value_error year = inr n.

(** The results the loop lists: those without a year, and those whose year
    is a digit string with a value of at least [start_year]. *)
Definition listed (start_year : Z) (result : Scholar.result) : bool :=
  let year := Scholar.result_year isalnum decimal_value result in
  negb (Scholar.nonempty year)
  || Scholar.isdigit isdigit_char year
     && match Scholar.digits_value decimal_value year 0 with
        | Some n => start_year <=? n
        | None => false
        end.

(** The request that [_run] sends. *)
Definition scholar_request (api_key : option str) (query : str) : Scholar.request :=
  {| Scholar.url := py "https://google.serper.dev/scholar";
     Scholar.x_api_key := default [] api_key;
     Scholar.q := query; Scholar.num := 6; Scholar.hl := py "en";
     Scholar.timeout := 10 |}.

(** The text [_run] returns for the list of formatted results. *)
Definition scholar_report (query : str) (years_back : Z) (formatted_results : list str)
    : str :=
  match formatted_results with
  | [] => py "🔬 No recent Google Scholar results found for '" ++ query
          ++ py "' from the last " ++ str_of_Z years_back ++ py " years."
  | _ => py "🔬 **Google Scholar Results for '" ++ query
         ++ py "' (via Serper.dev):**\n\n" ++ join (py "\n") formatted_results
  end.
End ScholarReading.

(** Tables and inputs for concrete runs: ASCII digits are decimal digits,
    and the superscript two is a digit that is not decimal. *)
Definition decimal_value_ascii (c : char) : option nat :=
  if ((48 <=? c) && (c <=? 57))%N then Some (N.to_nat c - 48)%nat else None.

Definition isdigit_char_sample (c : char) : bool :=
  ((48 <=? c) && (c <=? 57) || (c =? 178))%N.

Definition value_error_sample (s : str) : str :=
  py "invalid literal for int() with base 10: '" ++ s ++ py "'".

Definition paper_2023 : Scholar.result :=
  Scholar.Result (Some (py "Paper A")) (Some (py "http://a"))
    (Some (py "J Doe - 2023 - Springer ... text")) None
    (Some (Scholar.CitedBy (Some 12))).

Definition paper_2019 : Scholar.result :=
  Scholar.Result (Some (py "Paper B")) None (Some (py "old"))
    (Some (Scholar.PublicationInfo (Some (py "X")) (Some (Scholar.YearInt 2019)))) None.

Definition paper_superscript : Scholar.result :=
  Scholar.Result (Some (py "Paper C")) None None
    (Some (Scholar.PublicationInfo None (Some (Scholar.YearStr [178%N])))) None.

Definition now0 : datetime := DateTime 2025 1 7 9 5 0.

Definition reply_of (results : list Scholar.result) : Scholar.reply :=
  Scholar.Response 200 [] (inr (Scholar.Data (Some results))).

(** ** [main.py]: [ImageGenerator.generate_image], [generate_images] and
    the part of [create_content] that follows [crew.kickoff] *)

Module Images.

(** The outcome of [requests.post] for a prompt: an exception, given by
    its [str(e)], or a response. *)
Inductive reply :=
| PostRaises (text : str)
| Response (status_code : Z) (text : str) (content : str).

Section WithServices.
(** [hash] is Python's string hash (it differs from process to process),
    [post] the image service, [exception_text] the [str(e)] of an
    exception. *)
Variable isalnum : char -> bool.
Variable hash : str -> Z.
Variable post : str -> reply.
Variable exception_text : exn -> str.

(** The [try] block of [generate_image]; [inl text] stands for an exception
    of [requests.post] with that [str(e)]. *)
Definition try_block (prompt output_dir : str) : M (str + str) :=
  makedirs output_dir;;
  print (py "🎨 Generating image with Stability AI: " ++ slice_to prompt 50 ++ py "...");;
  match post prompt with
  | PostRaises text => mret (inl text)
  | Response status_code text content =>
      if status_code =? 200 then
        let filename :=
          output_dir ++ py "/stability_image_" ++ str_of_Z (hash prompt mod 10000)
          ++ py ".png" in
        f ← open_w filename;
        f_write_bytes f content;;
        mret (inr (py "✅ Stability AI image saved: " ++ filename))
      else
        mret (inr (py "❌ Stability AI error: " ++ str_of_Z status_code ++ py " - "
                   ++ text))
  end.

(** [generate_image]: [except Exception as e] turns every exception into a
    result string. *)
Definition generate_image (prompt output_dir : str) : M str := fun e w =>
  match try_block prompt output_dir e w with
  | (Returns (inr result), w') => (Returns result, w')
  | (Returns (inl text), w') =>
      (Returns (py "❌ Error generating Stability AI image: " ++ text), w')
  | (Raises x, w') =>
      (Returns (py "❌ Error generating Stability AI image: " ++ exception_text x), w')
  end.

Definition prompts (topic : str) : list str :=
  [ py "Professional business infographic about " ++ topic
    ++ py ", modern clean design, blue and white color scheme, corporate style, high quality";
    py "Social media post graphic about " ++ topic
    ++ py ", engaging visual design, vibrant colors, professional illustration, marketing style" ].

(** [for i, prompt in enumerate(prompts, 1)], from index [i] on, started
    with [results]; [total] is [len(prompts)]. *)
Fixpoint generate_each (total i : nat) (prompts : list str) (results : list str)
    : M (list str) :=
  match prompts with
  | [] => mret results
  | prompt :: rest =>
      print (py "\n🖼️  Generating Stability AI image " ++ str_of_nat i ++ py "/"
             ++ str_of_nat total ++ py "...");;
      result ← generate_image prompt (py "generated_images");
      let results := results ++ [result] in
      (if (i <? total)%nat then
         print (py "⏱️  Waiting 3 seconds...");;
         sleep 3
       else mret tt);;
      generate_each total (S i) rest results
  end.

Definition generate_images (topic : str) : M (list str) :=
  print (py "\n🎨 Generating images with Stability AI...");;
  let prompts := prompts topic in
  generate_each (length prompts) 1 prompts [].

(** [create_content] from the return of [crew.kickoff] on; [result] is
    [str] of what it returned.  The [except] clause prints the error and
    raises it again. *)
Definition create_content (topic result : str) : M (str * list str * str) :=
  try_except
    (print (py "\n✅ Content creation completed!");;
     print (py "\n⏱️  Waiting 5 seconds before image generation...");;
     sleep 5;;
     images ← generate_images topic;
     output_dir ← Main.save_content_to_files isalnum topic result images;
     mret (result, images, output_dir))
    (fun x =>
       print (py "\n❌ Error: " ++ exception_text x);;
       print (py "💡 Try again in a few minutes or check your API keys");;
       raise x).

End WithServices.
End Images.

(** The entries of [images_generated.txt], numbered from [i]. *)
Fixpoint main_images_entries (i : nat) (images : list str) : str :=
  match images with
  | [] => []
  | img_result :: rest =>
      py "Image " ++ str_of_nat i ++ py ":\n" ++ img_result ++ py "\n\n"
      ++ main_images_entries (S i) rest
  end.

Definition main_images_header (topic : str) : str :=
  py "GENERATED IMAGES - " ++ topic ++ py "\n" ++ replicate 50 61%N ++ py "\n\n".

Section ImagesReading.
Variable hash : str -> Z.
Variable post : str -> Images.reply.

Definition image_filename (prompt output_dir : str) : str :=
  output_dir ++ py "/stability_image_" ++ str_of_Z (hash prompt mod 10000) ++ py ".png".

(** What [generate_image] returns when the filesystem accepts its paths and
    the console encodes its message. *)
Definition image_result (prompt output_dir : str) : str :=
  match post prompt with
  | Images.PostRaises text => py "❌ Error generating Stability AI image: " ++ text
  | Images.Response status_code text content =>
      if status_code =? 200
      then py "✅ Stability AI image saved: " ++ image_filename prompt output_dir
      else py "❌ Stability AI error: " ++ str_of_Z status_code ++ py " - " ++ text
  end.

(** The disk it leaves. *)
Definition image_disk (prompt output_dir : str) (d : gmap str str) : gmap str str :=
  match post prompt with
  | Images.Response status_code text content =>
      if status_code =? 200
      then <[image_filename prompt output_dir := content]> d
      else d
  | Images.PostRaises _ => d
  end.
End ImagesReading.

Definition post_sample (prompt : str) : Images.reply :=
  if startswith prompt (py "Professional")
  then Images.Response 200 [] (py "PNG")
  else Images.Response 402 (py "payment required") [].

Definition hash_sample (s : str) : Z := - len s.

Definition exception_text_sample (x : exn) : str :=
  match x with
  | OSError path => py "[Errno 13] Permission denied: '" ++ path ++ py "'"
  | UnicodeEncodeError utf_8 _ => py "'utf-8' codec can't encode characters"
  | UnicodeEncodeError stdout_encoding _ => py "'charmap' codec can't encode characters"
  end.

(** A console with a legacy one-byte encoding: it encodes no emoji. *)
Definition env_latin1 : env := Env clock0 (fun _ => false) (fun c => (c <? 256)%N).


Definition blog_path0 : str :=
  output_dir_of (py "technical_content/") (safe_topic isalnum_ascii topic0)
    (clock env0 0) ++ py "/technical_blog_post.md".

(** A disk that already holds a blog file at the path of the next run. *)
Definition world_stale : world := World 0 [] {[ blog_path0 := py "old post" ]}.

(** ** Facts about the string primitives *)

(** [p] is the lowest index where [sub] occurs in [s]. *)
Definition first_occurrence (sub s : str) (p : nat) : Prop :=
  occurs_at sub s p /\ forall q, (q < p)%nat -> ~ occurs_at sub s q.

Lemma startswith_spec (s sub : str) :
  startswith s sub = true <-> exists post, s = sub ++ post.
Proof.
  revert s. induction sub as [|c sub IH]; intros s.
  - split; [intros _; by exists s | by destruct s].
  - destruct s as [|d s]; simpl.
    + split; [done | intros [post H]; discriminate H].
    + rewrite andb_true_iff, N.eqb_eq, IH. split.
      * intros [-> [post ->]]. by exists post.
      * intros [post H]. injection H as -> ->. split; [done | by exists post].
Qed.

Lemma occurs_at_0 (sub s : str) :
  occurs_at sub s 0 <-> startswith s sub = true.
Proof.
  rewrite startswith_spec. split.
  - intros (pre & post & -> & Hl). destruct pre; [|discriminate Hl]. by exists post.
  - intros [post ->]. by exists [], post.
Qed.

Lemma occurs_at_S (sub : str) (c : char) (s : str) (p : nat) :
  occurs_at sub (c :: s) (S p) <-> occurs_at sub s p.
Proof.
  split.
  - intros (pre & post & H & Hl). destruct pre as [|d pre]; [discriminate Hl|].
    injection H as -> ->. injection Hl as Hl. by exists pre, post.
  - intros (pre & post & -> & Hl). exists (c :: pre), post. simpl. by rewrite Hl.
Qed.

Lemma occurs_at_nil_S (sub : str) (p : nat) : ~ occurs_at sub [] (S p).
Proof.
  intros (pre & post & H & Hl). destruct pre; [discriminate Hl | discriminate H].
Qed.

Lemma occurs_at_bound (sub s : str) (p : nat) :
  occurs_at sub s p -> (p + length sub <= length s)%nat.
Proof.
  intros (pre & post & -> & <-). rewrite !length_app. lia.
Qed.

Lemma find_at_spec (sub s : str) (i : Z) :
  (find_at sub s i = -1 /\ forall p, ~ occurs_at sub s p)
  \/ exists p, find_at sub s i = i + Z.of_nat p /\ first_occurrence sub s p.
Proof.
  revert i. induction s as [|c s IH]; intros i.
  - change (find_at sub [] i) with (if startswith [] sub then i else -1).
    destruct (startswith [] sub) eqn:E.
    + right. exists 0%nat. split; [lia|]. split; [by apply occurs_at_0 | lia].
    + left. split; [done|]. intros [|p] H.
      * apply occurs_at_0 in H. congruence.
      * by apply occurs_at_nil_S in H.
  - change (find_at sub (c :: s) i)
      with (if startswith (c :: s) sub then i else find_at sub s (i + 1)).
    destruct (startswith (c :: s) sub) eqn:E.
    + right. exists 0%nat. split; [lia|]. split; [by apply occurs_at_0 | lia].
    + destruct (IH (i + 1)) as [[Hf Hn] | (p & Hf & Ho & Hm)].
      * left. split; [done|]. intros [|p] H.
        -- apply occurs_at_0 in H. congruence.
        -- apply occurs_at_S in H. by apply (Hn p).
      * right. exists (S p). split; [lia|]. split; [by apply occurs_at_S|].
        intros [|q] Hq H.
        -- apply occurs_at_0 in H. congruence.
        -- apply occurs_at_S in H. apply (Hm q); [lia | done].
Qed.

Lemma find_cases (s sub : str) :
  (find s sub = -1 /\ forall p, ~ occurs_at sub s p)
  \/ exists p, find s sub = Z.of_nat p /\ first_occurrence sub s p.
Proof.
  unfold find. destruct (find_at_spec sub s 0) as [H | (p & Hf & H)]; [by left|].
  right. exists p. split; [lia | done].
Qed.

Lemma first_occurrence_unique (sub s : str) (p q : nat) :
  first_occurrence sub s p -> first_occurrence sub s q -> p = q.
Proof.
  intros [Hp Hmp] [Hq Hmq].
  destruct (Nat.lt_trichotomy p q) as [H | [H | H]]; [|done|].
  - by destruct (Hmq p H).
  - by destruct (Hmp q H).
Qed.

Lemma find_first (s sub : str) (p : nat) :
  first_occurrence sub s p -> find s sub = Z.of_nat p.
Proof.
  intros H. destruct (find_cases s sub) as [[_ Hn] | (q & Hf & Hq)].
  - destruct H as [H _]. by destruct (Hn p).
  - by rewrite Hf, (first_occurrence_unique _ _ _ _ Hq H).
Qed.

Lemma find_absent (s sub : str) :
  (forall p, ~ occurs_at sub s p) -> find s sub = -1.
Proof.
  intros H. destruct (find_cases s sub) as [[Hf _] | (q & _ & Hq & _)]; [done|].
  by destruct (H q).
Qed.

Lemma find_range (s sub : str) : -1 <= find s sub <= len s.
Proof.
  unfold len. destruct (find_cases s sub) as [[-> _] | (p & -> & Ho & _)]; [lia|].
  apply occurs_at_bound in Ho. lia.
Qed.

Lemma contains_spec (sub s : str) :
  contains sub s = true <-> exists p, occurs_at sub s p.
Proof.
  induction s as [|c s IH].
  - change (contains sub []) with (startswith [] sub || false).
    rewrite orb_true_iff. split.
    + intros [H | H]; [|done]. exists 0%nat. by apply occurs_at_0.
    + intros [[|p] H]; [left; by apply occurs_at_0 | by apply occurs_at_nil_S in H].
  - change (contains sub (c :: s)) with (startswith (c :: s) sub || contains sub s).
    rewrite orb_true_iff, IH. split.
    + intros [H | [p H]]; [exists 0%nat; by apply occurs_at_0|].
      exists (S p). by apply occurs_at_S.
    + intros [[|p] H]; [left; by apply occurs_at_0|].
      right. exists p. by apply occurs_at_S in H.
Qed.

(** [sub in s] holds exactly when [s.find(sub)] is not [-1]. *)
Lemma contains_find (sub s : str) :
  contains sub s = true <-> exists p, find s sub = Z.of_nat p /\ first_occurrence sub s p.
Proof.
  rewrite contains_spec. split.
  - intros [p Hp]. destruct (find_cases s sub) as [[_ Hn] | H]; [by destruct (Hn p) | done].
  - intros (p & _ & Hp & _). by exists p.
Qed.

(** ** Texts that can be encoded *)

Lemma encodable_spec (s : str) :
  encodable s = true <-> forall c, In c s -> is_surrogate c = false.
Proof.
  unfold encodable. rewrite forallb_forall. split.
  - intros H c Hc. apply negb_true_iff. by apply H.
  - intros H c Hc. apply negb_true_iff. by apply H.
Qed.

Lemma encodable_incl (a b : str) :
  (forall c, In c a -> In c b) -> encodable b = true -> encodable a = true.
Proof. rewrite !encodable_spec. intros Hi Hb c Hc. apply Hb, Hi, Hc. Qed.

Lemma encodable_app_iff (a b : str) :
  encodable (a ++ b) = true <-> encodable a = true /\ encodable b = true.
Proof. unfold encodable. rewrite forallb_app. apply andb_true_iff. Qed.

Lemma encodable_app (a b : str) :
  encodable a = true -> encodable b = true -> encodable (a ++ b) = true.
Proof. intros Ha Hb. by apply encodable_app_iff. Qed.

Lemma in_take (n : nat) (s : str) (c : char) : In c (take n s) -> In c s.
Proof.
  intros H. rewrite <- (take_drop n s). apply in_or_app. by left.
Qed.

Lemma in_drop (n : nat) (s : str) (c : char) : In c (drop n s) -> In c s.
Proof.
  intros H. rewrite <- (take_drop n s). apply in_or_app. by right.
Qed.

Lemma lstrip_suffix (s : str) : exists ws, s = ws ++ lstrip s.
Proof.
  induction s as [|c s [ws IH]]; simpl.
  - by exists [].
  - destruct (isspace c); [|by exists []].
    exists (c :: ws). simpl. by rewrite <- IH.
Qed.

Lemma rstrip_prefix (s : str) : exists ws, s = rstrip s ++ ws.
Proof.
  unfold rstrip. destruct (lstrip_suffix (rev s)) as [ws H].
  exists (rev ws). rewrite <- rev_app_distr, <- H. by rewrite rev_involutive.
Qed.

Lemma in_strip (s : str) (c : char) : In c (strip s) -> In c s.
Proof.
  unfold strip. intros H.
  destruct (rstrip_prefix (lstrip s)) as [ws Hr].
  destruct (lstrip_suffix s) as [ws' Hl].
  rewrite Hl. apply in_or_app. right. rewrite Hr. apply in_or_app. by left.
Qed.

Lemma in_slice (s : str) (a b : Z) (c : char) : In c (slice s a b) -> In c s.
Proof.
  unfold slice. cbv zeta. destruct (_ <? _); [|intros []].
  intros H. by apply in_take, in_drop in H.
Qed.

Lemma encodable_take (n : nat) (s : str) :
  encodable s = true -> encodable (take n s) = true.
Proof. apply encodable_incl, in_take. Qed.

Lemma encodable_slice_to (s : str) (b : Z) :
  encodable s = true -> encodable (slice_to s b) = true.
Proof. apply encodable_incl, in_take. Qed.

Lemma encodable_strip_slice (s : str) (a b : Z) :
  encodable s = true -> encodable (strip (slice s a b)) = true.
Proof.
  apply encodable_incl. intros c H. by apply in_strip, in_slice in H.
Qed.

Lemma encodable_strip_slice_from (s : str) (a : Z) :
  encodable s = true -> encodable (strip (slice_from s a)) = true.
Proof.
  apply encodable_incl. intros c H. by apply in_strip, in_drop in H.
Qed.

Lemma digit_not_surrogate (n : nat) : is_surrogate (N.of_nat (48 + n mod 10)) = false.
Proof.
  unfold is_surrogate. apply andb_false_iff. left. apply N.leb_gt.
  pose proof (Nat.mod_upper_bound n 10). lia.
Qed.

Lemma encodable_decimal (fuel n : nat) (acc : str) :
  encodable acc = true -> encodable (decimal fuel n acc) = true.
Proof.
  revert n acc. induction fuel as [|fuel IH]; intros n acc Hacc; [exact Hacc|].
  assert (H : encodable (N.of_nat (48 + n mod 10) :: acc) = true).
  { cbn [encodable forallb]. rewrite digit_not_surrogate. exact Hacc. }
  change (decimal (S fuel) n acc)
    with (if (n / 10 =? 0)%nat then N.of_nat (48 + n mod 10) :: acc
          else decimal fuel (n / 10) (N.of_nat (48 + n mod 10) :: acc)).
  destruct (n / 10 =? 0)%nat; [exact H | by apply IH].
Qed.

Lemma encodable_str_of_nat (n : nat) : encodable (str_of_nat n) = true.
Proof. by apply encodable_decimal. Qed.

Lemma encodable_str_of_Z (n : Z) : encodable (str_of_Z n) = true.
Proof.
  unfold str_of_Z. destruct (n <? 0); [|apply encodable_str_of_nat].
  apply encodable_app; [reflexivity | apply encodable_str_of_nat].
Qed.

Lemma encodable_str_of_bool (b : bool) : encodable (str_of_bool b) = true.
Proof. by destruct b. Qed.

Lemma encodable_replicate (n : nat) (c : char) :
  is_surrogate c = false -> encodable (replicate n c) = true.
Proof.
  intros Hc. apply encodable_spec. intros d Hd.
  apply list_elem_of_In, elem_of_replicate in Hd as [-> _]. exact Hc.
Qed.

Lemma encodable_directive (d : datetime) (c : char) :
  is_surrogate c = false -> encodable (directive d c) = true.
Proof.
  intros Hc. unfold directive, zfill.
  repeat (destruct (_ =? _)%N;
          [apply encodable_app; [by apply encodable_replicate | apply encodable_str_of_nat]|]).
  cbn [encodable forallb]. by rewrite Hc.
Qed.

Lemma encodable_strftime (d : datetime) (fmt : str) :
  encodable fmt = true -> encodable (strftime d fmt) = true.
Proof.
  assert (H : forall n fmt, (length fmt <= n)%nat -> encodable fmt = true ->
                            encodable (strftime d fmt) = true).
  { clear fmt. induction n as [|n IH]; intros fmt Hl Hf.
    - destruct fmt; [reflexivity | simpl in Hl; lia].
    - destruct fmt as [|c r]; [reflexivity|].
      cbn [encodable forallb] in Hf. apply andb_true_iff in Hf as [Hc Hr].
      apply negb_true_iff in Hc.
      assert (Hdef : encodable (c :: strftime d r) = true).
      { cbn [encodable forallb]. rewrite Hc. apply IH; [simpl in Hl; lia | exact Hr]. }
      destruct (N.eq_dec c 37%N) as [-> | Hne].
      + destruct r as [|c' r']; [reflexivity|].
        change (strftime d (37%N :: c' :: r')) with (directive d c' ++ strftime d r').
        cbn [forallb] in Hr. apply andb_true_iff in Hr as [Hc' Hr'].
        apply negb_true_iff in Hc'.
        apply encodable_app; [by apply encodable_directive|].
        apply IH; [simpl in Hl; lia | exact Hr'].
      + replace (strftime d (c :: r)) with (c :: strftime d r); [exact Hdef|].
        destruct c as [|p]; [reflexivity|].
        do 6 (destruct p as [p|p|]; try reflexivity). by destruct Hne. }
  by apply (H (length fmt)).
Qed.

Lemma encodable_filter (f : char -> bool) (s : str) :
  encodable s = true -> encodable (List.filter f s) = true.
Proof. apply encodable_incl. intros c H. by apply filter_In in H as [H _]. Qed.

Lemma encodable_safe_topic (isalnum : char -> bool) (topic : str) :
  encodable topic = true -> encodable (safe_topic isalnum topic) = true.
Proof.
  apply encodable_incl. intros c H. unfold safe_topic, slice_to in H.
  apply in_take in H.
  destruct (rstrip_prefix (List.filter (keep isalnum) topic)) as [ws Hws].
  assert (Hin : In c (List.filter (keep isalnum) topic))
    by (rewrite Hws; apply in_or_app; by left).
  by apply filter_In in Hin as [Hin _].
Qed.

(** A console that encodes what UTF-8 encodes prints every such text. *)
Lemma console_encodes_encodable (e : env) (s : str) :
  unicode_console e -> encodable s = true -> console_encodes e s = true.
Proof.
  intros He Hs. unfold console_encodes. apply forallb_forall. intros c Hc.
  apply He. by apply (proj1 (encodable_spec s) Hs).
Qed.

(** Prove that a text built from literals, numbers, dates and encodable
    variables can be encoded. *)
Ltac enc :=
  repeat lazymatch goal with
    | H : encodable ?s = true |- encodable ?s = true => exact H
    | |- encodable (_ ++ _) = true => apply encodable_app
    | |- encodable (strftime _ _) = true => apply encodable_strftime
    | |- encodable (str_of_nat _) = true => apply encodable_str_of_nat
    | |- encodable (str_of_Z _) = true => apply encodable_str_of_Z
    | |- encodable (str_of_bool _) = true => apply encodable_str_of_bool
    | |- encodable (safe_topic _ _) = true => apply encodable_safe_topic
    | |- encodable (slice_to _ _) = true => apply encodable_slice_to
    | |- encodable (strip (slice _ _ _)) = true => apply encodable_strip_slice
    | |- encodable (strip (slice_from _ _)) = true => apply encodable_strip_slice_from
    | |- encodable (if ?b then _ else _) = true => destruct b
    | |- encodable (Qwen.blog_content _) = true => unfold Qwen.blog_content
    | |- encodable (Qwen.social_content _) = true => unfold Qwen.social_content
    | |- encodable (Qwen.midjourney_content _) = true => unfold Qwen.midjourney_content
    | |- encodable (Main.blog_content _) = true => unfold Main.blog_content
    | |- encodable (Qwen.success_rate _) = true => unfold Qwen.success_rate
    | |- encodable (Qwen.blog_line _) = true => unfold Qwen.blog_line
    | |- encodable (Qwen.social_line _) = true => unfold Qwen.social_line
    | |- encodable (Qwen.midjourney_line _) = true => unfold Qwen.midjourney_line
    | |- encodable ?s = true => vm_compute; reflexivity
    end.

(** ** Running the effects *)

Lemma bind_run {A B : Type} (c : M A) (k : A -> M B) (e : env) (w : world) :
  (c ≫= k) e w =
  match c e w with
  | (Returns a, w') => k a e w'
  | (Raises x, w') => (Raises x, w')
  end.
Proof. reflexivity. Qed.

Lemma open_w_run (e : env) (path : str) t d m :
  accepts e ->
  open_w path e (World t d m) = (Returns path, World t d (<[path := []]> m)).
Proof. intros H. unfold open_w. by rewrite H. Qed.

Lemma f_write_run (e : env) (f s x : str) t d m :
  encodable s = true ->
  f_write f s e (World t d (<[f := x]> m))
  = (Returns tt, World t d (<[f := x ++ s]> m)).
Proof.
  intros Hs. unfold f_write. rewrite Hs. cbn [ticks dirs disk].
  by rewrite lookup_insert_eq, insert_insert_eq.
Qed.

Lemma f_write_bytes_run (e : env) (f s x : str) t d m :
  f_write_bytes f s e (World t d (<[f := x]> m))
  = (Returns tt, World t d (<[f := x ++ s]> m)).
Proof.
  unfold f_write_bytes. cbn [ticks dirs disk].
  by rewrite lookup_insert_eq, insert_insert_eq.
Qed.

Lemma print_run (e : env) (s : str) (w : world) :
  unicode_console e -> encodable s = true -> print s e w = (Returns tt, w).
Proof.
  intros He Hs. unfold print.
  assert (H : forallb (stdout_encodes e) (s ++ [10%N]) = true).
  { apply (console_encodes_encodable e (s ++ [10%N]) He).
    by apply encodable_app. }
  by rewrite H.
Qed.

Lemma print_fails (e : env) (s : str) (w : world) :
  console_encodes e (s ++ [10%N]) = false ->
  print s e w = (Raises (UnicodeEncodeError stdout_encoding s), w).
Proof. intros H. unfold print. unfold console_encodes in H. by rewrite H. Qed.

Lemma f_write_fails (e : env) (f s : str) (w : world) :
  encodable s = false -> f_write f s e w = (Raises (UnicodeEncodeError utf_8 s), w).
Proof. intros H. unfold f_write. by rewrite H. Qed.


Lemma now_run (e : env) t d m :
  now e (World t d m) = (Returns (clock e t), World (S t) d m).
Proof. reflexivity. Qed.

Lemma mret_run {A : Type} (a : A) (e : env) (w : world) :
  (mret a : M A) e w = (Returns a, w).
Proof. reflexivity. Qed.

(** One step of a block: unfold the bind, run the effect, continue.  [Ha]
    says that the filesystem accepts, [Hc] that the console encodes. *)
Ltac step Ha Hc :=
  lazymatch goal with
  | |- context [f_write _ _ _ (World _ _ _)] => rewrite f_write_run by enc
  | |- context [f_write_bytes _ _ _ (World _ _ _)] => rewrite f_write_bytes_run
  | |- context [now _ (World _ _ _)] => rewrite now_run
  | |- context [open_w _ _ (World _ _ _)] => rewrite (open_w_run _ _ _ _ _ Ha)
  | |- context [print _ _ (World _ _ _)] => rewrite (print_run _ _ _ Hc) by enc
  | |- context [mret _ _ (World _ _ _)] => rewrite mret_run
  | |- context [(_ ≫= _) _ (World _ _ _)] => rewrite bind_run
  end;
  cbv beta iota delta [negb].

Ltac steps Ha Hc :=
  repeat (step Ha Hc); rewrite ?app_nil_l, <- ?app_assoc.

Lemma qwen_save_complete_run (e : env) (output_dir topic content_str : str) (w : world) :
  accepts e -> unicode_console e ->
  encodable topic = true -> encodable content_str = true ->
  Qwen.save_complete output_dir topic content_str e w
  = (Returns tt, qwen_after_complete e output_dir topic content_str w).
Proof.
  intros Ha Hc Ht Hr. destruct w as [t d m]. unfold Qwen.save_complete. steps Ha Hc.
  unfold qwen_after_complete, stamped, qwen_complete_header. cbn [ticks dirs disk].
  rewrite <- ?app_assoc. reflexivity.
Qed.

Lemma qwen_extract_blog_run (e : env) (output_dir topic content_str : str) (w : world) :
  accepts e -> unicode_console e ->
  encodable topic = true -> encodable content_str = true ->
  Qwen.extract_blog output_dir topic content_str e w
  = (Returns (blog_extracted content_str),
     qwen_after_blog e output_dir topic content_str w).
Proof.
  intros Ha Hc Ht Hr. destruct w as [t d m].
  unfold Qwen.extract_blog, qwen_after_blog, blog_extracted.
  destruct (contains BLOG_POST content_str); cbn [andb].
  - destruct (100 <? len (Qwen.blog_content content_str)); cbv beta iota zeta.
    + steps Ha Hc.
      unfold stamped, qwen_blog_header. cbn [ticks dirs disk].
      rewrite <- ?app_assoc. reflexivity.
    + steps Ha Hc. reflexivity.
  - steps Ha Hc. reflexivity.
Qed.

Lemma qwen_extract_social_run (e : env) (output_dir topic content_str : str) (w : world) :
  accepts e -> unicode_console e ->
  encodable topic = true -> encodable content_str = true ->
  Qwen.extract_social output_dir topic content_str e w
  = (Returns (social_extracted content_str),
     qwen_after_social e output_dir topic content_str w).
Proof.
  intros Ha Hc Ht Hr. destruct w as [t d m].
  unfold Qwen.extract_social, qwen_after_social, social_extracted.
  destruct (contains LINKEDIN_POSTS content_str); cbn [andb].
  - destruct (50 <? len (Qwen.social_content content_str)); cbv beta iota zeta.
    + steps Ha Hc.
      unfold stamped, qwen_social_header. cbn [ticks dirs disk].
      rewrite <- ?app_assoc. reflexivity.
    + steps Ha Hc. reflexivity.
  - steps Ha Hc. reflexivity.
Qed.

Lemma qwen_extract_midjourney_run (e : env) (output_dir topic content_str : str)
    (w : world) :
  accepts e -> unicode_console e ->
  encodable topic = true -> encodable content_str = true ->
  Qwen.extract_midjourney output_dir topic content_str e w
  = (Returns (midjourney_extracted content_str),
     qwen_after_midjourney e output_dir topic content_str w).
Proof.
  intros Ha Hc Ht Hr. destruct w as [t d m].
  unfold Qwen.extract_midjourney, qwen_after_midjourney, midjourney_extracted.
  destruct (contains MIDJOURNEY_PROMPTS content_str); cbn [andb].
  - destruct (30 <? len (Qwen.midjourney_content content_str)); cbv beta iota zeta.
    + steps Ha Hc.
      unfold stamped, qwen_midjourney_header. cbn [ticks dirs disk].
      rewrite <- ?app_assoc. reflexivity.
    + steps Ha Hc. reflexivity.
  - steps Ha Hc. reflexivity.
Qed.

Lemma qwen_write_readme_run (e : env) (output_dir topic : str) (b s m : bool)
    (w : world) :
  accepts e -> unicode_console e -> encodable topic = true ->
  Qwen.write_readme output_dir topic b s m e w
  = (Returns tt,
     stamped (output_dir ++ py "/README.md")
       (qwen_readme_text topic (clock e (ticks w)) b s m) w).
Proof.
  intros Ha Hc Ht. destruct w as [t d dk]. unfold Qwen.write_readme.
  cbv zeta. steps Ha Hc.
  unfold stamped, qwen_readme_text, qwen_readme_head, qwen_readme_features,
    qwen_readme_issues.
  cbn [ticks dirs disk].
  destruct (Qwen.files_created b s m <? 4)%nat.
  - steps Ha Hc. rewrite <- ?app_assoc. reflexivity.
  - steps Ha Hc. rewrite app_nil_r. reflexivity.
Qed.

Lemma makedirs_run (e : env) (path : str) t d m :
  accepts e ->
  makedirs path e (World t d m) = (Returns tt, World t (path :: d) m).
Proof. intros H. unfold makedirs. by rewrite H. Qed.

Lemma qwen_debug_run (e : env) (content_str : str) (w : world) :
  unicode_console e -> encodable content_str = true ->
  Qwen.debug content_str e w = (Returns tt, w).
Proof.
  intros Hc Hr. unfold Qwen.debug.
  do 5 (rewrite bind_run, (print_run _ _ _ Hc) by enc; cbv beta iota).
  rewrite (print_run _ _ _ Hc) by enc. reflexivity.
Qed.

Lemma qwen_run (isalnum : char -> bool) (e : env) (topic content : str) (w : world) :
  accepts e -> unicode_console e ->
  encodable topic = true -> encodable content = true ->
  Qwen.save_content_to_files isalnum topic content e w
  = (Returns (output_dir_of (py "technical_content/") (safe_topic isalnum topic)
                (clock e (ticks w))),
     qwen_final isalnum e topic content w).
Proof.
  intros Ha Hc Ht Hr. destruct w as [t d m]. unfold Qwen.save_content_to_files.
  rewrite bind_run, now_run. cbv beta iota zeta.
  rewrite bind_run, (makedirs_run _ _ _ _ _ Ha). cbv beta iota.
  rewrite bind_run, (print_run _ _ _ Hc) by enc. cbv beta iota.
  rewrite bind_run, (qwen_debug_run _ _ _ Hc Hr). cbv beta iota.
  rewrite bind_run, (qwen_save_complete_run _ _ _ _ _ Ha Hc Ht Hr). cbv beta iota.
  rewrite bind_run, (qwen_extract_blog_run _ _ _ _ _ Ha Hc Ht Hr). cbv beta iota.
  rewrite bind_run, (qwen_extract_social_run _ _ _ _ _ Ha Hc Ht Hr). cbv beta iota.
  rewrite bind_run, (qwen_extract_midjourney_run _ _ _ _ _ Ha Hc Ht Hr). cbv beta iota.
  rewrite bind_run, (qwen_write_readme_run _ _ _ _ _ _ _ Ha Hc Ht). cbv beta iota.
  rewrite mret_run. unfold qwen_final, output_dir_of. cbn [ticks dirs disk].
  reflexivity.
Qed.

(** The file names of one package differ. *)
Ltac path_ne :=
  let Hp := fresh "Hp" in
  intros Hp; apply app_inv_head in Hp; vm_compute in Hp; discriminate Hp.

Lemma lookup_stamped_eq (path text : str) (w : world) :
  disk (stamped path text w) !! path = Some text.
Proof. unfold stamped. cbn [disk]. apply lookup_insert_eq. Qed.

Lemma lookup_stamped_ne (path text p : str) (w : world) :
  path <> p -> disk (stamped path text w) !! p = disk w !! p.
Proof. intros H. unfold stamped. cbn [disk]. by apply lookup_insert_ne. Qed.

Lemma qwen_after_blog_other (e : env) (dir topic raw p : str) (w : world) :
  dir ++ py "/technical_blog_post.md" <> p ->
  disk (qwen_after_blog e dir topic raw w) !! p = disk w !! p.
Proof.
  intros H. unfold qwen_after_blog. destruct (blog_extracted raw); [|done].
  by apply lookup_stamped_ne.
Qed.

Lemma qwen_after_social_other (e : env) (dir topic raw p : str) (w : world) :
  dir ++ py "/social_media_posts.md" <> p ->
  disk (qwen_after_social e dir topic raw w) !! p = disk w !! p.
Proof.
  intros H. unfold qwen_after_social. destruct (social_extracted raw); [|done].
  by apply lookup_stamped_ne.
Qed.

Lemma qwen_after_midjourney_other (e : env) (dir topic raw p : str) (w : world) :
  dir ++ py "/midjourney_prompts.md" <> p ->
  disk (qwen_after_midjourney e dir topic raw w) !! p = disk w !! p.
Proof.
  intros H. unfold qwen_after_midjourney. destruct (midjourney_extracted raw); [|done].
  by apply lookup_stamped_ne.
Qed.

Lemma qwen_final_complete (isalnum : char -> bool) (e : env) (topic raw : str)
    (w : world) :
  disk (qwen_final isalnum e topic raw w)
    !! (output_dir_of (py "technical_content/") (safe_topic isalnum topic)
          (clock e (ticks w)) ++ py "/complete_technical_content.md")
  = Some (qwen_complete_header topic (clock e (S (ticks w))) ++ raw).
Proof.
  unfold qwen_final. cbv zeta. unfold qwen_after_readme.
  rewrite lookup_stamped_ne by path_ne.
  rewrite qwen_after_midjourney_other by path_ne.
  rewrite qwen_after_social_other by path_ne.
  rewrite qwen_after_blog_other by path_ne.
  unfold qwen_after_complete. by rewrite lookup_stamped_eq.
Qed.

(** ** What can raise *)












(** *** What a run that returns tells about its arguments *)







(** ** Section boundaries in [researcherqwen.py] *)

Lemma find_first_occurrence (s sub : str) (p : nat) :
  find s sub = Z.of_nat p -> first_occurrence sub s p.
Proof.
  intros H. destruct (find_cases s sub) as [[Hf _] | (q & Hf & Hq)]; [lia|].
  by replace p with q by lia.
Qed.

Lemma scan_end_markers_priority (pos : str -> Z) (start default : Z)
    (before : list str) (marker : str) (after : list str) :
  (forall m, In m before -> ~ start < pos m) ->
  start < pos marker ->
  scan_end_markers pos start default (before ++ marker :: after) = pos marker.
Proof.
  intros Hb Hm. induction before as [|m before IH]; simpl.
  - apply Z.ltb_lt in Hm. by rewrite Hm.
  - destruct (start <? pos m) eqn:E.
    + apply Z.ltb_lt in E. destruct (Hb m); [by left | done].
    + apply IH. intros m' Hin. apply Hb. by right.
Qed.

Lemma scan_end_markers_default (pos : str -> Z) (start default : Z)
    (end_markers : list str) :
  (forall m, In m end_markers -> ~ start < pos m) ->
  scan_end_markers pos start default end_markers = default.
Proof.
  intros Hb. induction end_markers as [|m ms IH]; simpl; [done|].
  destruct (start <? pos m) eqn:E.
  - apply Z.ltb_lt in E. destruct (Hb m); [by left | done].
  - apply IH. intros m' Hin. apply Hb. by right.
Qed.

(** The result of the loop is the default or the position of a marker that
    lies after the start. *)
Lemma scan_end_markers_cases (pos : str -> Z) (start default : Z)
    (end_markers : list str) :
  scan_end_markers pos start default end_markers = default
  \/ exists m, In m end_markers /\ start < pos m
               /\ scan_end_markers pos start default end_markers = pos m.
Proof.
  induction end_markers as [|m ms IH]; simpl; [by left|].
  destruct (start <? pos m) eqn:E.
  - right. exists m. apply Z.ltb_lt in E. auto.
  - destruct IH as [IH | (m' & Hin & Hlt & IH)]; [by left|].
    right. exists m'. auto.
Qed.

Lemma blog_start_spec (raw : str) :
  contains BLOG_POST raw = true ->
  exists p0, first_occurrence BLOG_POST raw p0
             /\ Qwen.blog_start raw = Z.of_nat p0 + len BLOG_POST
             /\ Qwen.blog_start raw <= len raw.
Proof.
  intros H. apply contains_find in H as (p0 & Hf & Ho). exists p0.
  unfold Qwen.blog_start. rewrite Hf. split; [done|]. split; [done|].
  destruct Ho as [Ho _]. apply occurs_at_bound in Ho. unfold len. lia.
Qed.

(** C1 (as amended): in [researcherqwen.py] the blog section ends at the
    first occurrence of the first candidate end marker, in the order
    LinkedIn, X/Twitter, MidJourney, whose first occurrence lies strictly
    after the start position (the position just after the start marker);
    when no candidate occurs after the start position the section runs to
    the end of the raw blob. *)
Theorem C1_blog_end_by_priority (raw : str) :
  contains BLOG_POST raw = true ->
  (exists p0, first_occurrence BLOG_POST raw p0
              /\ Qwen.blog_start raw = Z.of_nat p0 + len BLOG_POST)
  /\ (forall before marker after p,
        Qwen.blog_end_markers = before ++ marker :: after ->
        (forall m q, In m before -> first_occurrence m raw q ->
                     Z.of_nat q <= Qwen.blog_start raw) ->
        first_occurrence marker raw p ->
        Qwen.blog_start raw < Z.of_nat p ->
        Qwen.blog_end raw = Z.of_nat p)
  /\ ((forall m q, In m Qwen.blog_end_markers -> occurs_at m raw q ->
                   Z.of_nat q <= Qwen.blog_start raw) ->
      Qwen.blog_end raw = len raw).
Proof.
  intros Hc. destruct (blog_start_spec raw Hc) as (p0 & Hp0 & Hs & _).
  assert (Hge : 0 <= Qwen.blog_start raw) by (unfold len in Hs; lia).
  split; [by exists p0|]. split.
  - intros before marker after p Hsplit Hbefore Hp Hlt.
    unfold Qwen.blog_end. rewrite Hsplit.
    rewrite scan_end_markers_priority; [by apply find_first | | by rewrite (find_first _ _ _ Hp)].
    intros m Hin Hm.
    destruct (find_cases raw m) as [[Hf _] | (q & Hf & Hq)]; [lia|].
    specialize (Hbefore m q Hin Hq). lia.
  - intros Hnone. unfold Qwen.blog_end. apply scan_end_markers_default.
    intros m Hin Hm.
    destruct (find_cases raw m) as [[Hf _] | (q & Hf & Hq & _)]; [lia|].
    specialize (Hnone m q Hin Hq). lia.
Qed.

Lemma C1_blog_end_by_priority_witness :
  contains BLOG_POST raw_twitter_first = true
  /\ Qwen.blog_end raw_twitter_first = 42.
Proof.
  split; [reflexivity|].
  apply (proj1 (proj2 (C1_blog_end_by_priority raw_twitter_first eq_refl))
           [] LINKEDIN_POSTS [X_TWITTER_POSTS; MIDJOURNEY_PROMPTS] 42%nat).
  - reflexivity.
  - intros m q [].
  - apply find_first_occurrence. reflexivity.
  - reflexivity.
Defined.

(** C1 (as stated) fails: two candidate end markers occur after the start
    position, X/Twitter at 17 and LinkedIn at 42; the section ends at 42,
    the first candidate in priority order, not at the nearest one. *)
Lemma C1_counterexample :
  contains BLOG_POST raw_twitter_first = true
  /\ first_occurrence X_TWITTER_POSTS raw_twitter_first 17
  /\ first_occurrence LINKEDIN_POSTS raw_twitter_first 42
  /\ Qwen.blog_start raw_twitter_first < 17
  /\ Qwen.blog_end raw_twitter_first = 42
  /\ Qwen.blog_end raw_twitter_first <> 17
  /\ Qwen.blog_content raw_twitter_first = py "body\n# X/TWITTER POSTS\nthread".
Proof.
  split; [reflexivity|].
  split; [apply find_first_occurrence; reflexivity|].
  split; [apply find_first_occurrence; reflexivity|].
  split; [reflexivity|]. split; [reflexivity|]. split; [|reflexivity].
  vm_compute. discriminate.
Qed.

(** In [researcherqwen.py] the guard [marker_pos > blog_start] keeps the
    end of the blog section at or after its start: the slice is never
    inverted, and its terminator is the end of the blob or a marker whose
    first occurrence lies after the start. *)
Lemma qwen_blog_end_after_start (raw : str) :
  contains BLOG_POST raw = true ->
  Qwen.blog_start raw <= Qwen.blog_end raw <= len raw
  /\ (Qwen.blog_end raw = len raw
      \/ exists m p, In m Qwen.blog_end_markers /\ first_occurrence m raw p
                     /\ Qwen.blog_start raw < Z.of_nat p
                     /\ Qwen.blog_end raw = Z.of_nat p).
Proof.
  intros Hc. destruct (blog_start_spec raw Hc) as (p0 & _ & Hs & Hle).
  assert (Hge : 0 <= Qwen.blog_start raw) by (unfold len in Hs; lia).
  unfold Qwen.blog_end.
  destruct (scan_end_markers_cases (find raw) (Qwen.blog_start raw) (len raw)
              Qwen.blog_end_markers) as [-> | (m & Hin & Hlt & ->)].
  - split; [lia | by left].
  - pose proof (find_range raw m) as Hr. split; [lia|]. right.
    destruct (find_cases raw m) as [[Hf _] | (p & Hf & Hp)]; [lia|].
    exists m, p. rewrite Hf in *. auto.
Qed.

(** C2: [main.py] takes the first occurrence of the LinkedIn header as the
    end of the blog section without comparing it with the start.  On the
    out-of-order input of the specification the end (0) precedes the start
    (30), the slice is empty by inversion and the blog file holds only its
    header; [researcherqwen.py] extracts the body from the same input. *)
Theorem C2_main_out_of_order :
  first_occurrence LINKEDIN_POSTS raw_out_of_order 0
  /\ first_occurrence BLOG_POST raw_out_of_order 19
  /\ Main.blog_start raw_out_of_order = 30
  /\ Main.blog_end raw_out_of_order = 0
  /\ Main.blog_content raw_out_of_order = []
  /\ Qwen.blog_content raw_out_of_order = py "Y (long enough)..."
  /\ disk (snd (Main.save_content_to_files isalnum_ascii topic0 raw_out_of_order []
                  env0 world0))
       !! py "outputs/Agentic AI Workflows_20250107_090500/01_BLOG_POST_MEDIUM.md"
     = Some (py "# Agentic AI: Workflows!\n\n*Ready for Medium.com - Generated on: 2025-01-07 09:05:01*\n\n").
Proof.
  split; [apply find_first_occurrence; reflexivity|].
  split; [apply find_first_occurrence; reflexivity|].
  repeat split; vm_compute; reflexivity.
Qed.

(** ** Acceptance thresholds in [researcherqwen.py] *)

Lemma accepts_env0 : accepts env0.
Proof. intros p. reflexivity. Qed.

Lemma unicode_console_env0 : unicode_console env0.
Proof. intros c H. cbn [stdout_encodes env0]. by rewrite H. Qed.

(** C3 (as amended): a section is reported present, and its file written
    with the trimmed content, exactly when its start marker occurs and the
    trimmed content is strictly longer than the threshold (100 for the
    blog, 50 for social, 30 for the image prompts); otherwise no file is
    written for it.  The blocks run where the filesystem accepts the path,
    the console encodes the messages and UTF-8 encodes topic and blob. *)
Theorem C3_thresholds_are_strict (e : env) (w : world) (dir topic raw : str) :
  accepts e -> unicode_console e ->
  encodable topic = true -> encodable raw = true ->
  (blog_extracted raw = true
     <-> contains BLOG_POST raw = true /\ 100 < len (Qwen.blog_content raw))
  /\ (social_extracted raw = true
     <-> contains LINKEDIN_POSTS raw = true /\ 50 < len (Qwen.social_content raw))
  /\ (midjourney_extracted raw = true
     <-> contains MIDJOURNEY_PROMPTS raw = true
         /\ 30 < len (Qwen.midjourney_content raw))
  /\ (exists w1,
        Qwen.extract_blog dir topic raw e w = (Returns (blog_extracted raw), w1)
        /\ disk w1 !! (dir ++ py "/technical_blog_post.md")
           = if blog_extracted raw
             then Some (qwen_blog_header topic (clock e (ticks w))
                          ++ Qwen.blog_content raw)
             else disk w !! (dir ++ py "/technical_blog_post.md"))
  /\ (exists w1,
        Qwen.extract_social dir topic raw e w = (Returns (social_extracted raw), w1)
        /\ disk w1 !! (dir ++ py "/social_media_posts.md")
           = if social_extracted raw
             then Some (qwen_social_header topic (clock e (ticks w))
                          ++ Qwen.social_content raw)
             else disk w !! (dir ++ py "/social_media_posts.md"))
  /\ (exists w1,
        Qwen.extract_midjourney dir topic raw e w
        = (Returns (midjourney_extracted raw), w1)
        /\ disk w1 !! (dir ++ py "/midjourney_prompts.md")
           = if midjourney_extracted raw
             then Some (qwen_midjourney_header topic (clock e (ticks w))
                          ++ Qwen.midjourney_content raw)
             else disk w !! (dir ++ py "/midjourney_prompts.md")).
Proof.
  intros H Hc Ht Hr.
  split; [unfold blog_extracted; by rewrite andb_true_iff, Z.ltb_lt|].
  split; [unfold social_extracted; by rewrite andb_true_iff, Z.ltb_lt|].
  split; [unfold midjourney_extracted; by rewrite andb_true_iff, Z.ltb_lt|].
  split; [|split].
  - eexists. split; [by apply qwen_extract_blog_run|].
    unfold qwen_after_blog. destruct (blog_extracted raw); [|reflexivity].
    apply lookup_stamped_eq.
  - eexists. split; [by apply qwen_extract_social_run|].
    unfold qwen_after_social. destruct (social_extracted raw); [|reflexivity].
    apply lookup_stamped_eq.
  - eexists. split; [by apply qwen_extract_midjourney_run|].
    unfold qwen_after_midjourney. destruct (midjourney_extracted raw); [|reflexivity].
    apply lookup_stamped_eq.
Qed.

Lemma C3_thresholds_are_strict_witness :
  accepts env0 /\ unicode_console env0
  /\ encodable topic0 = true /\ encodable raw_body101 = true
  /\ (blog_extracted raw_body101 = true
      <-> contains BLOG_POST raw_body101 = true
          /\ 100 < len (Qwen.blog_content raw_body101))
  /\ exists w1,
       Qwen.extract_blog (py "out") topic0 raw_body101 env0 world0
       = (Returns (blog_extracted raw_body101), w1)
       /\ disk w1 !! (py "out" ++ py "/technical_blog_post.md")
          = if blog_extracted raw_body101
            then Some (qwen_blog_header topic0 (clock env0 (ticks world0))
                         ++ Qwen.blog_content raw_body101)
            else disk world0 !! (py "out" ++ py "/technical_blog_post.md").
Proof.
  split; [exact accepts_env0|]. split; [exact unicode_console_env0|].
  split; [reflexivity|]. split; [reflexivity|].
  pose proof (C3_thresholds_are_strict env0 world0 (py "out") topic0 raw_body101
                accepts_env0 unicode_console_env0 eq_refl eq_refl)
    as (Hb & _ & _ & Hrun & _).
  split; [exact Hb | exact Hrun].
Defined.

(** C3 (as stated) fails: the trimmed blog content has exactly 100
    characters, the stated minimum, and the section is not reported
    present: the flag is false and no file is written. *)
Lemma C3_counterexample :
  contains BLOG_POST raw_body100 = true
  /\ len (Qwen.blog_content raw_body100) = 100
  /\ Qwen.extract_blog (py "out") topic0 raw_body100 env0 world0
     = (Returns false, world0).
Proof. repeat split; vm_compute; reflexivity. Qed.

(** ** Running [main.py] *)

Lemma main_save_blog_run (e : env) (output_dir topic content : str) (w : world) :
  accepts e -> unicode_console e ->
  encodable topic = true -> encodable content = true ->
  Main.save_blog output_dir topic content e w
  = (Returns tt,
     stamped (output_dir ++ py "/01_BLOG_POST_MEDIUM.md")
       (main_blog_header topic (clock e (ticks w)) ++ main_blog_body content) w).
Proof.
  intros H Hc Ht Hr. destruct w as [t d m]. unfold Main.save_blog. cbv zeta.
  steps H Hc.
  unfold stamped, main_blog_header, main_blog_body. cbn [ticks dirs disk].
  destruct (contains BLOG_POST content).
  - steps H Hc. reflexivity.
  - steps H Hc. reflexivity.
Qed.

Lemma main_save_complete_run (e : env) (output_dir topic content : str) (w : world) :
  accepts e -> unicode_console e ->
  encodable topic = true -> encodable content = true ->
  Main.save_complete output_dir topic content e w
  = (Returns tt,
     stamped (output_dir ++ py "/complete_content.md")
       (main_complete_header topic (clock e (ticks w)) ++ content) w).
Proof.
  intros H Hc Ht Hr. destruct w as [t d m]. unfold Main.save_complete. steps H Hc.
  unfold stamped, main_complete_header. cbn [ticks dirs disk].
  rewrite <- ?app_assoc. reflexivity.
Qed.

Lemma main_write_images_exact (e : env) (f : str) (images : list str) (i : nat)
    (x : str) t d m :
  all_encodable images ->
  Main.write_images f i images e (World t d (<[f := x]> m))
  = (Returns tt, World t d (<[f := x ++ main_images_entries i images]> m)).
Proof.
  intros Hi. revert i x. induction Hi as [|img rest Himg Hrest IH]; intros i x.
  - cbn [main_images_entries]. by rewrite app_nil_r.
  - change (Main.write_images f i (img :: rest))
      with (f_write f (py "Image " ++ str_of_nat i ++ py ":\n" ++ img ++ py "\n\n")
            ≫= λ _, Main.write_images f (S i) rest).
    rewrite bind_run, f_write_run by enc. cbv beta iota. rewrite IH.
    cbn [main_images_entries]. by rewrite <- !app_assoc.
Qed.

Lemma main_save_images_exact (e : env) (output_dir topic : str) (images : list str)
    (w : world) :
  accepts e -> encodable topic = true -> all_encodable images ->
  Main.save_images output_dir topic images e w
  = (Returns tt,
     {| ticks := ticks w; dirs := dirs w;
        disk := <[output_dir ++ py "/images_generated.txt"
                  := main_images_header topic ++ main_images_entries 1 images]>
                  (disk w) |}).
Proof.
  intros H Ht Hi. destruct w as [t d m]. unfold Main.save_images.
  rewrite bind_run, (open_w_run _ _ _ _ _ H). cbv beta iota.
  rewrite bind_run, f_write_run by enc. cbv beta iota.
  rewrite bind_run, f_write_run by (enc; by apply encodable_replicate). cbv beta iota.
  rewrite main_write_images_exact by exact Hi. unfold main_images_header.
  rewrite app_nil_l, <- !app_assoc. reflexivity.
Qed.

Lemma main_write_readme_run (e : env) (output_dir topic : str) (w : world) :
  accepts e -> unicode_console e -> encodable topic = true ->
  exists text,
    Main.write_readme output_dir topic e w
    = (Returns tt, stamped (output_dir ++ py "/README.md") text w).
Proof.
  intros H Hc Ht. destruct w as [t d m]. unfold Main.write_readme. steps H Hc.
  eexists. reflexivity.
Qed.

(** A run of [main.py] returns its directory, and leaves the blog file, the
    complete file and the list of image results in it. *)
Lemma main_run (isalnum : char -> bool) (e : env) (topic content : str)
    (images : list str) (w : world) :
  accepts e -> unicode_console e ->
  encodable topic = true -> encodable content = true -> all_encodable images ->
  let output_dir :=
    output_dir_of (py "outputs/") (safe_topic isalnum topic) (clock e (ticks w)) in
  exists w',
    Main.save_content_to_files isalnum topic content images e w
    = (Returns output_dir, w')
    /\ disk w' !! (output_dir ++ py "/01_BLOG_POST_MEDIUM.md")
       = Some (main_blog_header topic (clock e (S (ticks w))) ++ main_blog_body content)
    /\ disk w' !! (output_dir ++ py "/complete_content.md")
       = Some (main_complete_header topic (clock e (S (S (ticks w)))) ++ content)
    /\ disk w' !! (output_dir ++ py "/images_generated.txt")
       = Some (main_images_header topic ++ main_images_entries 1 images).
Proof.
  intros H Hc Ht Hr Hi output_dir. destruct w as [t d m].
  unfold Main.save_content_to_files.
  rewrite bind_run, now_run. cbv beta iota zeta.
  rewrite bind_run, (makedirs_run _ _ _ _ _ H). cbv beta iota.
  rewrite bind_run, (print_run _ _ _ Hc) by enc. cbv beta iota.
  rewrite bind_run, (main_save_blog_run _ _ _ _ _ H Hc Ht Hr). cbv beta iota.
  rewrite bind_run, (main_save_complete_run _ _ _ _ _ H Hc Ht Hr). cbv beta iota.
  rewrite bind_run, (main_save_images_exact _ _ _ _ _ H Ht Hi). cbv beta iota.
  rewrite bind_run.
  edestruct (main_write_readme_run e) as [readme_text ->]; [exact H | exact Hc | exact Ht|].
  cbv beta iota.
  rewrite mret_run. eexists. split; [reflexivity|].
  subst output_dir. unfold output_dir_of. cbn [ticks].
  split; [|split].
  - rewrite lookup_stamped_ne by path_ne. cbn [disk].
    rewrite lookup_insert_ne by path_ne.
    rewrite lookup_stamped_ne by path_ne.
    apply lookup_stamped_eq.
  - rewrite lookup_stamped_ne by path_ne. cbn [disk].
    rewrite lookup_insert_ne by path_ne.
    apply lookup_stamped_eq.
  - rewrite lookup_stamped_ne by path_ne. cbn [disk].
    apply lookup_insert_eq.
Qed.

(** ** The files of a [researcherqwen.py] run *)

Lemma qwen_final_blog (isalnum : char -> bool) (e : env) (topic raw : str) (w : world) :
  let dir := output_dir_of (py "technical_content/") (safe_topic isalnum topic)
               (clock e (ticks w)) in
  disk (qwen_final isalnum e topic raw w) !! (dir ++ py "/technical_blog_post.md")
  = if blog_extracted raw
    then Some (qwen_blog_header topic (clock e (S (S (ticks w)))) ++ Qwen.blog_content raw)
    else disk w !! (dir ++ py "/technical_blog_post.md").
Proof.
  intros dir. unfold qwen_final. cbv zeta. fold dir. unfold qwen_after_readme.
  rewrite lookup_stamped_ne by (subst dir; path_ne).
  rewrite qwen_after_midjourney_other by (subst dir; path_ne).
  rewrite qwen_after_social_other by (subst dir; path_ne).
  unfold qwen_after_blog. destruct (blog_extracted raw).
  - by rewrite lookup_stamped_eq.
  - unfold qwen_after_complete. by rewrite lookup_stamped_ne by (subst dir; path_ne).
Qed.



(** The README shows, for each section, the line of its flag, and the
    count computed from the flags. *)
Lemma qwen_final_readme (isalnum : char -> bool) (e : env) (topic raw : str)
    (w : world) :
  let dir := output_dir_of (py "technical_content/") (safe_topic isalnum topic)
               (clock e (ticks w)) in
  exists t,
    disk (qwen_final isalnum e topic raw w) !! (dir ++ py "/README.md")
    = Some (qwen_readme_text topic t (blog_extracted raw) (social_extracted raw)
              (midjourney_extracted raw)).
Proof.
  intros dir. unfold qwen_final. cbv zeta. fold dir. unfold qwen_after_readme.
  eexists. by rewrite lookup_stamped_eq.
Qed.

Lemma size_stamped (path text : str) (w : world) :
  disk w !! path = None -> size (disk (stamped path text w)) = S (size (disk w)).
Proof. intros H. unfold stamped. cbn [disk]. by apply map_size_insert_None. Qed.

Lemma qwen_after_blog_size (e : env) (dir topic raw : str) (w : world) :
  disk w !! (dir ++ py "/technical_blog_post.md") = None ->
  size (disk (qwen_after_blog e dir topic raw w))
  = (size (disk w) + if blog_extracted raw then 1 else 0)%nat.
Proof.
  intros H. unfold qwen_after_blog. destruct (blog_extracted raw).
  - rewrite size_stamped by exact H. lia.
  - lia.
Qed.

Lemma qwen_after_social_size (e : env) (dir topic raw : str) (w : world) :
  disk w !! (dir ++ py "/social_media_posts.md") = None ->
  size (disk (qwen_after_social e dir topic raw w))
  = (size (disk w) + if social_extracted raw then 1 else 0)%nat.
Proof.
  intros H. unfold qwen_after_social. destruct (social_extracted raw).
  - rewrite size_stamped by exact H. lia.
  - lia.
Qed.

Lemma qwen_after_midjourney_size (e : env) (dir topic raw : str) (w : world) :
  disk w !! (dir ++ py "/midjourney_prompts.md") = None ->
  size (disk (qwen_after_midjourney e dir topic raw w))
  = (size (disk w) + if midjourney_extracted raw then 1 else 0)%nat.
Proof.
  intros H. unfold qwen_after_midjourney. destruct (midjourney_extracted raw).
  - rewrite size_stamped by exact H. lia.
  - lia.
Qed.

(** X8: in a directory that holds none of the five files, a run in which
    nothing fails adds one file more than the count its README shows: the
    README itself. *)
Lemma qwen_files_produced (isalnum : char -> bool) (e : env) (w : world)
    (topic raw : str) :
  accepts e -> unicode_console e ->
  encodable topic = true -> encodable raw = true ->
  let dir := output_dir_of (py "technical_content/") (safe_topic isalnum topic)
               (clock e (ticks w)) in
  (forall name, In name qwen_file_names -> disk w !! (dir ++ name) = None) ->
  exists w',
    Qwen.save_content_to_files isalnum topic raw e w = (Returns dir, w')
    /\ size (disk w')
       = (size (disk w)
          + S (Qwen.files_created (blog_extracted raw) (social_extracted raw)
                 (midjourney_extracted raw)))%nat.
Proof.
  intros H Hcon Ht Hraw dir Hfresh. exists (qwen_final isalnum e topic raw w).
  split; [by apply qwen_run|].
  assert (Hc := Hfresh _ (or_introl eq_refl)).
  assert (Hb := Hfresh _ (or_intror (or_introl eq_refl))).
  assert (Hs := Hfresh _ (or_intror (or_intror (or_introl eq_refl)))).
  assert (Hm := Hfresh _ (or_intror (or_intror (or_intror (or_introl eq_refl))))).
  assert (Hr := Hfresh _ (or_intror (or_intror (or_intror (or_intror (or_introl eq_refl)))))).
  clear Hfresh.
  unfold qwen_final. cbv zeta. fold dir. unfold qwen_after_readme.
  rewrite size_stamped.
  2:{ rewrite qwen_after_midjourney_other by path_ne.
      rewrite qwen_after_social_other by path_ne.
      rewrite qwen_after_blog_other by path_ne.
      unfold qwen_after_complete. rewrite lookup_stamped_ne by path_ne. exact Hr. }
  rewrite qwen_after_midjourney_size.
  2:{ rewrite qwen_after_social_other by path_ne.
      rewrite qwen_after_blog_other by path_ne.
      unfold qwen_after_complete. rewrite lookup_stamped_ne by path_ne. exact Hm. }
  rewrite qwen_after_social_size.
  2:{ rewrite qwen_after_blog_other by path_ne.
      unfold qwen_after_complete. rewrite lookup_stamped_ne by path_ne. exact Hs. }
  rewrite qwen_after_blog_size.
  2:{ unfold qwen_after_complete. rewrite lookup_stamped_ne by path_ne. exact Hb. }
  unfold qwen_after_complete. rewrite size_stamped by exact Hc. cbn [disk].
  unfold Qwen.files_created.
  destruct (blog_extracted raw), (social_extracted raw), (midjourney_extracted raw); lia.
Qed.


(** C4 (as amended): every run whose writes and messages succeed (the
    filesystem accepts the paths, the console encodes the messages, UTF-8
    encodes the texts) writes the complete file, whatever was extracted; its
    content is a generated header (title, timestamp, rule) followed by the
    raw blob unchanged, so the blob is what remains after the header.  This
    holds in [researcherqwen.py] and in [main.py]. *)
Theorem C4_complete_file_is_header_then_raw (isalnum : char -> bool) (e : env)
    (w : world) (topic raw : str) (images : list str) :
  accepts e -> unicode_console e ->
  encodable topic = true -> encodable raw = true -> all_encodable images ->
  (exists dir w' text,
      Qwen.save_content_to_files isalnum topic raw e w = (Returns dir, w')
      /\ disk w' !! (dir ++ py "/complete_technical_content.md") = Some text
      /\ text = qwen_complete_header topic (clock e (S (ticks w))) ++ raw
      /\ drop (length (qwen_complete_header topic (clock e (S (ticks w))))) text = raw)
  /\ (exists dir w' text,
      Main.save_content_to_files isalnum topic raw images e w = (Returns dir, w')
      /\ disk w' !! (dir ++ py "/complete_content.md") = Some text
      /\ text = main_complete_header topic (clock e (S (S (ticks w)))) ++ raw
      /\ drop (length (main_complete_header topic (clock e (S (S (ticks w)))))) text = raw).
Proof.
  intros H Hcon Ht Hraw Hi. split.
  - eexists _, _, _. split; [by apply qwen_run|].
    split; [apply qwen_final_complete|]. split; [reflexivity|].
    by rewrite drop_app_length.
  - destruct (main_run isalnum e topic raw images w H Hcon Ht Hraw Hi)
      as (w' & Hrun & _ & Hc & _).
    eexists _, _, _. split; [exact Hrun|]. split; [exact Hc|].
    split; [reflexivity|]. by rewrite drop_app_length.
Qed.

Lemma C4_complete_file_is_header_then_raw_witness :
  accepts env0 /\ unicode_console env0
  /\ encodable topic0 = true /\ encodable raw_no_markers = true
  /\ exists dir w' text,
      Qwen.save_content_to_files isalnum_ascii topic0 raw_no_markers env0 world0
      = (Returns dir, w')
      /\ disk w' !! (dir ++ py "/complete_technical_content.md") = Some text
      /\ text = qwen_complete_header topic0 (clock env0 (S (ticks world0)))
                ++ raw_no_markers
      /\ drop (length (qwen_complete_header topic0 (clock env0 (S (ticks world0)))))
           text = raw_no_markers.
Proof.
  split; [exact accepts_env0|]. split; [exact unicode_console_env0|].
  split; [reflexivity|]. split; [reflexivity|].
  exact (proj1 (C4_complete_file_is_header_then_raw isalnum_ascii env0 world0 topic0
                  raw_no_markers [] accepts_env0 unicode_console_env0 eq_refl eq_refl
                  (List.Forall_nil _))).
Defined.

(** C4 (as stated) fails: the complete file of a run is not equal to the
    raw blob; it begins with the generated header. *)
Lemma C4_counterexample :
  disk (snd (Qwen.save_content_to_files isalnum_ascii topic0 raw_no_markers
               env0 world0))
    !! py "technical_content/Agentic AI Workflows_20250107_090500/complete_technical_content.md"
  = Some (py "# Technical Content Package: Agentic AI: Workflows!\n\n**Generated:** 2025-01-07 09:05:01\n**Perspective:** Data Scientist Technical Blog\n**Model:** DeepSeek R1 Distill Llama 70B\n\n---\n\nplain text without any header\n")
  /\ disk (snd (Qwen.save_content_to_files isalnum_ascii topic0 raw_no_markers
                  env0 world0))
       !! py "technical_content/Agentic AI Workflows_20250107_090500/complete_technical_content.md"
     <> Some raw_no_markers.
Proof.
  split; [vm_compute; reflexivity|].
  vm_compute. intros H. discriminate H.
Qed.

(** C6: with every section extracted the run leaves five files in the
    directory and the README shows three check marks, yet its count line
    reads 4/5: the README itself is never counted. *)
Theorem C6_readme_counts_four_of_five :
  blog_extracted raw_full = true
  /\ social_extracted raw_full = true
  /\ midjourney_extracted raw_full = true
  /\ fst (Qwen.save_content_to_files isalnum_ascii topic0 raw_full env0 world0)
     = Returns (py "technical_content/Agentic AI Workflows_20250107_090500")
  /\ size (disk (snd (Qwen.save_content_to_files isalnum_ascii topic0 raw_full
                        env0 world0))) = 5%nat
  /\ disk (snd (Qwen.save_content_to_files isalnum_ascii topic0 raw_full env0 world0))
       !! py "technical_content/Agentic AI Workflows_20250107_090500/README.md"
     = Some (qwen_readme_text topic0 (clock0 5) true true true)
  /\ Qwen.success_rate (Qwen.files_created true true true)
     = py "**Success Rate:** 4/5 files created\n\n".
Proof. repeat split; vm_compute; reflexivity. Qed.




(** ** Where a captured section begins *)

Lemma clamp_id (n i : Z) : 0 <= i <= n -> clamp n i = i.
Proof.
  intros H. unfold clamp. destruct (i <? 0) eqn:E; [apply Z.ltb_lt in E; lia | lia].
Qed.

Lemma slice_take_drop (s : str) (a b : Z) :
  0 <= a <= len s ->
  exists n, slice s a b = take n (drop (Z.to_nat a) s).
Proof.
  intros H. unfold slice. cbv zeta. rewrite (clamp_id _ _ H).
  destruct (a <? clamp (len s) b).
  - by eexists.
  - exists 0%nat. by rewrite take_0.
Qed.

Lemma slice_from_drop (s : str) (a : Z) :
  0 <= a <= len s -> slice_from s a = drop (Z.to_nat a) s.
Proof. intros H. unfold slice_from. by rewrite (clamp_id _ _ H). Qed.

Lemma lstrip_app_keep (u : str) (c : char) (v : str) :
  isspace c = false -> lstrip (u ++ c :: v) = lstrip u ++ c :: v.
Proof.
  intros Hc. induction u as [|d u IH]; simpl.
  - by rewrite Hc.
  - destruct (isspace d); [exact IH | reflexivity].
Qed.

(** Trailing whitespace is removed after a character that is not
    whitespace, never before it. *)
Lemma rstrip_app_keep (a : str) (c : char) (b : str) :
  isspace c = false -> rstrip ((a ++ [c]) ++ b) = (a ++ [c]) ++ rstrip b.
Proof.
  intros Hc. unfold rstrip.
  rewrite !rev_app_distr. cbn [rev app].
  rewrite (lstrip_app_keep _ _ _ Hc), rev_app_distr. cbn [rev].
  by rewrite rev_involutive.
Qed.

Lemma first_occurrence_split (sub s : str) (p : nat) :
  first_occurrence sub s p ->
  exists pre rest, s = pre ++ sub ++ rest /\ length pre = p.
Proof. intros [H _]. exact H. Qed.

Lemma occurs_at_drop (sub s : str) (k p : nat) :
  (k <= length s)%nat ->
  occurs_at sub (drop k s) p <-> occurs_at sub s (k + p).
Proof.
  intros Hk. split.
  - intros (pre & post & H & Hl). exists (take k s ++ pre), post. split.
    + rewrite <- app_assoc, <- H. by rewrite take_drop.
    + rewrite length_app, length_take. lia.
  - intros (pre & post & H & Hl). exists (drop k pre), post. split.
    + rewrite H. rewrite drop_app_le by lia. reflexivity.
    + rewrite length_drop. lia.
Qed.

(** [s.find(sub, start)] is the first occurrence of [sub] when that lies at
    or after [start]. *)
Lemma find_from_first (s sub : str) (start : Z) (q : nat) :
  first_occurrence sub s q -> 0 <= start <= Z.of_nat q ->
  find_from s sub start = Z.of_nat q.
Proof.
  intros [Hq Hmin] Hs. pose proof (occurs_at_bound _ _ _ Hq) as Hb.
  unfold find_from. unfold len.
  destruct (Z.of_nat (length s) <? start) eqn:E; [apply Z.ltb_lt in E; lia|].
  cbv zeta. rewrite clamp_id by lia.
  set (k := Z.to_nat start).
  assert (Hk : (k <= length s)%nat) by lia.
  destruct (find_at_spec sub (drop k s) start) as [[_ Hn] | (p & -> & Hp & Hpm)].
  - destruct (Hn (q - k)%nat). apply occurs_at_drop; [done|].
    by replace (k + (q - k))%nat with q by lia.
  - apply occurs_at_drop in Hp; [|done].
    assert (~ (k + p < q)%nat) by (intros Hlt; by apply (Hmin _ Hlt)).
    assert (~ (q - k < p)%nat).
    { intros Hlt. apply (Hpm _ Hlt). apply occurs_at_drop; [done|].
      by replace (k + (q - k))%nat with q by lia. }
    lia.
Qed.

Lemma social_start_spec (raw : str) (p : nat) :
  first_occurrence LINKEDIN_POSTS raw p ->
  Qwen.social_start raw = Z.of_nat p /\ Z.of_nat p + 16 <= len raw.
Proof.
  intros Hp. unfold Qwen.social_start. rewrite (find_first _ _ _ Hp).
  split; [done|]. destruct Hp as [Hp _]. apply occurs_at_bound in Hp.
  change (length LINKEDIN_POSTS) with 16%nat in Hp. unfold len. lia.
Qed.

Lemma contains_first (sub s : str) (p : nat) :
  first_occurrence sub s p -> contains sub s = true.
Proof. intros [H _]. apply contains_spec. by exists p. Qed.

Lemma strip_nil : strip [] = [].
Proof. reflexivity. Qed.

Lemma slice_inverted (s : str) (a b : Z) :
  0 <= b <= a -> slice s a b = [].
Proof.
  intros H. unfold slice. cbv zeta. unfold clamp.
  destruct (a <? 0) eqn:Ea; [apply Z.ltb_lt in Ea; lia|].
  destruct (b <? 0) eqn:Eb; [apply Z.ltb_lt in Eb; lia|].
  destruct (Z.min a (len s) <? Z.min b (len s)) eqn:E; [|done].
  apply Z.ltb_lt in E. lia.
Qed.

Lemma slice_exact (s : str) (a b : Z) :
  0 <= a <= b -> b <= len s ->
  slice s a b = take (Z.to_nat (b - a)) (drop (Z.to_nat a) s).
Proof.
  intros Ha Hb. unfold slice. cbv zeta. rewrite !clamp_id by lia.
  destruct (a <? b) eqn:E; [reflexivity|].
  apply Z.ltb_ge in E. replace (b - a) with 0 by lia. by rewrite take_0.
Qed.

Lemma occurs_at_lookup (sub s : list char) (p k : nat) (c : char) :
  occurs_at sub s p -> sub !! k = Some c -> s !! (p + k)%nat = Some c.
Proof.
  intros (pre & post & -> & <-) Hk.
  rewrite lookup_app_r by lia.
  replace (length pre + k - length pre)%nat with k by lia.
  by apply lookup_app_l_Some.
Qed.

(** The headers of the other sections cannot begin inside the LinkedIn
    header: its only [#] is its first character, and its third character
    is an [L]. *)
Lemma no_header_inside_linkedin (raw marker : str) (p q : nat) :
  occurs_at LINKEDIN_POSTS raw p -> occurs_at marker raw q ->
  marker = X_TWITTER_POSTS \/ marker = MIDJOURNEY_PROMPTS ->
  (p <= q)%nat -> (p + 16 <= q)%nat.
Proof.
  intros Hl Hm Hmarker Hpq.
  destruct (Nat.le_gt_cases (p + 16) q) as [Hge | Hlt]; [exact Hge | exfalso].
  assert (H0 : marker !! 0%nat = Some 35%N) by (by destruct Hmarker as [-> | ->]).
  assert (H2 : exists c, marker !! 2%nat = Some c /\ c <> 76%N).
  { destruct Hmarker as [-> | ->]; eexists; (split; [reflexivity | discriminate]). }
  destruct H2 as (c & H2 & Hc).
  pose proof (occurs_at_lookup _ _ _ _ _ Hm H0) as Hq0.
  pose proof (occurs_at_lookup _ _ _ _ _ Hm H2) as Hq2.
  assert (Hk : exists k, q = (p + k)%nat /\ (k < 16)%nat) by (exists (q - p)%nat; lia).
  destruct Hk as (k & -> & Hk).
  rewrite Nat.add_0_r in Hq0.
  destruct (LINKEDIN_POSTS !! k) as [d|] eqn:Ed.
  2:{ apply lookup_ge_None in Ed. change (length LINKEDIN_POSTS) with 16%nat in Ed. lia. }
  pose proof (occurs_at_lookup _ _ _ _ _ Hl Ed) as Hd.
  rewrite Hd in Hq0. injection Hq0 as ->.
  destruct k as [|k].
  - assert (E2 : LINKEDIN_POSTS !! 2%nat = Some 76%N) by reflexivity.
    pose proof (occurs_at_lookup _ _ _ _ _ Hl E2) as Hl2.
    rewrite Nat.add_0_r in Hq2. rewrite Hl2 in Hq2. injection Hq2 as <-. by apply Hc.
  - do 15 (destruct k as [|k]; [vm_compute in Ed; discriminate Ed|]). lia.
Qed.

Lemma find_from_occurs (s sub : str) (start : Z) (q : nat) :
  0 <= start -> find_from s sub start = Z.of_nat q ->
  occurs_at sub s q /\ start <= Z.of_nat q.
Proof.
  intros Hs. unfold find_from, len.
  destruct (Z.of_nat (length s) <? start) eqn:E; [lia|].
  apply Z.ltb_ge in E. cbv zeta. rewrite clamp_id by lia.
  destruct (find_at_spec sub (drop (Z.to_nat start) s) start)
    as [[-> _] | (p & -> & [Hp _])]; [lia|].
  intros Hq. apply occurs_at_drop in Hp; [|lia].
  replace q with (Z.to_nat start + p)%nat by lia. split; [exact Hp | lia].
Qed.

(** Where the social section of [researcherqwen.py] ends: at least one
    header length after its start, or, when the first X/Twitter header and
    after it the first MidJourney header come before the LinkedIn header,
    at that MidJourney header, before its own start. *)
Lemma social_end_cases (raw : str) (p : nat) :
  first_occurrence LINKEDIN_POSTS raw p ->
  Z.of_nat p + 16 <= Qwen.social_end raw <= len raw
  \/ exists t m, first_occurrence X_TWITTER_POSTS raw t
                 /\ first_occurrence MIDJOURNEY_PROMPTS raw m
                 /\ (t < m)%nat /\ (m < p)%nat
                 /\ Qwen.social_end raw = Z.of_nat m.
Proof.
  intros Hp. destruct (social_start_spec raw p Hp) as [Hs Hlen].
  unfold Qwen.social_end. cbv zeta. rewrite Hs.
  set (e0 := scan_end_markers _ _ _ _).
  assert (H0 : Z.of_nat p + 16 <= e0 <= len raw).
  { subst e0.
    destruct (scan_end_markers_cases
                (fun marker => find_from raw marker (Z.of_nat p + 1))
                (Z.of_nat p) (len raw) Qwen.social_end_markers)
      as [-> | (mk & Hin & Hm & ->)]; [lia|].
    destruct (find_from raw mk (Z.of_nat p + 1)) as [|q|q] eqn:Ef; [lia| |lia].
    assert (Hq : find_from raw mk (Z.of_nat p + 1) = Z.of_nat (Pos.to_nat q))
      by (rewrite Ef; lia).
    apply find_from_occurs in Hq as [Hq Hle]; [|lia].
    pose proof (occurs_at_bound _ _ _ Hq) as Hb.
    assert (Hmk : mk = X_TWITTER_POSTS \/ mk = MIDJOURNEY_PROMPTS).
    { destruct Hin as [<- | [<- | []]]; [by left | by right]. }
    pose proof (no_header_inside_linkedin raw mk p (Pos.to_nat q) (proj1 Hp) Hq Hmk
                  ltac:(lia)).
    unfold len. lia. }
  destruct (contains X_TWITTER_POSTS raw) eqn:Hx; [|by left].
  apply contains_find in Hx as (t & Hft & Ht). rewrite Hft.
  destruct ((Z.of_nat t <? e0) || (e0 =? len raw)); [|by left].
  destruct (find_cases raw MIDJOURNEY_PROMPTS) as [[-> _] | (m & -> & Hm)].
  - destruct (Z.of_nat t <? -1) eqn:E; [apply Z.ltb_lt in E; lia|]. left. lia.
  - destruct (Z.of_nat t <? Z.of_nat m) eqn:E; [|left; lia].
    apply Z.ltb_lt in E.
    destruct (Nat.le_gt_cases p m) as [Hpm | Hmp].
    + left. pose proof (occurs_at_bound _ _ _ (proj1 Hm)) as Hb.
      pose proof (no_header_inside_linkedin raw MIDJOURNEY_PROMPTS p m (proj1 Hp)
                    (proj1 Hm) (or_intror eq_refl) Hpm).
      unfold len. lia.
    + right. exists t, m. repeat split; try apply Ht; try apply Hm; lia.
Qed.

(** C5 (as amended): in [researcherqwen.py] the stored content of a section
    is the captured substring with leading and trailing whitespace removed.
    The captured blog substring begins immediately after the first
    occurrence of its start marker and runs to the computed end, so the
    marker is not part of it.  The captured social and image-prompt
    substrings begin at the first occurrence of their start marker itself.
    The image-prompt content therefore always begins with
    [# MIDJOURNEY PROMPTS].  The social content begins with
    [# LINKEDIN POSTS] whenever the computed end lies after the start, in
    particular whenever the section is stored; the computed end lies
    before the start only when the first X/Twitter header and after it the
    first MidJourney header precede the LinkedIn header, and then the
    captured substring is empty. *)
Theorem C5_where_sections_begin (raw : str) :
  (contains BLOG_POST raw = true ->
     exists pre rest,
       raw = pre ++ BLOG_POST ++ rest
       /\ first_occurrence BLOG_POST raw (length pre)
       /\ Qwen.blog_start raw = Z.of_nat (length (pre ++ BLOG_POST))
       /\ Qwen.blog_start raw <= Qwen.blog_end raw <= len raw
       /\ Qwen.blog_content raw
          = strip (take (Z.to_nat (Qwen.blog_end raw - Qwen.blog_start raw)) rest))
  /\ (contains LINKEDIN_POSTS raw = true ->
     exists pre rest,
       raw = pre ++ LINKEDIN_POSTS ++ rest
       /\ first_occurrence LINKEDIN_POSTS raw (length pre)
       /\ Qwen.social_start raw = Z.of_nat (length pre)
       /\ ((Z.of_nat (length (pre ++ LINKEDIN_POSTS)) <= Qwen.social_end raw <= len raw
            /\ Qwen.social_content raw
               = LINKEDIN_POSTS
                 ++ rstrip (take (Z.to_nat (Qwen.social_end raw)
                                  - length (pre ++ LINKEDIN_POSTS)) rest))
           \/ (exists t m,
                 first_occurrence X_TWITTER_POSTS raw t
                 /\ first_occurrence MIDJOURNEY_PROMPTS raw m
                 /\ (t < m)%nat /\ (m < length pre)%nat
                 /\ Qwen.social_end raw = Z.of_nat m
                 /\ Qwen.social_content raw = []))
       /\ (social_extracted raw = true ->
           exists body, Qwen.social_content raw = LINKEDIN_POSTS ++ body))
  /\ (contains MIDJOURNEY_PROMPTS raw = true ->
     exists pre rest,
       raw = pre ++ MIDJOURNEY_PROMPTS ++ rest
       /\ first_occurrence MIDJOURNEY_PROMPTS raw (length pre)
       /\ Qwen.midjourney_content raw = strip (MIDJOURNEY_PROMPTS ++ rest)
       /\ Qwen.midjourney_content raw = MIDJOURNEY_PROMPTS ++ rstrip rest).
Proof.
  split; [|split].
  - intros Hc. destruct (qwen_blog_end_after_start raw Hc) as [Hord _].
    apply contains_find in Hc as (p & Hf & Hp).
    destruct (first_occurrence_split _ _ _ Hp) as (pre & rest & Hraw & Hl).
    subst p. exists pre, rest.
    assert (Hs : Qwen.blog_start raw = Z.of_nat (length (pre ++ BLOG_POST))).
    { unfold Qwen.blog_start, len. rewrite Hf, length_app. lia. }
    split; [exact Hraw|]. split; [exact Hp|]. split; [exact Hs|]. split; [exact Hord|].
    assert (Hd : drop (length (pre ++ BLOG_POST)) raw = rest).
    { rewrite Hraw, app_assoc. apply drop_app_length. }
    unfold Qwen.blog_content. rewrite slice_exact by lia.
    replace (Z.to_nat (Qwen.blog_start raw)) with (length (pre ++ BLOG_POST)) by lia.
    rewrite Hd. reflexivity.
  - intros Hc. apply contains_find in Hc as (p & Hf & Hp).
    destruct (first_occurrence_split _ _ _ Hp) as (pre & rest & Hraw & Hl).
    subst p. exists pre, rest.
    destruct (social_start_spec raw _ Hp) as [Hs Hlen].
    split; [exact Hraw|]. split; [exact Hp|]. split; [exact Hs|].
    assert (Hcases :
      (Z.of_nat (length (pre ++ LINKEDIN_POSTS)) <= Qwen.social_end raw <= len raw
       /\ Qwen.social_content raw
          = LINKEDIN_POSTS
            ++ rstrip (take (Z.to_nat (Qwen.social_end raw)
                             - length (pre ++ LINKEDIN_POSTS)) rest))
      \/ (exists t m,
            first_occurrence X_TWITTER_POSTS raw t
            /\ first_occurrence MIDJOURNEY_PROMPTS raw m
            /\ (t < m)%nat /\ (m < length pre)%nat
            /\ Qwen.social_end raw = Z.of_nat m
            /\ Qwen.social_content raw = [])).
    { destruct (social_end_cases raw _ Hp) as [He | (t & m & Ht & Hm & Htm & Hmp & He)].
      - left. rewrite length_app. change (length LINKEDIN_POSTS) with 16%nat.
        split; [lia|].
        assert (Hd : drop (length pre) raw = LINKEDIN_POSTS ++ rest).
        { rewrite Hraw. apply drop_app_length. }
        unfold Qwen.social_content. rewrite Hs, slice_exact by lia.
        rewrite Nat2Z.id, Hd.
        replace (Z.to_nat (Qwen.social_end raw - Z.of_nat (length pre)))
          with (length LINKEDIN_POSTS
                + (Z.to_nat (Qwen.social_end raw) - (length pre + 16)))%nat
          by (change (length LINKEDIN_POSTS) with 16%nat; lia).
        rewrite take_app_add. unfold strip.
        change LINKEDIN_POSTS with (py "# LINKEDIN POST" ++ [83%N]) at 1 2.
        match goal with
        | |- rstrip (lstrip ((?a ++ ?b) ++ ?c)) = _ =>
            change (lstrip ((a ++ b) ++ c)) with ((a ++ b) ++ c)
        end.
        rewrite rstrip_app_keep by reflexivity. reflexivity.
      - right. exists t, m. repeat split; try apply Ht; try apply Hm; try lia.
        unfold Qwen.social_content. rewrite He, Hs.
        rewrite slice_inverted by lia. reflexivity. }
    split; [exact Hcases|].
    intros Hext. destruct Hcases as [[_ Hcont] | (t & m & _ & _ & _ & _ & _ & Hnil)].
    + eexists. exact Hcont.
    + unfold social_extracted in Hext. rewrite Hnil in Hext.
      rewrite andb_false_r in Hext. discriminate Hext.
  - intros Hc. apply contains_find in Hc as (p & Hf & Hp).
    destruct (first_occurrence_split _ _ _ Hp) as (pre & rest & Hraw & Hl).
    subst p. exists pre, rest. split; [done|]. split; [done|].
    assert (Hm : Qwen.midjourney_content raw = strip (MIDJOURNEY_PROMPTS ++ rest)).
    { unfold Qwen.midjourney_content, Qwen.midjourney_start.
      rewrite slice_from_drop.
      - rewrite Hf, Nat2Z.id. rewrite Hraw at 1. by rewrite drop_app_length.
      - rewrite Hf, Hraw. unfold len. rewrite !length_app. lia. }
    split; [exact Hm|]. rewrite Hm. unfold strip.
    change MIDJOURNEY_PROMPTS with (py "# MIDJOURNEY PROMPT" ++ [83%N]) at 1 2.
    change (lstrip ((py "# MIDJOURNEY PROMPT" ++ [83%N]) ++ rest))
      with ((py "# MIDJOURNEY PROMPT" ++ [83%N]) ++ rest).
    rewrite rstrip_app_keep by reflexivity. reflexivity.
Qed.

Lemma C5_where_sections_begin_witness :
  contains LINKEDIN_POSTS raw_social_lost = true
  /\ contains MIDJOURNEY_PROMPTS raw_full = true
  /\ (exists pre rest,
        raw_social_lost = pre ++ LINKEDIN_POSTS ++ rest
        /\ first_occurrence LINKEDIN_POSTS raw_social_lost (length pre)
        /\ Qwen.social_start raw_social_lost = Z.of_nat (length pre))
  /\ exists pre rest,
       raw_full = pre ++ MIDJOURNEY_PROMPTS ++ rest
       /\ first_occurrence MIDJOURNEY_PROMPTS raw_full (length pre)
       /\ Qwen.midjourney_content raw_full = strip (MIDJOURNEY_PROMPTS ++ rest)
       /\ Qwen.midjourney_content raw_full = MIDJOURNEY_PROMPTS ++ rstrip rest.
Proof.
  split; [reflexivity|]. split; [reflexivity|]. split.
  - destruct (proj1 (proj2 (C5_where_sections_begin raw_social_lost)) eq_refl)
      as (pre & rest & Hraw & Hp & Hs & _).
    exists pre, rest. split; [exact Hraw|]. split; [exact Hp | exact Hs].
  - exact (proj2 (proj2 (C5_where_sections_begin raw_full)) eq_refl).
Defined.

(** C5 (as stated) fails: for the social and the image-prompt section the
    slice starts at the marker (index 133 for LinkedIn), not after it, and
    the stored content begins with the marker text. *)
Lemma C5_counterexample :
  first_occurrence LINKEDIN_POSTS raw_full 133
  /\ Qwen.social_start raw_full = 133
  /\ social_extracted raw_full = true
  /\ Qwen.social_content raw_full
     = LINKEDIN_POSTS ++ py "\n## English\n" ++ replicate 60 98%N
  /\ midjourney_extracted raw_full = true
  /\ Qwen.midjourney_content raw_full
     = MIDJOURNEY_PROMPTS ++ py "\n" ++ replicate 40 100%N ++ py " --ar 16:9 --v 6".
Proof.
  split; [apply find_first_occurrence; reflexivity|].
  repeat split; vm_compute; reflexivity.
Qed.

(** ** Slug generation *)

Lemma slice_to_take (s : str) (n : nat) :
  slice_to s (Z.of_nat n) = take n s.
Proof.
  unfold slice_to, clamp, len.
  destruct (Z.of_nat n <? 0) eqn:E; [apply Z.ltb_lt in E; lia|].
  destruct (Nat.le_gt_cases n (length s)) as [Hle | Hgt].
  - by rewrite Z.min_l, Nat2Z.id by lia.
  - rewrite Z.min_r, Nat2Z.id by lia. rewrite !take_ge by lia. done.
Qed.

Lemma safe_topic_take (isalnum : char -> bool) (topic : str) :
  safe_topic isalnum topic = take 50 (rstrip (List.filter (keep isalnum) topic)).
Proof. unfold safe_topic. apply (slice_to_take _ 50). Qed.

Lemma safe_topic_chars (isalnum : char -> bool) (topic : str) (c : char) :
  In c (safe_topic isalnum topic) -> In c topic /\ keep isalnum c = true.
Proof.
  rewrite safe_topic_take. intros Hin.
  assert (Hr : In c (rstrip (List.filter (keep isalnum) topic))).
  { rewrite <- (take_drop 50 (rstrip _)). apply in_or_app. by left. }
  destruct (rstrip_prefix (List.filter (keep isalnum) topic)) as [ws Hws].
  apply filter_In. rewrite Hws. apply in_or_app. by left.
Qed.

Lemma keep_spec (isalnum : char -> bool) (c : char) :
  keep isalnum c = true <-> isalnum c = true \/ c = 32%N \/ c = 45%N \/ c = 95%N.
Proof.
  unfold keep. cbn [existsb]. rewrite !orb_true_iff, !N.eqb_eq. intuition congruence.
Qed.

Lemma safe_topic_length (isalnum : char -> bool) (topic : str) :
  (length (safe_topic isalnum topic) <= 50)%nat.
Proof. rewrite safe_topic_take, length_take. lia. Qed.

(** The example of the specification. *)
Lemma safe_topic_example :
  safe_topic isalnum_ascii (py "Agentic AI: Workflows!") = py "Agentic AI Workflows".
Proof. reflexivity. Qed.

(** C8: every character of the slug is a character of the topic that is
    alphanumeric or a space, hyphen or underscore; the slug has at most 50
    characters; and runs on the same topic at any clock reading, in any
    world and with any content name their directory with the same slug
    (the runs are taken where nothing fails in writing or printing). *)
Theorem C8_slug_is_safe_and_deterministic (isalnum : char -> bool) (topic : str)
    (e1 e2 : env) (w1 w2 : world) (content1 content2 : str) (images : list str) :
  accepts e1 -> accepts e2 -> unicode_console e1 -> unicode_console e2 ->
  encodable topic = true -> encodable content1 = true -> encodable content2 = true ->
  all_encodable images ->
  (forall c, In c (safe_topic isalnum topic) ->
             In c topic
             /\ (isalnum c = true \/ c = 32%N \/ c = 45%N \/ c = 95%N))
  /\ (length (safe_topic isalnum topic) <= 50)%nat
  /\ fst (Qwen.save_content_to_files isalnum topic content1 e1 w1)
     = Returns (py "technical_content/" ++ safe_topic isalnum topic ++ py "_"
                ++ strftime (clock e1 (ticks w1)) (py "%Y%m%d_%H%M%S"))
  /\ fst (Qwen.save_content_to_files isalnum topic content2 e2 w2)
     = Returns (py "technical_content/" ++ safe_topic isalnum topic ++ py "_"
                ++ strftime (clock e2 (ticks w2)) (py "%Y%m%d_%H%M%S"))
  /\ fst (Main.save_content_to_files isalnum topic content1 images e1 w1)
     = Returns (py "outputs/" ++ safe_topic isalnum topic ++ py "_"
                ++ strftime (clock e1 (ticks w1)) (py "%Y%m%d_%H%M%S")).
Proof.
  intros H1 H2 Hc1 Hc2 Ht Hr1 Hr2 Hi.
  split.
  { intros c Hin. apply safe_topic_chars in Hin as [Hin Hk].
    split; [done | by apply keep_spec]. }
  split; [apply safe_topic_length|].
  split; [by rewrite (qwen_run isalnum e1 topic content1 w1 H1 Hc1 Ht Hr1)|].
  split; [by rewrite (qwen_run isalnum e2 topic content2 w2 H2 Hc2 Ht Hr2)|].
  destruct (main_run isalnum e1 topic content1 images w1 H1 Hc1 Ht Hr1 Hi)
    as (w' & -> & _).
  reflexivity.
Qed.

Lemma C8_slug_is_safe_and_deterministic_witness :
  accepts env0 /\ unicode_console env0
  /\ encodable topic0 = true /\ encodable raw_full = true
  /\ encodable raw_no_markers = true
  /\ (length (safe_topic isalnum_ascii topic0) <= 50)%nat
  /\ fst (Qwen.save_content_to_files isalnum_ascii topic0 raw_full env0 world0)
     = Returns (py "technical_content/" ++ safe_topic isalnum_ascii topic0 ++ py "_"
                ++ strftime (clock env0 (ticks world0)) (py "%Y%m%d_%H%M%S")).
Proof.
  split; [exact accepts_env0|]. split; [exact unicode_console_env0|].
  split; [reflexivity|]. split; [reflexivity|]. split; [reflexivity|].
  pose proof (C8_slug_is_safe_and_deterministic isalnum_ascii topic0 env0 env0
                world0 world0 raw_full raw_no_markers []
                accepts_env0 accepts_env0 unicode_console_env0 unicode_console_env0
                eq_refl eq_refl eq_refl (List.Forall_nil _)) as (_ & Hl & Hq & _).
  split; [exact Hl | exact Hq].
Defined.







(** ** The files of [researcherkilo.py] and the archive of [streamlit_app.py] *)

Lemma kilo_save_research_run (e : env) (output_dir topic research_result : str)
    (w : world) :
  accepts e -> unicode_console e ->
  encodable topic = true -> encodable research_result = true ->
  Kilo.save_research output_dir topic research_result e w
  = (Returns tt,
     stamped (output_dir ++ py "/01_research_findings.md")
       (research_title topic
        ++ generated_line (py "*Generated by Research Agent (Qwen 3-32B) on: ")
             (clock e (ticks w))
        ++ research_result) w).
Proof.
  intros H Hc Ht Hr. destruct w as [t d m]. unfold Kilo.save_research. steps H Hc.
  unfold stamped, research_title, generated_line. cbn [ticks dirs disk].
  rewrite <- ?app_assoc. reflexivity.
Qed.

Lemma kilo_save_blog_run (e : env) (output_dir topic content_result : str) (w : world) :
  accepts e -> unicode_console e ->
  encodable topic = true -> encodable content_result = true ->
  Kilo.save_blog output_dir topic content_result e w
  = (Returns tt,
     stamped (output_dir ++ py "/02_technical_blog_post.md")
       (blog_title topic
        ++ generated_line (py "*Generated by Content Writer Agent (DeepSeek R1) on: ")
             (clock e (ticks w))
        ++ content_result) w).
Proof.
  intros H Hc Ht Hr. destruct w as [t d m]. unfold Kilo.save_blog. steps H Hc.
  unfold stamped, blog_title, generated_line. cbn [ticks dirs disk].
  rewrite <- ?app_assoc. reflexivity.
Qed.

Lemma kilo_save_social_run (e : env) (output_dir topic social_result : str) (w : world) :
  accepts e -> unicode_console e ->
  encodable topic = true -> encodable social_result = true ->
  Kilo.save_social output_dir topic social_result e w
  = (Returns tt,
     stamped (output_dir ++ py "/03_social_media_content.md")
       (social_title topic
        ++ generated_line (py "*Generated by Social Media Specialist (DeepSeek R1) on: ")
             (clock e (ticks w))
        ++ social_result) w).
Proof.
  intros H Hc Ht Hr. destruct w as [t d m]. unfold Kilo.save_social. steps H Hc.
  unfold stamped, social_title, generated_line. cbn [ticks dirs disk].
  rewrite <- ?app_assoc. reflexivity.
Qed.

Lemma kilo_save_complete_run (e : env) (output_dir topic r c s : str) (w : world) :
  accepts e -> unicode_console e ->
  encodable topic = true -> encodable r = true -> encodable c = true ->
  encodable s = true ->
  exists text,
    Kilo.save_complete output_dir topic r c s e w
    = (Returns tt, stamped (output_dir ++ py "/complete_multi_agent_content.md") text w).
Proof.
  intros H Hc Ht Hr Hb Hs. destruct w as [t d m]. unfold Kilo.save_complete.
  steps H Hc. eexists. reflexivity.
Qed.

Lemma kilo_write_readme_run (e : env) (output_dir topic : str) (w : world) :
  accepts e -> unicode_console e -> encodable topic = true ->
  exists text,
    Kilo.write_readme output_dir topic e w
    = (Returns tt, stamped (output_dir ++ py "/README.md") text w).
Proof.
  intros H Hc Ht. destruct w as [t d m]. unfold Kilo.write_readme. steps H Hc.
  eexists. reflexivity.
Qed.

Lemma kilo_run (isalnum : char -> bool) (e : env) (topic r c s : str) (w : world) :
  accepts e -> unicode_console e ->
  encodable topic = true -> encodable r = true -> encodable c = true ->
  encodable s = true ->
  let dir := output_dir_of (py "multi_agent_content/") (safe_topic isalnum topic)
               (clock e (ticks w)) in
  exists w',
    Kilo.save_content_to_files isalnum topic r c s e w = (Returns dir, w')
    /\ disk w' !! (dir ++ py "/01_research_findings.md")
       = Some (research_title topic
               ++ generated_line (py "*Generated by Research Agent (Qwen 3-32B) on: ")
                    (clock e (1 + ticks w))
               ++ r)
    /\ disk w' !! (dir ++ py "/02_technical_blog_post.md")
       = Some (blog_title topic
               ++ generated_line
                    (py "*Generated by Content Writer Agent (DeepSeek R1) on: ")
                    (clock e (2 + ticks w))
               ++ c)
    /\ disk w' !! (dir ++ py "/03_social_media_content.md")
       = Some (social_title topic
               ++ generated_line
                    (py "*Generated by Social Media Specialist (DeepSeek R1) on: ")
                    (clock e (3 + ticks w))
               ++ s)
    /\ is_Some (disk w' !! (dir ++ py "/complete_multi_agent_content.md"))
    /\ is_Some (disk w' !! (dir ++ py "/README.md"))
    /\ disk w' !! (dir ++ py "/complete_content_package.md")
       = disk w !! (dir ++ py "/complete_content_package.md").
Proof.
  intros H Hc Ht Hr Hb Hs dir. destruct w as [t d m].
  unfold Kilo.save_content_to_files.
  rewrite bind_run, now_run. cbv beta iota zeta.
  rewrite bind_run, (makedirs_run _ _ _ _ _ H). cbv beta iota.
  rewrite bind_run, (print_run _ _ _ Hc) by enc. cbv beta iota.
  rewrite bind_run, (kilo_save_research_run _ _ _ _ _ H Hc Ht Hr). cbv beta iota.
  rewrite bind_run, (kilo_save_blog_run _ _ _ _ _ H Hc Ht Hb). cbv beta iota.
  rewrite bind_run, (kilo_save_social_run _ _ _ _ _ H Hc Ht Hs). cbv beta iota.
  rewrite bind_run.
  edestruct (kilo_save_complete_run e) as [complete_text ->];
    [exact H | exact Hc | exact Ht | exact Hr | exact Hb | exact Hs|].
  cbv beta iota.
  rewrite bind_run.
  edestruct (kilo_write_readme_run e) as [readme_text ->];
    [exact H | exact Hc | exact Ht|].
  cbv beta iota.
  rewrite mret_run. eexists. split; [reflexivity|].
  subst dir. unfold output_dir_of. cbn [plus ticks].
  split; [|split; [|split; [|split; [|split]]]].
  - do 4 (rewrite lookup_stamped_ne by path_ne).
    rewrite lookup_stamped_eq. reflexivity.
  - do 3 (rewrite lookup_stamped_ne by path_ne).
    rewrite lookup_stamped_eq. reflexivity.
  - do 2 (rewrite lookup_stamped_ne by path_ne).
    rewrite lookup_stamped_eq. reflexivity.
  - rewrite lookup_stamped_ne by path_ne.
    rewrite lookup_stamped_eq. by eexists.
  - rewrite lookup_stamped_eq. by eexists.
  - do 5 (rewrite lookup_stamped_ne by path_ne). reflexivity.
Qed.

Lemma writestr_run (zip_file : Streamlit.archive) (name data : str) (e : env)
    (w : world) :
  encodable data = true ->
  Streamlit.writestr zip_file name data e w = (Returns (zip_file ++ [(name, data)]), w).
Proof. intros H. unfold Streamlit.writestr. by rewrite H. Qed.

Lemma zip_run (e : env) (topic : str) (result : Streamlit.result)
    (timestamp safe_topic : str) t d m :
  encodable topic = true -> encodable (Streamlit.research result) = true ->
  encodable (Streamlit.content result) = true ->
  encodable (Streamlit.social result) = true ->
  exists complete readme,
    Streamlit.create_download_zip topic result timestamp safe_topic e (World t d m)
    = (Returns
         [ (py "01_research_findings.md",
            research_title topic ++ generated_line (py "*Generated: ") (clock e t)
            ++ Streamlit.research result);
           (py "02_technical_blog_post.md",
            blog_title topic ++ generated_line (py "*Generated: ") (clock e (1 + t))
            ++ Streamlit.content result);
           (py "03_social_media_content.md",
            social_title topic ++ generated_line (py "*Generated: ") (clock e (2 + t))
            ++ Streamlit.social result);
           (py "complete_content_package.md", complete);
           (py "README.md", readme) ],
       World (5 + t) d m).
Proof.
  intros Ht Hr Hb Hs. unfold Streamlit.create_download_zip. cbv zeta.
  do 5 (rewrite bind_run, now_run; cbv beta iota;
        rewrite bind_run, writestr_run by enc; cbv beta iota).
  rewrite mret_run. cbn [app plus].
  unfold research_title, blog_title, social_title, generated_line.
  change (py "\n\n*Generated: ") with (py "\n\n" ++ py "*Generated: ").
  rewrite <- ?app_assoc.
  eexists _, _. reflexivity.
Qed.

Ltac name_ne :=
  let Hp := fresh "Hp" in intros Hp; vm_compute in Hp; discriminate Hp.

(** C9 (as amended): for a topic and results that UTF-8 can encode (and a
    filesystem and console that accept what the run writes and prints), the
    directory written by [researcherkilo.py] and the
    archive built by [create_download_zip] both hold five files; they share
    the names of the three per-agent files and of the README, and each
    per-agent file has in both the same title and ends with the same
    result text; the line with the generation time differs, and the
    combined file has a different name in each (whatever its text). *)
Theorem C9_archive_and_files_share_payloads (isalnum : char -> bool)
    (e ez : env) (w wz : world) (topic : str) (result : Streamlit.result)
    (timestamp slug : str) :
  accepts e -> unicode_console e ->
  encodable topic = true -> encodable (Streamlit.research result) = true ->
  encodable (Streamlit.content result) = true ->
  encodable (Streamlit.social result) = true ->
  exists dir w' zip_file wz',
    Kilo.save_content_to_files isalnum topic (Streamlit.research result)
      (Streamlit.content result) (Streamlit.social result) e w = (Returns dir, w')
    /\ Streamlit.create_download_zip topic result timestamp slug ez wz
       = (Returns zip_file, wz')
    /\ map fst zip_file
       = [py "01_research_findings.md"; py "02_technical_blog_post.md";
          py "03_social_media_content.md"; py "complete_content_package.md";
          py "README.md"]
    /\ (disk w' !! (dir ++ py "/01_research_findings.md")
        = Some (research_title topic
                ++ generated_line (py "*Generated by Research Agent (Qwen 3-32B) on: ")
                     (clock e (1 + ticks w))
                ++ Streamlit.research result)
        /\ Streamlit.mapping zip_file !! py "01_research_findings.md"
           = Some (research_title topic
                   ++ generated_line (py "*Generated: ") (clock ez (ticks wz))
                   ++ Streamlit.research result))
    /\ (disk w' !! (dir ++ py "/02_technical_blog_post.md")
        = Some (blog_title topic
                ++ generated_line
                     (py "*Generated by Content Writer Agent (DeepSeek R1) on: ")
                     (clock e (2 + ticks w))
                ++ Streamlit.content result)
        /\ Streamlit.mapping zip_file !! py "02_technical_blog_post.md"
           = Some (blog_title topic
                   ++ generated_line (py "*Generated: ") (clock ez (1 + ticks wz))
                   ++ Streamlit.content result))
    /\ (disk w' !! (dir ++ py "/03_social_media_content.md")
        = Some (social_title topic
                ++ generated_line
                     (py "*Generated by Social Media Specialist (DeepSeek R1) on: ")
                     (clock e (3 + ticks w))
                ++ Streamlit.social result)
        /\ Streamlit.mapping zip_file !! py "03_social_media_content.md"
           = Some (social_title topic
                   ++ generated_line (py "*Generated: ") (clock ez (2 + ticks wz))
                   ++ Streamlit.social result))
    /\ (is_Some (disk w' !! (dir ++ py "/README.md"))
        /\ is_Some (Streamlit.mapping zip_file !! py "README.md"))
    /\ (is_Some (disk w' !! (dir ++ py "/complete_multi_agent_content.md"))
        /\ Streamlit.mapping zip_file !! py "complete_multi_agent_content.md" = None)
    /\ (is_Some (Streamlit.mapping zip_file !! py "complete_content_package.md")
        /\ disk w' !! (dir ++ py "/complete_content_package.md")
           = disk w !! (dir ++ py "/complete_content_package.md")).
Proof.
  intros H Hcon Ht Hres Hcont Hsoc.
  destruct (kilo_run isalnum e topic (Streamlit.research result)
              (Streamlit.content result) (Streamlit.social result) w
              H Hcon Ht Hres Hcont Hsoc)
    as (w' & Hrun & H1 & H2 & H3 & Hc & Hr & Hn).
  destruct wz as [tz dz mz].
  destruct (zip_run ez topic result timestamp slug tz dz mz Ht Hres Hcont Hsoc)
    as (complete & readme & Hzip).
  eexists _, w', _, _. split; [exact Hrun|]. split; [exact Hzip|].
  split; [reflexivity|].
  unfold Streamlit.mapping. cbn [fold_left fst snd ticks].
  split; [split; [exact H1|]|].
  { do 4 (rewrite lookup_insert_ne by name_ne). by rewrite lookup_insert_eq. }
  split; [split; [exact H2|]|].
  { do 3 (rewrite lookup_insert_ne by name_ne). by rewrite lookup_insert_eq. }
  split; [split; [exact H3|]|].
  { do 2 (rewrite lookup_insert_ne by name_ne). by rewrite lookup_insert_eq. }
  split; [split; [exact Hr|]|].
  { rewrite lookup_insert_eq. by eexists. }
  split; [split; [exact Hc|]|].
  { do 5 (rewrite lookup_insert_ne by name_ne). apply lookup_empty. }
  split; [|exact Hn].
  rewrite lookup_insert_ne by name_ne. rewrite lookup_insert_eq. by eexists.
Qed.

Lemma C9_archive_and_files_share_payloads_witness :
  accepts env0 /\ unicode_console env0 /\ encodable topic0 = true
  /\ encodable (Streamlit.research result0) = true
  /\ encodable (Streamlit.content result0) = true
  /\ encodable (Streamlit.social result0) = true
  /\ exists dir w' zip_file wz',
       Kilo.save_content_to_files isalnum_ascii topic0 (Streamlit.research result0)
         (Streamlit.content result0) (Streamlit.social result0) env0 world0
       = (Returns dir, w')
       /\ Streamlit.create_download_zip topic0 result0 [] [] env0 world0
          = (Returns zip_file, wz')
       /\ map fst zip_file
          = [py "01_research_findings.md"; py "02_technical_blog_post.md";
             py "03_social_media_content.md"; py "complete_content_package.md";
             py "README.md"].
Proof.
  split; [exact accepts_env0|]. split; [exact unicode_console_env0|].
  do 4 (split; [reflexivity|]).
  destruct (C9_archive_and_files_share_payloads isalnum_ascii env0 env0 world0 world0
              topic0 result0 [] [] accepts_env0 unicode_console_env0
              eq_refl eq_refl eq_refl eq_refl)
    as (dir & w' & zip_file & wz' & Hk & Hz & Hn & _).
  exists dir, w', zip_file, wz'. split; [exact Hk|]. split; [exact Hz | exact Hn].
Defined.

(** C9 (as stated) fails: for the same topic, results and clock the
    mapping of the archive differs from the mapping of the directory: the
    combined file has another name, and the research file another text. *)
Lemma C9_counterexample :
  files_in (py "multi_agent_content/Agentic AI Workflows_20250107_090500")
    (disk (snd (Kilo.save_content_to_files isalnum_ascii topic0
                  (Streamlit.research result0) (Streamlit.content result0)
                  (Streamlit.social result0) env0 world0)))
  <> Streamlit.mapping
       (archive_of (Streamlit.create_download_zip topic0 result0
                      (py "20250107_090500") (py "Agentic AI Workflows") env0 world0))
  /\ files_in (py "multi_agent_content/Agentic AI Workflows_20250107_090500")
       (disk (snd (Kilo.save_content_to_files isalnum_ascii topic0
                     (Streamlit.research result0) (Streamlit.content result0)
                     (Streamlit.social result0) env0 world0)))
       !! py "01_research_findings.md"
     = Some (py "# Research Findings: Agentic AI: Workflows!\n\n*Generated by Research Agent (Qwen 3-32B) on: 2025-01-07 09:05:01*\n\nfindings")
  /\ Streamlit.mapping
       (archive_of (Streamlit.create_download_zip topic0 result0
                      (py "20250107_090500") (py "Agentic AI Workflows") env0 world0))
       !! py "01_research_findings.md"
     = Some (py "# Research Findings: Agentic AI: Workflows!\n\n*Generated: 2025-01-07 09:05:00*\n\nfindings").
Proof.
  split; [|split; vm_compute; reflexivity].
  intros Heq.
  apply (f_equal (fun m : gmap str str => m !! py "complete_content_package.md")) in Heq.
  vm_compute in Heq. discriminate Heq.
Qed.

(** ** Further properties of the section extraction *)

(** X3: in [researcherqwen.py], when the first X/Twitter header comes after
    the first LinkedIn header, the social section ends at that X/Twitter
    header: the stored social content is the trimmed text from the LinkedIn
    header up to it, without the X/Twitter section. *)
Theorem X_social_ends_at_twitter (raw : str) (p q : nat) :
  first_occurrence LINKEDIN_POSTS raw p ->
  first_occurrence X_TWITTER_POSTS raw q ->
  (p < q)%nat ->
  Qwen.social_end raw = Z.of_nat q
  /\ Qwen.social_content raw
     = strip (take (q - p) (drop p raw)).
Proof.
  intros Hp Hq Hlt.
  destruct (social_start_spec raw p Hp) as [Hs Hlen].
  pose proof (occurs_at_bound _ _ _ (proj1 Hq)) as Hqb.
  change (length X_TWITTER_POSTS) with 17%nat in Hqb.
  assert (He : Qwen.social_end raw = Z.of_nat q).
  { unfold Qwen.social_end. cbv zeta. rewrite Hs.
    unfold Qwen.social_end_markers.
    rewrite (scan_end_markers_priority _ _ _ [] X_TWITTER_POSTS [MIDJOURNEY_PROMPTS]).
    - rewrite (find_from_first _ _ _ _ Hq) by lia.
      rewrite (contains_first _ _ _ Hq), (find_first _ _ _ Hq).
      rewrite Z.ltb_irrefl. cbn [orb].
      destruct (Z.of_nat q =? len raw) eqn:E; [|done].
      apply Z.eqb_eq in E. unfold len in E. lia.
    - intros m [].
    - rewrite (find_from_first _ _ _ _ Hq) by lia. lia. }
  split; [exact He|].
  unfold Qwen.social_content. rewrite He, Hs. unfold slice. cbv zeta.
  unfold len in *. rewrite !clamp_id by lia.
  destruct (Z.of_nat p <? Z.of_nat q) eqn:E; [|apply Z.ltb_ge in E; lia].
  by rewrite Nat2Z.id, <- Nat2Z.inj_sub, Nat2Z.id by lia.
Qed.

(** X4: in [researcherqwen.py], when the first X/Twitter header precedes the
    first LinkedIn header, the end of the social section is the first
    MidJourney header if that lies after the X/Twitter header, and the end of
    the blob otherwise; with the MidJourney header between the two, the
    slice is inverted, the social content is empty and the section is not
    extracted. *)
Theorem X_social_lost_when_twitter_first (raw : str) (t p : nat) :
  first_occurrence X_TWITTER_POSTS raw t ->
  first_occurrence LINKEDIN_POSTS raw p ->
  (t < p)%nat ->
  Qwen.social_end raw
  = (if Z.of_nat t <? find raw MIDJOURNEY_PROMPTS
     then find raw MIDJOURNEY_PROMPTS else len raw)
  /\ (forall m, first_occurrence MIDJOURNEY_PROMPTS raw m -> ((t < m)%nat /\ (m < p)%nat) ->
        Qwen.social_content raw = [] /\ social_extracted raw = false).
Proof.
  intros Ht Hp Hlt.
  destruct (social_start_spec raw p Hp) as [Hs Hlen].
  assert (He : Qwen.social_end raw
               = (if Z.of_nat t <? find raw MIDJOURNEY_PROMPTS
                  then find raw MIDJOURNEY_PROMPTS else len raw)).
  { unfold Qwen.social_end. cbv zeta. rewrite Hs.
    rewrite (contains_first _ _ _ Ht), (find_first _ _ _ Ht).
    set (e0 := scan_end_markers _ _ _ _).
    assert (H0 : Z.of_nat p < e0).
    { subst e0.
      destruct (scan_end_markers_cases
                  (fun marker => find_from raw marker (Z.of_nat p + 1))
                  (Z.of_nat p) (len raw) Qwen.social_end_markers)
        as [-> | (m & _ & Hm & ->)]; lia. }
    assert (E : (Z.of_nat t <? e0) = true) by (apply Z.ltb_lt; lia).
    rewrite E. reflexivity. }
  split; [exact He|].
  intros m Hm Hr.
  assert (Hc : Qwen.social_content raw = []).
  { unfold Qwen.social_content. rewrite He, Hs, (find_first _ _ _ Hm).
    destruct (Z.of_nat t <? Z.of_nat m) eqn:E; [|apply Z.ltb_ge in E; lia].
    rewrite slice_inverted by lia. reflexivity. }
  split; [exact Hc|].
  unfold social_extracted. rewrite Hc. apply andb_false_r.
Qed.

(** X2: in [researcherqwen.py] a LinkedIn header that follows the blog header
    with nothing in between is not after the start position, so it does not
    end the blog section: without other headers the blog content runs to the
    end of the blob and begins with the LinkedIn header. *)
Theorem X_blog_adjacent_linkedin (pre rest : str) :
  let raw := pre ++ BLOG_POST ++ LINKEDIN_POSTS ++ rest in
  first_occurrence BLOG_POST raw (length pre) ->
  first_occurrence LINKEDIN_POSTS raw (length pre + 11) ->
  contains X_TWITTER_POSTS raw = false ->
  contains MIDJOURNEY_PROMPTS raw = false ->
  Qwen.blog_end raw = len raw
  /\ Qwen.blog_content raw = strip (LINKEDIN_POSTS ++ rest).
Proof.
  intros raw Hb Hl Hx Hm.
  assert (Hs : Qwen.blog_start raw = Z.of_nat (length pre) + 11).
  { unfold Qwen.blog_start. by rewrite (find_first _ _ _ Hb). }
  assert (Hlen : len raw = Z.of_nat (length pre) + 11 + 16 + Z.of_nat (length rest)).
  { unfold len, raw. rewrite !length_app.
    change (length BLOG_POST) with 11%nat. change (length LINKEDIN_POSTS) with 16%nat.
    lia. }
  assert (Habs : forall sub, contains sub raw = false -> find raw sub = -1).
  { intros sub Hc. apply find_absent. intros q Hq.
    assert (contains sub raw = true) by (apply contains_spec; by exists q). congruence. }
  assert (He : Qwen.blog_end raw = len raw).
  { unfold Qwen.blog_end. apply scan_end_markers_default.
    intros m [<- | [<- | [<- | []]]]; rewrite Hs.
    - rewrite (find_first _ _ _ Hl). lia.
    - rewrite (Habs _ Hx). lia.
    - rewrite (Habs _ Hm). lia. }
  split; [exact He|].
  unfold Qwen.blog_content. rewrite He, Hs. unfold slice. cbv zeta.
  rewrite !clamp_id by lia.
  destruct (Z.of_nat (length pre) + 11 <? len raw) eqn:E;
    [|apply Z.ltb_ge in E; lia].
  replace (Z.to_nat (Z.of_nat (length pre) + 11)) with (length (pre ++ BLOG_POST))
    by (rewrite length_app; change (length BLOG_POST) with 11%nat; lia).
  unfold raw at 2. rewrite app_assoc, drop_app_length.
  rewrite take_ge; [done|]. rewrite length_app.
  change (length LINKEDIN_POSTS) with 16%nat. lia.
Qed.


(** The text between two headers, when they come in order. *)
Lemma slice_between (pre a body rest : str) :
  slice (pre ++ a ++ body ++ rest) (Z.of_nat (length pre) + len a)
    (Z.of_nat (length (pre ++ a ++ body)))
  = body.
Proof.
  unfold slice, len. cbv zeta. rewrite !length_app.
  rewrite !clamp_id by lia.
  destruct (Z.of_nat (length pre) + Z.of_nat (length a)
            <? Z.of_nat (length pre + (length a + length body))) eqn:E.
  - replace (Z.to_nat (Z.of_nat (length pre) + Z.of_nat (length a)))
      with (length (pre ++ a)) by (rewrite length_app; lia).
    rewrite (app_assoc pre a), drop_app_length.
    replace (Z.to_nat _) with (length body) by lia.
    by rewrite take_app_length.
  - apply Z.ltb_ge in E. destruct body; [done | simpl in E; lia].
Qed.

(** X1: in [researcherqwen.py], when the blog header and then the LinkedIn
    header occur, each for the first time, with a non-empty text between
    them, the blog content is that text, trimmed. *)
Theorem X_qwen_blog_in_order (pre body post : str) :
  let raw := pre ++ BLOG_POST ++ body ++ LINKEDIN_POSTS ++ post in
  first_occurrence BLOG_POST raw (length pre) ->
  first_occurrence LINKEDIN_POSTS raw (length (pre ++ BLOG_POST ++ body)) ->
  body <> [] ->
  Qwen.blog_content raw = strip body.
Proof.
  intros raw Hb Hl Hne.
  assert (Hs : Qwen.blog_start raw = Z.of_nat (length pre) + len BLOG_POST).
  { unfold Qwen.blog_start. by rewrite (find_first _ _ _ Hb). }
  assert (He : Qwen.blog_end raw = Z.of_nat (length (pre ++ BLOG_POST ++ body))).
  { unfold Qwen.blog_end, Qwen.blog_end_markers.
    rewrite (scan_end_markers_priority _ _ _ [] LINKEDIN_POSTS
               [X_TWITTER_POSTS; MIDJOURNEY_PROMPTS]).
    - by apply find_first.
    - intros m [].
    - rewrite (find_first _ _ _ Hl), Hs. unfold len. rewrite !length_app.
      destruct body; [done | simpl; lia]. }
  unfold Qwen.blog_content. rewrite Hs, He. unfold raw.
  by rewrite slice_between.
Qed.

(** X5: in [main.py], when the blog header and then the LinkedIn header
    occur, each for the first time, the blog content is the text between
    them, trimmed (also when that text is empty). *)
Theorem X_main_blog_in_order (pre body post : str) :
  let raw := pre ++ BLOG_POST ++ body ++ LINKEDIN_POSTS ++ post in
  first_occurrence BLOG_POST raw (length pre) ->
  first_occurrence LINKEDIN_POSTS raw (length (pre ++ BLOG_POST ++ body)) ->
  Main.blog_content raw = strip body.
Proof.
  intros raw Hb Hl.
  assert (Hs : Main.blog_start raw = Z.of_nat (length pre) + len BLOG_POST).
  { unfold Main.blog_start. by rewrite (find_first _ _ _ Hb). }
  assert (He : Main.blog_end raw = Z.of_nat (length (pre ++ BLOG_POST ++ body))).
  { unfold Main.blog_end. cbv zeta. rewrite (find_first _ _ _ Hl).
    assert (E : (Z.of_nat (length (pre ++ BLOG_POST ++ body)) =? -1) = false)
      by (apply Z.eqb_neq; lia).
    rewrite E. cbv beta iota. rewrite E. reflexivity. }
  unfold Main.blog_content. rewrite Hs, He. unfold raw.
  by rewrite slice_between.
Qed.

Lemma lstrip_trimmed_l (s : str) (c : char) (r : str) :
  lstrip s = c :: r -> isspace c = false.
Proof.
  induction s as [|d s IH]; simpl; [done|].
  destruct (isspace d) eqn:E; [exact IH|]. intros H. injection H as <- _. exact E.
Qed.

Lemma rstrip_trimmed_r (s r : str) (c : char) :
  rstrip s = r ++ [c] -> isspace c = false.
Proof.
  unfold rstrip. intros H. apply (f_equal (@rev char)) in H.
  rewrite rev_involutive, rev_app_distr in H. simpl in H.
  by apply lstrip_trimmed_l in H.
Qed.

Lemma lstrip_cons_keep (c : char) (s : str) :
  isspace c = false -> lstrip (c :: s) = c :: s.
Proof. intros H. simpl. by rewrite H. Qed.

Lemma strip_trimmed (s : str) : trimmed (strip s).
Proof.
  unfold strip. split.
  - intros c r H.
    destruct (lstrip s) as [|d l] eqn:E; [discriminate H|].
    pose proof (lstrip_trimmed_l _ _ _ E) as Hd.
    destruct (rstrip_prefix (d :: l)) as [ws Hws].
    rewrite H in Hws. injection Hws as -> _. exact Hd.
  - intros r c H. by apply rstrip_trimmed_r in H.
Qed.

(** X6: every section content that is stored begins and ends with a
    character that is not whitespace (or is empty). *)
Theorem X_contents_are_trimmed (raw : str) :
  trimmed (Qwen.blog_content raw) /\ trimmed (Qwen.social_content raw)
  /\ trimmed (Qwen.midjourney_content raw) /\ trimmed (Main.blog_content raw).
Proof. repeat split; apply strip_trimmed. Qed.

(** X7: a slug shorter than 50 characters does not end in whitespace: only
    the truncation can leave a trailing space. *)
Theorem X_short_slug_has_no_trailing_space (isalnum : char -> bool) (topic r : str)
    (c : char) :
  (length (safe_topic isalnum topic) < 50)%nat ->
  safe_topic isalnum topic = r ++ [c] ->
  isspace c = false.
Proof.
  rewrite safe_topic_take. intros Hl H.
  rewrite length_take in Hl.
  rewrite take_ge in H by lia. by apply rstrip_trimmed_r in H.
Qed.


(** X10: a run of [researcherqwen.py] (in which nothing fails) does not
    remove a section file that it does not extract: a blog file already at
    the run's path is still there afterwards, while the README of the run
    marks the blog as not extracted. *)
Theorem X_stale_section_file_survives (isalnum : char -> bool) (e : env) (w : world)
    (topic raw old : str) :
  accepts e -> unicode_console e ->
  encodable topic = true -> encodable raw = true ->
  blog_extracted raw = false ->
  disk w !! (output_dir_of (py "technical_content/") (safe_topic isalnum topic)
               (clock e (ticks w)) ++ py "/technical_blog_post.md") = Some old ->
  exists w' t,
    Qwen.save_content_to_files isalnum topic raw e w
    = (Returns (output_dir_of (py "technical_content/") (safe_topic isalnum topic)
                  (clock e (ticks w))), w')
    /\ disk w' !! (output_dir_of (py "technical_content/") (safe_topic isalnum topic)
                     (clock e (ticks w)) ++ py "/technical_blog_post.md") = Some old
    /\ disk w' !! (output_dir_of (py "technical_content/") (safe_topic isalnum topic)
                     (clock e (ticks w)) ++ py "/README.md")
       = Some (qwen_readme_text topic t false (social_extracted raw)
                 (midjourney_extracted raw)).
Proof.
  intros H Hcon Ht Hraw Hb Hold.
  destruct (qwen_final_readme isalnum e topic raw w) as [t Hr].
  pose proof (qwen_final_blog isalnum e topic raw w) as Hf.
  cbv zeta in Hr, Hf. rewrite Hb in Hr, Hf.
  exists (qwen_final isalnum e topic raw w), t.
  split; [by apply qwen_run|]. split; [|exact Hr].
  exact (eq_trans Hf Hold).
Qed.

Lemma qwen_readme_issues_cases (b s m : bool) :
  qwen_readme_issues (Qwen.files_created b s m)
  = if b && s && m then [] else qwen_issues_text.
Proof.
  unfold qwen_readme_issues, qwen_issues_text.
  assert (E : (Qwen.files_created b s m <? 4)%nat = negb (b && s && m))
    by (destruct b, s, m; reflexivity).
  rewrite E. destruct (b && s && m); reflexivity.
Qed.

(** X9: the README of a [researcherqwen.py] run (in which nothing fails)
    ends with the warning about extraction issues exactly when one of the
    three sections was not extracted. *)
Theorem X_readme_warns_iff_section_missing (isalnum : char -> bool) (e : env)
    (w : world) (topic raw : str) :
  accepts e -> unicode_console e ->
  encodable topic = true -> encodable raw = true ->
  exists w' t,
    Qwen.save_content_to_files isalnum topic raw e w
    = (Returns (output_dir_of (py "technical_content/") (safe_topic isalnum topic)
                  (clock e (ticks w))), w')
    /\ disk w' !! (output_dir_of (py "technical_content/") (safe_topic isalnum topic)
                     (clock e (ticks w)) ++ py "/README.md")
       = Some (qwen_readme_head topic t
               ++ Qwen.success_rate
                    (Qwen.files_created (blog_extracted raw) (social_extracted raw)
                       (midjourney_extracted raw))
               ++ py "## 📁 Files:\n\n"
               ++ Qwen.blog_line (blog_extracted raw)
               ++ Qwen.social_line (social_extracted raw)
               ++ Qwen.midjourney_line (midjourney_extracted raw)
               ++ qwen_readme_features
               ++ (if blog_extracted raw && social_extracted raw
                      && midjourney_extracted raw
                   then [] else qwen_issues_text)).
Proof.
  intros H Hcon Ht Hraw.
  destruct (qwen_final_readme isalnum e topic raw w) as [t Hr].
  cbv zeta in Hr.
  exists (qwen_final isalnum e topic raw w), t.
  split; [by apply qwen_run|].
  etransitivity; [exact Hr|].
  unfold qwen_readme_text. rewrite qwen_readme_issues_cases. reflexivity.
Qed.







Lemma console_encodes_missing (e : env) (s : str) (c : char) :
  In c s -> stdout_encodes e c = false -> console_encodes e s = false.
Proof.
  intros Hin Hc. unfold console_encodes.
  destruct (forallb (stdout_encodes e) s) eqn:E; [|reflexivity].
  rewrite forallb_forall in E. rewrite (E c Hin) in Hc. discriminate Hc.
Qed.

(** The first message of the packaging functions, after the directory
    has been created: a refused message ends the run there. *)
Lemma first_message_fatal {A : Type} (path message : str) (k : M A) (e : env)
    (t : nat) (d : list str) (m : gmap str str) :
  accepts e -> console_encodes e (message ++ [10%N]) = false ->
  (makedirs path;; print message;; k) e (World t d m)
  = (Raises (UnicodeEncodeError stdout_encoding message), World t (path :: d) m).
Proof.
  intros Ha Hm. rewrite bind_run, (makedirs_run _ _ _ _ _ Ha). cbv beta iota.
  rewrite bind_run, (print_fails _ _ _ Hm). reflexivity.
Qed.

(** X22: on a console whose encoding has no floppy-disk emoji (any legacy
    one-byte encoding), each [save_content_to_files] raises
    [UnicodeEncodeError] at its first message: the directory has been
    created and no file is written. *)
Theorem X_console_without_emoji_is_fatal (isalnum : char -> bool)
    (topic content r c s : str) (images : list str) (e : env) (w : world) :
  accepts e -> stdout_encodes e 128190%N = false ->
  Qwen.save_content_to_files isalnum topic content e w
  = (Raises (UnicodeEncodeError stdout_encoding
               (py "\n💾 Saving technical content to: "
                ++ output_dir_of (py "technical_content/") (safe_topic isalnum topic)
                     (clock e (ticks w)))),
     {| ticks := S (ticks w);
        dirs := output_dir_of (py "technical_content/") (safe_topic isalnum topic)
                  (clock e (ticks w)) :: dirs w;
        disk := disk w |})
  /\ Main.save_content_to_files isalnum topic content images e w
     = (Raises (UnicodeEncodeError stdout_encoding
                  (py "\n💾 Saving content to: "
                   ++ output_dir_of (py "outputs/") (safe_topic isalnum topic)
                        (clock e (ticks w)))),
        {| ticks := S (ticks w);
           dirs := output_dir_of (py "outputs/") (safe_topic isalnum topic)
                     (clock e (ticks w)) :: dirs w;
           disk := disk w |})
  /\ Kilo.save_content_to_files isalnum topic r c s e w
     = (Raises (UnicodeEncodeError stdout_encoding
                  (py "\n💾 Saving multi-agent content to: "
                   ++ output_dir_of (py "multi_agent_content/")
                        (safe_topic isalnum topic) (clock e (ticks w)))),
        {| ticks := S (ticks w);
           dirs := output_dir_of (py "multi_agent_content/")
                     (safe_topic isalnum topic) (clock e (ticks w)) :: dirs w;
           disk := disk w |}).
Proof.
  intros Ha He. destruct w as [t d m]. cbn [ticks dirs disk]. unfold output_dir_of.
  assert (Hm : forall message dir : str,
             In 128190%N message ->
             console_encodes e ((message ++ dir) ++ [10%N]) = false).
  { intros message dir Hin. apply (console_encodes_missing e _ 128190%N); [|exact He].
    apply in_or_app. left. apply in_or_app. by left. }
  split; [|split].
  - unfold Qwen.save_content_to_files. rewrite bind_run, now_run. cbv beta iota zeta.
    apply first_message_fatal; [exact Ha|].
    apply Hm. vm_compute. right. by left.
  - unfold Main.save_content_to_files. rewrite bind_run, now_run. cbv beta iota zeta.
    apply first_message_fatal; [exact Ha|].
    apply Hm. vm_compute. right. by left.
  - unfold Kilo.save_content_to_files. rewrite bind_run, now_run. cbv beta iota zeta.
    apply first_message_fatal; [exact Ha|].
    apply Hm. vm_compute. right. by left.
Qed.

(** ** [GoogleScholarTool._run] *)

Section ScholarFacts.
Variable isalnum : char -> bool.
Variable decimal_value : char -> option nat.
Variable isdigit_char : char -> bool.
Variable int_max_str_digits : option nat.
Variable value_error : str -> str.

Local Abbreviation search_year := (Scholar.search_year isalnum decimal_value).
Local Abbreviation match_year_here := (Scholar.match_year_here isalnum decimal_value).
Local Abbreviation matches := (year_match isalnum decimal_value).
Local Abbreviation result_year := (Scholar.result_year isalnum decimal_value).
Local Abbreviation result_text := (Scholar.result_text isalnum decimal_value).
Local Abbreviation py_int := (Scholar.py_int decimal_value int_max_str_digits value_error).
Local Abbreviation format_results :=
  (Scholar.format_results isalnum decimal_value isdigit_char int_max_str_digits
     value_error).
Local Abbreviation parses :=
  (year_parses isalnum decimal_value isdigit_char int_max_str_digits value_error).
Local Abbreviation is_listed := (listed isalnum decimal_value isdigit_char).
Local Abbreviation try_block :=
  (Scholar.try_block isalnum decimal_value isdigit_char int_max_str_digits value_error).
Local Abbreviation _run :=
  (Scholar._run isalnum decimal_value isdigit_char int_max_str_digits value_error).
Local Abbreviation _run_streamlit :=
  (Scholar._run_streamlit isalnum decimal_value isdigit_char int_max_str_digits
     value_error).

Lemma match_year_here_spec (prev : option char) (s : str) :
  match_year_here prev s = true <-> matches prev s 0.
Proof.
  split.
  - destruct s as [|c0 [|c1 [|c2 [|c3 rest]]]]; try discriminate.
    unfold Scholar.match_year_here. rewrite !andb_true_iff, !N.eqb_eq.
    intros (((((Hb & ->) & ->) & H2) & H3) & He).
    exists [], c2, c3, rest. repeat split; try done.
  - intros (pre & d1 & d2 & post & -> & Hl & H1 & H2 & Hb & He).
    destruct pre; [|discriminate Hl]. cbn [app].
    unfold char_before in Hb. cbn [last] in Hb.
    unfold Scholar.match_year_here. rewrite Hb, H1, H2, !N.eqb_refl.
    cbn [andb]. exact He.
Qed.

Lemma year_match_S (prev : option char) (c : char) (s : str) (p : nat) :
  matches prev (c :: s) (S p) <-> matches (Some c) s p.
Proof.
  assert (Hcb : forall pre, char_before prev (c :: pre) = char_before (Some c) pre).
  { intros pre. unfold char_before. destruct pre as [|d pre]; [done|].
    change (last (c :: d :: pre)) with (last (d :: pre)).
    destruct (last (d :: pre)) eqn:E; [done|].
    by apply last_None in E. }
  split.
  - intros (pre & d1 & d2 & post & H & Hl & H1 & H2 & Hb & He).
    destruct pre as [|c' pre]; [discriminate Hl|]. injection H as -> ->.
    injection Hl as Hl. rewrite Hcb in Hb.
    by exists pre, d1, d2, post.
  - intros (pre & d1 & d2 & post & -> & Hl & H1 & H2 & Hb & He).
    exists (c :: pre), d1, d2, post. rewrite Hcb. simpl. by rewrite Hl.
Qed.

Lemma year_match_nil (prev : option char) (p : nat) : ~ matches prev [] p.
Proof.
  intros (pre & d1 & d2 & post & H & _). destruct pre; discriminate H.
Qed.

Lemma search_year_spec (prev : option char) (s : str) :
  (search_year prev s = None /\ forall p, ~ matches prev s p)
  \/ exists p, search_year prev s = Some (take 4 (drop p s))
               /\ matches prev s p
               /\ forall q, (q < p)%nat -> ~ matches prev s q.
Proof.
  revert prev. induction s as [|c s IH]; intros prev.
  - left. split; [reflexivity|]. intros p. apply year_match_nil.
  - change (search_year prev (c :: s))
      with (if match_year_here prev (c :: s) then Some (take 4 (c :: s))
            else search_year (Some c) s).
    destruct (match_year_here prev (c :: s)) eqn:E.
    + right. exists 0%nat. split; [reflexivity|].
      split; [by apply match_year_here_spec | lia].
    + destruct (IH (Some c)) as [[Hn Hno] | (p & Hs & Hp & Hmin)].
      * left. split; [exact Hn|]. intros [|p] H.
        -- apply match_year_here_spec in H. congruence.
        -- apply year_match_S in H. by apply (Hno p).
      * right. exists (S p). split; [exact Hs|]. split; [by apply year_match_S|].
        intros [|q] Hq H.
        -- apply match_year_here_spec in H. congruence.
        -- apply year_match_S in H. apply (Hmin q); [lia | done].
Qed.

(** X16: the year taken from a snippet is the leftmost four characters [20dd]
    with decimal digits [dd] and a word boundary on each side; none is
    found exactly when the snippet has no such place. *)
Theorem X_scholar_year_from_snippet (snippet : str) :
  (forall y, search_year None snippet = Some y ->
     exists pre d1 d2 post,
       snippet = pre ++ y ++ post
       /\ y = [50%N; 48%N; d1; d2]
       /\ Scholar.isdecimal decimal_value d1 = true
       /\ Scholar.isdecimal decimal_value d2 = true
       /\ matches None snippet (length pre)
       /\ forall q, (q < length pre)%nat -> ~ matches None snippet q)
  /\ (search_year None snippet = None <-> forall p, ~ matches None snippet p).
Proof.
  destruct (search_year_spec None snippet) as [[Hn Hno] | (p & Hs & Hp & Hmin)].
  - split; [intros y Hy; congruence|]. split; [done|]. by intros _.
  - split.
    + intros y Hy. rewrite Hs in Hy. injection Hy as <-.
      destruct Hp as (pre & d1 & d2 & post & -> & Hl & H1 & H2 & Hb & He).
      exists pre, d1, d2, post. subst p.
      rewrite drop_app_length. split; [reflexivity|]. split; [reflexivity|].
      split; [done|]. split; [done|]. split; [|done].
      by exists pre, d1, d2, post.
    + split; [congruence|]. intros Hno. by destruct (Hno p).
Qed.

Lemma format_results_ok (start_year : Z) (results : list Scholar.result)
    (acc : list str) :
  Forall parses results ->
  format_results start_year results acc
  = inr (acc ++ map result_text (List.filter (is_listed start_year) results)).
Proof.
  intros H. revert acc. induction H as [|r rest Hr _ IH]; intros acc.
  - simpl. by rewrite app_nil_r.
  - cbn [Scholar.format_results List.filter]. cbv zeta. unfold listed at 1. cbv zeta.
    unfold year_parses in Hr. cbv zeta in Hr.
    destruct (Scholar.nonempty (result_year r)) eqn:En; cbn [andb negb orb].
    + destruct (Scholar.isdigit isdigit_char (result_year r)) eqn:Ed; cbn [andb].
      * destruct (Hr eq_refl) as [n Hn]. rewrite Hn.
        unfold Scholar.py_int in Hn.
        destruct (Scholar.exceeds_limit int_max_str_digits (result_year r));
          [discriminate Hn|].
        destruct (Scholar.digits_value decimal_value (result_year r) 0) as [v|];
          [|discriminate Hn].
        injection Hn as ->.
        destruct (start_year <=? n).
        -- rewrite IH. cbn [map]. by rewrite <- app_assoc.
        -- apply IH.
      * apply IH.
    + rewrite IH. cbn [map]. by rewrite <- app_assoc.
Qed.

Lemma format_results_raises (start_year : Z) (before : list Scholar.result)
    (r : Scholar.result) (after : list Scholar.result) (acc : list str) (e : Scholar.error) :
  Forall parses before ->
  Scholar.nonempty (result_year r) && Scholar.isdigit isdigit_char (result_year r) = true ->
  py_int (result_year r) = inl e ->
  format_results start_year (before ++ r :: after) acc = inl e.
Proof.
  intros H Hd He. revert acc. induction H as [|b rest Hb _ IH]; intros acc.
  - cbn [app Scholar.format_results]. cbv zeta. by rewrite Hd, He.
  - cbn [app Scholar.format_results]. cbv zeta.
    unfold year_parses in Hb. cbv zeta in Hb.
    destruct (Scholar.nonempty (result_year b) && Scholar.isdigit isdigit_char (result_year b)).
    + destruct (Hb eq_refl) as [n ->]. destruct (start_year <=? n); apply IH.
    + destruct (negb (Scholar.nonempty (result_year b))); apply IH.
Qed.

Lemma scholar_try_block_sent (message : str) (api_key : option str) (now : datetime)
    (reply : Scholar.reply) (query : str) (years_back : Z) :
  fst (try_block message api_key now reply query years_back)
  = if Scholar.missing api_key then [] else [scholar_request api_key query].
Proof.
  unfold Scholar.try_block. destruct (Scholar.missing api_key); [reflexivity|].
  cbv zeta. destruct reply as [e | status text [e | [[[|r results]|]]]];
    try reflexivity;
    destruct (negb (status =? 200)); try reflexivity.
  cbn [Scholar.organic].
  match goal with
  | |- context [Scholar.format_results ?a ?b ?c ?d ?e ?f ?g ?h] =>
      destruct (Scholar.format_results a b c d e f g h) as [err | [|fr frs]]
  end; reflexivity.
Qed.

(** The run on a reply with status 200 and results whose years can be
    read. *)
Lemma scholar_try_block_ok (message : str) (api_key : option str) (now : datetime)
    (text : str) (results : list Scholar.result) (query : str) (years_back : Z) :
  Scholar.missing api_key = false ->
  results <> [] ->
  Forall parses (take 6 results) ->
  try_block message api_key now
    (Scholar.Response 200 text (inr (Scholar.Data (Some results)))) query years_back
  = ([scholar_request api_key query],
     inr (scholar_report query years_back
            (map result_text
               (List.filter (is_listed (Z.of_nat (year now) - years_back))
                  (take 6 results))))).
Proof.
  intros Hk Hne Hp. unfold Scholar.try_block. rewrite Hk. cbv zeta.
  change (negb (200 =? 200)) with false. cbv iota. cbn [Scholar.organic].
  destruct results as [|r results]; [done|].
  rewrite (format_results_ok _ _ _ Hp). cbn [app].
  unfold scholar_report, scholar_request.
  destruct (map result_text _) as [|f fs]; reflexivity.
Qed.

(** X17: for a reply with status 200 and results whose years can be read,
    [_run] sends one request and reports, of the first six results and in
    their order, those without a year and those whose year is a digit
    string of value at least the current year minus [years_back]; a result
    with any other year is left out.  The Streamlit variant returns the
    same. *)
Theorem X_scholar_lists_by_year (api_key : option str) (now : datetime) (text : str)
    (results : list Scholar.result) (query : str) (years_back : Z) :
  Scholar.missing api_key = false ->
  results <> [] ->
  Forall parses (take 6 results) ->
  _run api_key now (Scholar.Response 200 text (inr (Scholar.Data (Some results))))
    query years_back
  = ([scholar_request api_key query],
     scholar_report query years_back
       (map result_text
          (List.filter (is_listed (Z.of_nat (year now) - years_back))
             (take 6 results))))
  /\ _run_streamlit api_key now
       (Scholar.Response 200 text (inr (Scholar.Data (Some results)))) query years_back
     = _run api_key now (Scholar.Response 200 text (inr (Scholar.Data (Some results))))
         query years_back.
Proof.
  intros Hk Hne Hp. unfold Scholar._run, Scholar._run_streamlit. cbv zeta.
  rewrite !(scholar_try_block_ok _ _ _ _ _ _ _ Hk Hne Hp). split; reflexivity.
Qed.

Lemma listed_mono (start_year start_year' : Z) (r : Scholar.result) :
  start_year' <= start_year ->
  is_listed start_year r = true -> is_listed start_year' r = true.
Proof.
  intros Hle. unfold listed. cbv zeta.
  destruct (negb (Scholar.nonempty (result_year r))); [done|]. cbn [orb].
  destruct (Scholar.isdigit isdigit_char (result_year r)); [|done]. cbn [andb].
  destruct (Scholar.digits_value decimal_value (result_year r) 0) as [n|]; [|done].
  rewrite !Z.leb_le. lia.
Qed.

Lemma filter_sublist_mono {A : Type} (f g : A -> bool) (l : list A) :
  (forall x, f x = true -> g x = true) ->
  sublist (List.filter f l) (List.filter g l).
Proof.
  intros H. induction l as [|x l IH]; simpl; [constructor|].
  destruct (f x) eqn:Ef.
  - rewrite (H x Ef). by constructor.
  - destruct (g x); [by constructor | done].
Qed.

Lemma map_sublist {A B : Type} (f : A -> B) (l k : list A) :
  sublist l k -> sublist (map f l) (map f k).
Proof. induction 1; simpl; by constructor. Qed.

(** X18: looking further back never loses a result: the results listed for
    [years_back] are among those listed for any larger value, in the same
    order. *)
Theorem X_scholar_more_years_back_lists_more (api_key : option str) (now : datetime)
    (text : str) (results : list Scholar.result) (query : str) (years_back years_back' : Z) :
  Scholar.missing api_key = false ->
  results <> [] ->
  Forall parses (take 6 results) ->
  years_back <= years_back' ->
  exists shown shown',
    _run api_key now (Scholar.Response 200 text (inr (Scholar.Data (Some results))))
      query years_back
    = ([scholar_request api_key query], scholar_report query years_back shown)
    /\ _run api_key now (Scholar.Response 200 text (inr (Scholar.Data (Some results))))
         query years_back'
       = ([scholar_request api_key query], scholar_report query years_back' shown')
    /\ sublist shown shown'.
Proof.
  intros Hk Hne Hp Hle. eexists _, _.
  unfold Scholar._run. cbv zeta.
  rewrite !(scholar_try_block_ok _ _ _ _ _ _ _ Hk Hne Hp).
  split; [reflexivity|]. split; [reflexivity|].
  apply map_sublist, filter_sublist_mono. intros r. apply listed_mono. lia.
Qed.

(** X19: if one of the first six results has a year that passes [isdigit()]
    and that [int()] rejects (a digit that is not decimal, or a string over
    the length limit), the whole search returns the failure message with
    the text of that error, and none of the earlier results. *)
Theorem X_scholar_unreadable_year_fails_search (api_key : option str) (now : datetime)
    (text : str) (before : list Scholar.result) (r : Scholar.result)
    (after : list Scholar.result) (query : str) (years_back : Z) :
  Scholar.missing api_key = false ->
  (length before < 6)%nat ->
  Forall parses before ->
  Scholar.isdigit isdigit_char (result_year r) = true ->
  Scholar.digits_value decimal_value (result_year r) 0 = None
  \/ Scholar.exceeds_limit int_max_str_digits (result_year r) = true ->
  _run api_key now
    (Scholar.Response 200 text (inr (Scholar.Data (Some (before ++ r :: after)))))
    query years_back
  = ([scholar_request api_key query],
     py "❌ Google Scholar search failed: " ++ value_error (result_year r)).
Proof.
  intros Hk Hl Hp Hd Hv.
  assert (Hnd : Scholar.nonempty (result_year r)
                && Scholar.isdigit isdigit_char (result_year r) = true).
  { rewrite Hd. unfold Scholar.isdigit in Hd. by destruct (result_year r). }
  assert (He : py_int (result_year r)
               = inl (Scholar.Exception (value_error (result_year r)))).
  { unfold Scholar.py_int.
    destruct (Scholar.exceeds_limit int_max_str_digits (result_year r)); [done|].
    destruct Hv as [-> | Hv]; [done | discriminate Hv]. }
  assert (Ht : exists after', take 6 (before ++ r :: after) = before ++ r :: after').
  { rewrite take_app, (take_ge before) by lia.
    destruct (6 - length before)%nat as [|k] eqn:E; [lia|]. by eexists. }
  destruct Ht as [after' Ht].
  unfold Scholar._run, Scholar.try_block. rewrite Hk. cbv zeta.
  change (negb (200 =? 200)) with false. cbv iota. cbn [Scholar.organic].
  destruct (before ++ r :: after) as [|x l] eqn:E; [by destruct before|].
  rewrite Ht.
  rewrite (format_results_raises (Z.of_nat (year now) - years_back) before r after' []
             _ Hp Hnd He).
  unfold scholar_request. reflexivity.
Qed.

(** X20: results after the sixth have no influence on what [_run] returns. *)
Theorem X_scholar_ignores_results_after_sixth (api_key : option str) (now : datetime)
    (status_code : Z) (text : str) (results : list Scholar.result) (query : str)
    (years_back : Z) :
  _run api_key now
    (Scholar.Response status_code text (inr (Scholar.Data (Some results))))
    query years_back
  = _run api_key now
      (Scholar.Response status_code text (inr (Scholar.Data (Some (take 6 results)))))
      query years_back.
Proof.
  unfold Scholar._run, Scholar.try_block.
  destruct (Scholar.missing api_key); [reflexivity|]. cbv zeta.
  destruct (negb (status_code =? 200)); [reflexivity|]. cbn [Scholar.organic].
  destruct results as [|r results]; [reflexivity|].
  change (take 6 (r :: results)) with (r :: take 5 results).
  change (take 6 (r :: take 5 results)) with (r :: take 5 (take 5 results)).
  by rewrite take_take, Nat.min_id.
Qed.

(** X21: without a key (absent or empty) [_run] sends no request and returns
    the message for a missing key; with a key it sends exactly one request,
    for the query, whatever the reply. *)
Theorem X_scholar_sends_at_most_one_request (api_key : option str) (now : datetime)
    (reply : Scholar.reply) (query : str) (years_back : Z) :
  (Scholar.missing api_key = true ->
     _run api_key now reply query years_back
     = ([], py "❌ SERPER_API_KEY not found in environment variables")
     /\ _run_streamlit api_key now reply query years_back
        = ([], py "❌ SERPER_API_KEY not provided"))
  /\ (Scholar.missing api_key = false ->
     fst (_run api_key now reply query years_back) = [scholar_request api_key query]
     /\ fst (_run_streamlit api_key now reply query years_back)
        = [scholar_request api_key query]).
Proof.
  split; intros Hk.
  - unfold Scholar._run, Scholar._run_streamlit, Scholar.try_block. by rewrite Hk.
  - unfold Scholar._run, Scholar._run_streamlit. cbn [fst].
    by rewrite !scholar_try_block_sent, Hk.
Qed.
End ScholarFacts.

(** ** Image generation in [main.py] *)

Section ImagesFacts.
Variable isalnum : char -> bool.
Variable hash : str -> Z.
Variable post : str -> Images.reply.
Variable exception_text : exn -> str.

Local Abbreviation generate_image := (Images.generate_image hash post exception_text).
Local Abbreviation generate_each := (Images.generate_each hash post exception_text).
Local Abbreviation generate_images := (Images.generate_images hash post exception_text).
Local Abbreviation create_content :=
  (Images.create_content isalnum hash post exception_text).













Lemma generate_image_run (prompt output_dir : str) (e : env) t d m :
  accepts e -> unicode_console e -> encodable (slice_to prompt 50) = true ->
  generate_image prompt output_dir e (World t d m)
  = (Returns (image_result hash post prompt output_dir),
     World t (output_dir :: d) (image_disk hash post prompt output_dir m)).
Proof.
  intros H Hc Hp. unfold Images.generate_image, Images.try_block.
  rewrite bind_run, (makedirs_run _ _ _ _ _ H). cbv beta iota.
  rewrite bind_run, (print_run _ _ _ Hc) by enc. cbv beta iota.
  unfold image_result, image_disk, image_filename.
  destruct (post prompt) as [text | status text content]; [reflexivity|].
  destruct (status =? 200); [|reflexivity].
  cbv zeta. steps H Hc. reflexivity.
Qed.

(** X14: with an accepting filesystem and a console that encodes its
    message, [generate_image] creates its directory and writes a file only
    for a reply with status 200; the file is [stability_image_k.png] with
    [0 <= k < 10000], whatever the sign of the hash, and holds the content
    of the reply. *)
Theorem X_generate_image_file_only_on_200 (prompt output_dir : str) (e : env) t d m :
  accepts e -> unicode_console e -> encodable (slice_to prompt 50) = true ->
  exists result m',
    generate_image prompt output_dir e (World t d m)
    = (Returns result, World t (output_dir :: d) m')
    /\ match post prompt with
       | Images.Response 200 _ content =>
           exists k, 0 <= k < 10000
             /\ result = py "✅ Stability AI image saved: " ++ output_dir
                         ++ py "/stability_image_" ++ str_of_Z k ++ py ".png"
             /\ m' = <[output_dir ++ py "/stability_image_" ++ str_of_Z k ++ py ".png"
                       := content]> m
       | _ => m' = m
       end.
Proof.
  intros H Hc Hp. eexists _, _. split; [by apply generate_image_run|].
  unfold image_disk, image_result, image_filename.
  destruct (post prompt) as [text | status text content]; [reflexivity|].
  destruct (status =? 200) eqn:E.
  - apply Z.eqb_eq in E. subst status.
    exists (hash prompt mod 10000). split; [by apply Z.mod_pos_bound|].
    split; reflexivity.
  - destruct status as [|p|p]; try reflexivity.
    repeat (destruct p; try reflexivity). discriminate E.
Qed.

(** X12: a run of [main.py] in which nothing fails leaves in
    [images_generated.txt] its title, a rule of fifty [=] and one entry per
    image result, in order and numbered from 1; the entries of a longer
    list continue the numbering. *)
Theorem X_images_file_lists_results (e : env) (topic content : str)
    (images more : list str) (w : world) :
  accepts e -> unicode_console e ->
  encodable topic = true -> encodable content = true -> all_encodable images ->
  (exists w',
     Main.save_content_to_files isalnum topic content images e w
     = (Returns (output_dir_of (py "outputs/") (safe_topic isalnum topic)
                   (clock e (ticks w))), w')
     /\ disk w' !! (output_dir_of (py "outputs/") (safe_topic isalnum topic)
                      (clock e (ticks w)) ++ py "/images_generated.txt")
        = Some (main_images_header topic ++ main_images_entries 1 images))
  /\ main_images_entries 1 (images ++ more)
     = main_images_entries 1 images ++ main_images_entries (1 + length images) more.
Proof.
  intros H Hc Ht Hr Hi. split.
  { destruct (main_run isalnum e topic content images w H Hc Ht Hr Hi)
      as (w' & Hrun & _ & _ & Himg).
    exists w'. split; [exact Hrun | exact Himg]. }
  clear Hi. generalize 1%nat. induction images as [|img rest IH]; intros i.
  - cbn [app length main_images_entries]. by rewrite Nat.add_0_r.
  - cbn [app length main_images_entries]. rewrite IH, <- !app_assoc.
    by replace (S i + length rest)%nat with (i + S (length rest))%nat by lia.
Qed.

Lemma generate_images_run (topic : str) (e : env) t d m :
  accepts e -> unicode_console e -> encodable topic = true ->
  generate_images topic e (World t d m)
  = (Returns (map (fun prompt => image_result hash post prompt (py "generated_images"))
                (Images.prompts topic)),
     World t (py "generated_images" :: py "generated_images" :: d)
       (fold_left (fun m prompt => image_disk hash post prompt (py "generated_images") m)
          (Images.prompts topic) m)).
Proof.
  intros H Hc Ht. unfold Images.generate_images, Images.prompts.
  rewrite bind_run, (print_run _ _ _ Hc) by enc. cbv beta iota zeta.
  cbn [Images.generate_each length map fold_left].
  rewrite bind_run, (print_run _ _ _ Hc) by enc. cbv beta iota.
  rewrite bind_run, (generate_image_run _ _ _ _ _ _ H Hc) by enc. cbv beta iota zeta.
  change (1 <? 2)%nat with true. cbv beta iota.
  rewrite bind_run, bind_run, (print_run _ _ _ Hc) by enc. cbv beta iota.
  unfold sleep. rewrite mret_run. cbv beta iota.
  rewrite bind_run, (print_run _ _ _ Hc) by enc. cbv beta iota.
  rewrite bind_run, (generate_image_run _ _ _ _ _ _ H Hc) by enc. cbv beta iota zeta.
  change (2 <? 2)%nat with false. cbv beta iota.
  rewrite bind_run, mret_run. cbv beta iota. rewrite mret_run.
  reflexivity.
Qed.

Lemma try_except_returns {A : Type} (body : M A) (handler : exn -> M A) (e : env)
    (w w' : world) (a : A) :
  body e w = (Returns a, w') -> try_except body handler e w = (Returns a, w').
Proof. intros H. unfold try_except. by rewrite H. Qed.

(** X15: after [crew.kickoff] has returned, [create_content] of [main.py]
    with an accepting filesystem, a console that encodes the messages and
    texts that UTF-8 can encode returns the two image results, failures
    included, and the package's [images_generated.txt] lists them. *)
Theorem X_image_results_are_recorded (e : env) (topic result : str) (w : world) :
  accepts e -> unicode_console e ->
  encodable topic = true -> encodable result = true ->
  let dir := output_dir_of (py "outputs/") (safe_topic isalnum topic)
               (clock e (ticks w)) in
  let images :=
    map (fun prompt => image_result hash post prompt (py "generated_images"))
      (Images.prompts topic) in
  all_encodable images ->
  exists w',
    create_content topic result e w = (Returns (result, images, dir), w')
    /\ length images = 2%nat
    /\ disk w' !! (dir ++ py "/images_generated.txt")
       = Some (main_images_header topic ++ main_images_entries 1 images).
Proof.
  intros H Hc Ht Hr dir images Hi. destruct w as [t d m].
  destruct (main_run isalnum e topic result images
              (World t (py "generated_images" :: py "generated_images" :: d)
                 (fold_left
                    (fun m prompt =>
                       image_disk hash post prompt (py "generated_images") m)
                    (Images.prompts topic) m))
              H Hc Ht Hr Hi)
    as (w' & Hrun & _ & _ & Himg).
  exists w'. split; [|split; [reflexivity | exact Himg]].
  unfold Images.create_content. apply try_except_returns.
  rewrite bind_run, (print_run _ _ _ Hc) by enc. cbv beta iota.
  rewrite bind_run, (print_run _ _ _ Hc) by enc. cbv beta iota.
  unfold sleep at 1. rewrite bind_run, mret_run. cbv beta iota.
  rewrite bind_run, (generate_images_run _ _ _ _ _ H Hc Ht). cbv beta iota.
  fold images. rewrite bind_run, Hrun. cbv beta iota.
  reflexivity.
Qed.
End ImagesFacts.

(** ** Concrete runs *)

Lemma X_social_ends_at_twitter_witness :
  Qwen.social_end raw_full = 222.
Proof.
  apply (X_social_ends_at_twitter raw_full 133 222).
  - apply find_first_occurrence. vm_compute. reflexivity.
  - apply find_first_occurrence. vm_compute. reflexivity.
  - lia.
Defined.

Lemma X_social_lost_when_twitter_first_witness :
  Qwen.social_content raw_social_lost = [] /\ social_extracted raw_social_lost = false.
Proof.
  apply (proj2 (X_social_lost_when_twitter_first raw_social_lost 0 54
                  ltac:(apply find_first_occurrence; vm_compute; reflexivity)
                  ltac:(apply find_first_occurrence; vm_compute; reflexivity)
                  ltac:(lia)) 25%nat).
  - apply find_first_occurrence. vm_compute. reflexivity.
  - lia.
Defined.

Lemma X_blog_adjacent_linkedin_witness :
  Qwen.blog_end raw_adjacent = len raw_adjacent.
Proof.
  apply (X_blog_adjacent_linkedin [] (py "\n" ++ replicate 120 98%N)).
  - apply find_first_occurrence. vm_compute. reflexivity.
  - apply find_first_occurrence. vm_compute. reflexivity.
  - vm_compute. reflexivity.
  - vm_compute. reflexivity.
Defined.

Lemma X_qwen_blog_in_order_witness :
  Qwen.blog_content (py "# BLOG POST\nhello\n# LINKEDIN POSTS\npost") = py "hello".
Proof.
  apply (X_qwen_blog_in_order [] (py "\nhello\n") (py "\npost")).
  - apply find_first_occurrence. vm_compute. reflexivity.
  - apply find_first_occurrence. vm_compute. reflexivity.
  - discriminate.
Defined.

Lemma X_main_blog_in_order_witness :
  Main.blog_content (py "# BLOG POST\nhello\n# LINKEDIN POSTS\npost") = py "hello".
Proof.
  apply (X_main_blog_in_order [] (py "\nhello\n") (py "\npost")).
  - apply find_first_occurrence. vm_compute. reflexivity.
  - apply find_first_occurrence. vm_compute. reflexivity.
Defined.

Lemma X_contents_are_trimmed_witness : isspace 97%N = false.
Proof.
  apply (proj1 (proj1 (X_contents_are_trimmed raw_body101)) 97%N (replicate 100 97%N)).
  vm_compute. reflexivity.
Defined.

Lemma X_short_slug_has_no_trailing_space_witness : isspace 115%N = false.
Proof.
  apply (X_short_slug_has_no_trailing_space isalnum_ascii topic0
           (py "Agentic AI Workflow") 115%N).
  - vm_compute. lia.
  - vm_compute. reflexivity.
Defined.

Lemma X_stale_section_file_survives_witness :
  exists w' t,
    Qwen.save_content_to_files isalnum_ascii topic0 raw_no_markers env0 world_stale
    = (Returns (output_dir_of (py "technical_content/")
                  (safe_topic isalnum_ascii topic0) (clock env0 (ticks world_stale))),
       w')
    /\ disk w' !! (output_dir_of (py "technical_content/")
                     (safe_topic isalnum_ascii topic0)
                     (clock env0 (ticks world_stale)) ++ py "/technical_blog_post.md")
       = Some (py "old post")
    /\ disk w' !! (output_dir_of (py "technical_content/")
                     (safe_topic isalnum_ascii topic0)
                     (clock env0 (ticks world_stale)) ++ py "/README.md")
       = Some (qwen_readme_text topic0 t false (social_extracted raw_no_markers)
                 (midjourney_extracted raw_no_markers)).
Proof.
  apply (X_stale_section_file_survives isalnum_ascii env0 world_stale topic0
           raw_no_markers (py "old post") accepts_env0 unicode_console_env0
           eq_refl eq_refl).
  - vm_compute. reflexivity.
  - vm_compute. reflexivity.
Defined.

Lemma X_readme_warns_iff_section_missing_witness :
  accepts env0 /\ unicode_console env0
  /\ encodable topic0 = true /\ encodable raw_full = true
  /\ exists w' t,
       Qwen.save_content_to_files isalnum_ascii topic0 raw_full env0 world0
       = (Returns (output_dir_of (py "technical_content/")
                     (safe_topic isalnum_ascii topic0) (clock env0 (ticks world0))), w')
       /\ disk w' !! (output_dir_of (py "technical_content/")
                        (safe_topic isalnum_ascii topic0)
                        (clock env0 (ticks world0)) ++ py "/README.md")
          = Some (qwen_readme_head topic0 t
                  ++ Qwen.success_rate
                       (Qwen.files_created (blog_extracted raw_full)
                          (social_extracted raw_full) (midjourney_extracted raw_full))
                  ++ py "## 📁 Files:\n\n"
                  ++ Qwen.blog_line (blog_extracted raw_full)
                  ++ Qwen.social_line (social_extracted raw_full)
                  ++ Qwen.midjourney_line (midjourney_extracted raw_full)
                  ++ qwen_readme_features
                  ++ (if blog_extracted raw_full && social_extracted raw_full
                         && midjourney_extracted raw_full
                      then [] else qwen_issues_text)).
Proof.
  split; [exact accepts_env0|]. split; [exact unicode_console_env0|].
  split; [reflexivity|]. split; [reflexivity|].
  exact (X_readme_warns_iff_section_missing isalnum_ascii env0 world0 topic0 raw_full
           accepts_env0 unicode_console_env0 eq_refl eq_refl).
Defined.


Lemma qwen_files_produced_witness :
  exists w',
    Qwen.save_content_to_files isalnum_ascii topic0 raw_full env0 world0
    = (Returns (output_dir_of (py "technical_content/")
                  (safe_topic isalnum_ascii topic0) (clock env0 (ticks world0))), w')
    /\ size (disk w')
       = (size (disk world0)
          + S (Qwen.files_created (blog_extracted raw_full) (social_extracted raw_full)
                 (midjourney_extracted raw_full)))%nat.
Proof.
  apply (qwen_files_produced isalnum_ascii env0 world0 topic0 raw_full accepts_env0
           unicode_console_env0 eq_refl eq_refl).
  intros name _. apply lookup_empty.
Defined.

Lemma paper_years_parse :
  Forall (year_parses isalnum_ascii decimal_value_ascii isdigit_char_sample
            (Some 4300%nat) value_error_sample)
    [paper_2023; paper_2019].
Proof.
  repeat constructor; intros _; eexists; vm_compute; reflexivity.
Qed.

Lemma X_scholar_year_from_snippet_witness :
  exists pre d1 d2 post,
    py "J Doe - 2023 - Springer ... text" = pre ++ py "2023" ++ post
    /\ py "2023" = [50%N; 48%N; d1; d2]
    /\ Scholar.isdecimal decimal_value_ascii d1 = true
    /\ Scholar.isdecimal decimal_value_ascii d2 = true
    /\ year_match isalnum_ascii decimal_value_ascii None
         (py "J Doe - 2023 - Springer ... text") (length pre)
    /\ forall q, (q < length pre)%nat ->
         ~ year_match isalnum_ascii decimal_value_ascii None
             (py "J Doe - 2023 - Springer ... text") q.
Proof.
  apply (proj1 (X_scholar_year_from_snippet isalnum_ascii decimal_value_ascii
                  (py "J Doe - 2023 - Springer ... text")) (py "2023")).
  vm_compute. reflexivity.
Defined.

Lemma X_scholar_lists_by_year_witness :
  Scholar._run isalnum_ascii decimal_value_ascii isdigit_char_sample (Some 4300%nat)
    value_error_sample (Some (py "key")) now0 (reply_of [paper_2023; paper_2019])
    (py "rag") 3
  = ([scholar_request (Some (py "key")) (py "rag")],
     scholar_report (py "rag") 3
       (map (Scholar.result_text isalnum_ascii decimal_value_ascii)
          (List.filter
             (listed isalnum_ascii decimal_value_ascii isdigit_char_sample
                (Z.of_nat (year now0) - 3))
             (take 6 [paper_2023; paper_2019])))).
Proof.
  apply (proj1 (X_scholar_lists_by_year isalnum_ascii decimal_value_ascii
                  isdigit_char_sample (Some 4300%nat) value_error_sample
                  (Some (py "key")) now0 [] [paper_2023; paper_2019] (py "rag") 3
                  eq_refl ltac:(discriminate) paper_years_parse)).
Defined.

Lemma X_scholar_more_years_back_lists_more_witness :
  exists shown shown',
    Scholar._run isalnum_ascii decimal_value_ascii isdigit_char_sample (Some 4300%nat)
      value_error_sample (Some (py "key")) now0 (reply_of [paper_2023; paper_2019])
      (py "rag") 3
    = ([scholar_request (Some (py "key")) (py "rag")], scholar_report (py "rag") 3 shown)
    /\ Scholar._run isalnum_ascii decimal_value_ascii isdigit_char_sample
         (Some 4300%nat) value_error_sample (Some (py "key")) now0
         (reply_of [paper_2023; paper_2019]) (py "rag") 10
       = ([scholar_request (Some (py "key")) (py "rag")],
          scholar_report (py "rag") 10 shown')
    /\ sublist shown shown'.
Proof.
  apply (X_scholar_more_years_back_lists_more isalnum_ascii decimal_value_ascii
           isdigit_char_sample (Some 4300%nat) value_error_sample
           (Some (py "key")) now0 [] [paper_2023; paper_2019] (py "rag") 3 10
           eq_refl ltac:(discriminate) paper_years_parse ltac:(lia)).
Defined.

Lemma X_scholar_unreadable_year_fails_search_witness :
  Scholar._run isalnum_ascii decimal_value_ascii isdigit_char_sample (Some 4300%nat)
    value_error_sample (Some (py "key")) now0
    (reply_of ([paper_2023] ++ paper_superscript :: [])) (py "rag") 3
  = ([scholar_request (Some (py "key")) (py "rag")],
     py "❌ Google Scholar search failed: "
     ++ value_error_sample
          (Scholar.result_year isalnum_ascii decimal_value_ascii paper_superscript)).
Proof.
  apply (X_scholar_unreadable_year_fails_search isalnum_ascii decimal_value_ascii
           isdigit_char_sample (Some 4300%nat) value_error_sample
           (Some (py "key")) now0 [] [paper_2023] paper_superscript [] (py "rag") 3
           eq_refl).
  - simpl. lia.
  - constructor; [|constructor]. intros _. eexists. vm_compute. reflexivity.
  - vm_compute. reflexivity.
  - left. vm_compute. reflexivity.
Defined.

Lemma X_scholar_sends_at_most_one_request_witness :
  Scholar._run isalnum_ascii decimal_value_ascii isdigit_char_sample (Some 4300%nat)
    value_error_sample None now0 (reply_of [paper_2023]) (py "rag") 3
  = ([], py "❌ SERPER_API_KEY not found in environment variables").
Proof.
  exact (proj1 (proj1 (X_scholar_sends_at_most_one_request isalnum_ascii
                         decimal_value_ascii isdigit_char_sample (Some 4300%nat)
                         value_error_sample None now0 (reply_of [paper_2023])
                         (py "rag") 3) eq_refl)).
Defined.

Lemma X_generate_image_file_only_on_200_witness :
  exists result m',
    Images.generate_image hash_sample post_sample exception_text_sample
      (py "Professional photo") (py "generated_images") env0 (World 0 [] ∅)
    = (Returns result, World 0 [py "generated_images"] m')
    /\ match post_sample (py "Professional photo") with
       | Images.Response 200 _ content =>
           exists k, 0 <= k < 10000
             /\ result = py "✅ Stability AI image saved: " ++ py "generated_images"
                         ++ py "/stability_image_" ++ str_of_Z k ++ py ".png"
             /\ m' = <[py "generated_images" ++ py "/stability_image_" ++ str_of_Z k
                       ++ py ".png" := content]> ∅
       | _ => m' = ∅
       end.
Proof.
  exact (X_generate_image_file_only_on_200 hash_sample post_sample
           exception_text_sample (py "Professional photo") (py "generated_images")
           env0 0%nat [] ∅ accepts_env0 unicode_console_env0 eq_refl).
Defined.


Lemma X_images_file_lists_results_witness :
  accepts env0 /\ unicode_console env0
  /\ exists w',
       Main.save_content_to_files isalnum_ascii topic0 raw_full [py "a"] env0 world0
       = (Returns (output_dir_of (py "outputs/") (safe_topic isalnum_ascii topic0)
                     (clock env0 (ticks world0))), w')
       /\ disk w' !! (output_dir_of (py "outputs/") (safe_topic isalnum_ascii topic0)
                        (clock env0 (ticks world0)) ++ py "/images_generated.txt")
          = Some (main_images_header topic0 ++ main_images_entries 1 [py "a"]).
Proof.
  split; [exact accepts_env0|]. split; [exact unicode_console_env0|].
  exact (proj1 (X_images_file_lists_results isalnum_ascii env0 topic0 raw_full
                  [py "a"] [py "b"] world0 accepts_env0 unicode_console_env0
                  eq_refl eq_refl ltac:(repeat constructor))).
Defined.

Lemma X_image_results_are_recorded_witness :
  accepts env0 /\ unicode_console env0
  /\ exists w',
       Images.create_content isalnum_ascii hash_sample post_sample
         exception_text_sample topic0 raw_full env0 world0
       = (Returns (raw_full,
                   map (fun prompt =>
                          image_result hash_sample post_sample prompt
                            (py "generated_images"))
                     (Images.prompts topic0),
                   output_dir_of (py "outputs/") (safe_topic isalnum_ascii topic0)
                     (clock env0 (ticks world0))), w').
Proof.
  split; [exact accepts_env0|]. split; [exact unicode_console_env0|].
  destruct (X_image_results_are_recorded isalnum_ascii hash_sample post_sample
              exception_text_sample env0 topic0 raw_full world0 accepts_env0
              unicode_console_env0 eq_refl eq_refl
              ltac:(repeat constructor))
    as (w' & Hrun & _).
  exists w'. exact Hrun.
Defined.

Lemma X_console_without_emoji_is_fatal_witness :
  accepts env_latin1 /\ stdout_encodes env_latin1 128190%N = false
  /\ Qwen.save_content_to_files isalnum_ascii topic0 raw_full env_latin1 world0
     = (Raises (UnicodeEncodeError stdout_encoding
                  (py "\n💾 Saving technical content to: "
                   ++ output_dir_of (py "technical_content/")
                        (safe_topic isalnum_ascii topic0)
                        (clock env_latin1 (ticks world0)))),
        {| ticks := S (ticks world0);
           dirs := output_dir_of (py "technical_content/")
                     (safe_topic isalnum_ascii topic0)
                     (clock env_latin1 (ticks world0)) :: dirs world0;
           disk := disk world0 |}).
Proof.
  assert (Ha : accepts env_latin1) by (intros p; reflexivity).
  split; [exact Ha|]. split; [reflexivity|].
  exact (proj1 (X_console_without_emoji_is_fatal isalnum_ascii topic0 raw_full
                  [] [] [] [] env_latin1 world0 Ha eq_refl)).
Defined.
